(** * AQUA-ATMOS 3D mock-up: scene assembly and view controller

    A shallow embedding of the scene-assembly scripts
    ([modules/sorbant.js], [modules/peltier.js], [modules/filtration.js],
    [modules/assemblage.js], [helpers.js]) and of the view controller of
    [main.js].

    - JavaScript numbers are IEEE-754 binary64 values: primitive floats.
    - Objects created with [new] have an identity.  Scene-graph objects
      live in a forest (each object has at most one parent) and carry
      their identity; materials live in a store keyed by identity, so
      that two meshes can share one material.
    - The module builders run in a small state-and-failure monad over
      that heap; failure only stands for a dangling reference. *)

From Stdlib Require Import Floats ZArith List String Bool Lia.
From stdpp Require Import gmap strings.
Import ListNotations.

Set Warnings "-inexact-float,-register-all".

#[local] Open Scope nat_scope.

(** ** Numbers *)

(** [Math.PI], the double nearest to pi. *)
Definition Math_PI : float := 3.141592653589793%float.

(** A loop counter used as a number. *)
Definition num (n : nat) : float := PrimFloat.of_uint63 (Uint63.of_Z (Z.of_nat n)).

(** The functions of [Math] that ECMAScript leaves
    implementation-approximated, and [Math.round]; they belong to the
    host. *)
Class MathHost : Type := {
  Math_tan : float -> float;
  Math_cos : float -> float;
  Math_sin : float -> float;
  Math_round : float -> float;
}.

(** A host to run the model on: truncated power series for the sine and
    the cosine, and [floor (x + 0.5)] for [Math.round] on the
    non-negative arguments the scripts pass. *)
Module ReferenceHost.

#[local] Open Scope float_scope.

Fixpoint series (n : nat) (k : float) (x2 term acc : float) : float :=
  match n with
  | O => acc
  | S n' =>
      let term' := - term * x2 / ((k + 1) * (k + 2)) in
      series n' (k + 2) x2 term' (acc + term')
  end.

Definition sin (x : float) : float := series 40 1 (x * x) x x.
Definition cos (x : float) : float := series 40 0 (x * x) 1 1.
Definition tan (x : float) : float := sin x / cos x.

Definition floor (x : float) : float :=
  match Prim2SF x with
  | S754_finite false m e => PrimFloat.of_uint63 (Uint63.of_Z (Z.shiftl (Zpos m) e))
  | _ => 0
  end.

Definition round (x : float) : float := floor (x + 0.5).

Definition host : MathHost :=
  {| Math_tan := tan; Math_cos := cos; Math_sin := sin; Math_round := round |}.

End ReferenceHost.

(** ** three.js data *)

(** The identity of an object or of a material. *)
Abbreviation ident := nat.

Record Vector3 : Type := V3 { vx : float; vy : float; vz : float }.

Definition v3_zero : Vector3 := V3 0 0 0.
Definition v3_one : Vector3 := V3 1 1 1.

Inductive Side : Type := FrontSide | BackSide | DoubleSide.

Inductive MaterialType : Type :=
| MeshStandardMaterial
| MeshBasicMaterial
| LineBasicMaterial
| SpriteMaterial.

(** A colour is given as [0xRRGGBB] or as a CSS string. *)
Inductive Color : Type :=
| Hex (rgb : Z)
| Css (s : string).

(** What the 2D canvas of a text label holds: its size and the text and
    stroke colour drawn on it. *)
Record Canvas : Type := {
  cv_width : float;
  cv_height : float;
  cv_text : string;
  cv_style : string;
}.

Inductive Texture : Type := CanvasTexture (cv : Canvas).

Record Material : Type := {
  mtype : MaterialType;
  color : Color;
  roughness : option float;
  metalness : option float;
  opacity : float;
  transparent : bool;
  side : Side;
  wireframe : bool;
  depthTest : bool;
  map : option Texture;
}.

(** The defaults of [THREE.Material] and of its four subclasses used
    here ([SpriteMaterial] switches [transparent] on). *)
Definition Material_new (ty : MaterialType) : Material :=
  {| mtype := ty;
     color := Hex 0xffffff;
     roughness := match ty with MeshStandardMaterial => Some 1%float | _ => None end;
     metalness := match ty with MeshStandardMaterial => Some 0%float | _ => None end;
     opacity := 1;
     transparent := match ty with SpriteMaterial => true | _ => false end;
     side := FrontSide;
     wireframe := false;
     depthTest := true;
     map := None |}.

(** [Material.setValues]: the entries of a constructor's parameter object
    overwrite the defaults one by one. *)
Definition with_color (c : Color) (m : Material) : Material :=
  Build_Material (mtype m) c (roughness m) (metalness m) (opacity m)
    (transparent m) (side m) (wireframe m) (depthTest m) (map m).
Definition with_roughness (r : float) (m : Material) : Material :=
  Build_Material (mtype m) (color m) (Some r) (metalness m) (opacity m)
    (transparent m) (side m) (wireframe m) (depthTest m) (map m).
Definition with_metalness (x : float) (m : Material) : Material :=
  Build_Material (mtype m) (color m) (roughness m) (Some x) (opacity m)
    (transparent m) (side m) (wireframe m) (depthTest m) (map m).
Definition with_opacity (o : float) (m : Material) : Material :=
  Build_Material (mtype m) (color m) (roughness m) (metalness m) o
    (transparent m) (side m) (wireframe m) (depthTest m) (map m).
Definition with_transparent (t : bool) (m : Material) : Material :=
  Build_Material (mtype m) (color m) (roughness m) (metalness m) (opacity m)
    t (side m) (wireframe m) (depthTest m) (map m).
Definition with_side (s : Side) (m : Material) : Material :=
  Build_Material (mtype m) (color m) (roughness m) (metalness m) (opacity m)
    (transparent m) s (wireframe m) (depthTest m) (map m).
Definition with_depthTest (b : bool) (m : Material) : Material :=
  Build_Material (mtype m) (color m) (roughness m) (metalness m) (opacity m)
    (transparent m) (side m) (wireframe m) b (map m).
Definition with_map (t : Texture) (m : Material) : Material :=
  Build_Material (mtype m) (color m) (roughness m) (metalness m) (opacity m)
    (transparent m) (side m) (wireframe m) (depthTest m) (Some t).

(** [material.wireframe = w]. *)
Definition set_wireframe (w : bool) (m : Material) : Material :=
  Build_Material (mtype m) (color m) (roughness m) (metalness m) (opacity m)
    (transparent m) (side m) w (depthTest m) (map m).

Inductive Curve : Type := CatmullRomCurve3 (points : list Vector3).

(** Geometries are kept as the constructor call that made them. *)
Inductive Geometry : Type :=
| BoxGeometry (w h d : float)
| CylinderGeometry (radiusTop radiusBottom height : float) (radialSegments : nat)
| SphereGeometry (radius : float) (widthSegments heightSegments : nat)
| ConeGeometry (radius height : float) (radialSegments : nat)
| PlaneGeometry (w h : float)
| TubeGeometry (path : Curve) (tubularSegments : nat) (radius : float)
    (radialSegments : nat) (closed : bool)
| BufferGeometry (position : list float) (itemSize : nat) (index : list nat)
| EdgesGeometry (g : Geometry)
| GridGeometry (size divisions : float) (color1 color2 : Z).

Inductive ObjectType : Type :=
| Scene | Group | Mesh | LineSegments | Sprite
| AmbientLight | DirectionalLight | PointLight | GridHelper.

Record Light : Type := { lcolor : Z; intensity : float; distance : float }.

(** The fields of an [Object3D] that the scripts read or write. *)
Record ObjectData : Type := {
  oid : ident;
  otype : ObjectType;
  name : string;
  visible : bool;
  position : Vector3;
  rotation : Vector3;
  scale : Vector3;
  castShadow : bool;
  receiveShadow : bool;
  isLabel : bool;
  isNappe : bool;
  geometry : option Geometry;
  material : option ident;
  light : option Light;
}.

Inductive Object3D : Type :=
| Node (d : ObjectData) (children : list Object3D).

Definition Object3D_new (i : ident) (ty : ObjectType)
    (geo : option Geometry) (mat : option ident) : ObjectData :=
  {| oid := i; otype := ty; name := ""; visible := true;
     position := v3_zero; rotation := v3_zero; scale := v3_one;
     castShadow := false; receiveShadow := false;
     isLabel := false; isNappe := false;
     geometry := geo; material := mat; light := None |}.

Definition isMesh (d : ObjectData) : bool :=
  match otype d with Mesh => true | _ => false end.

Definition set_oid (i : ident) (d : ObjectData) : ObjectData :=
  {| oid := i; otype := otype d; name := name d; visible := visible d;
     position := position d; rotation := rotation d; scale := scale d;
     castShadow := castShadow d; receiveShadow := receiveShadow d;
     isLabel := isLabel d; isNappe := isNappe d;
     geometry := geometry d; material := material d; light := light d |}.

Definition set_name (s : string) (d : ObjectData) : ObjectData :=
  {| oid := oid d; otype := otype d; name := s; visible := visible d;
     position := position d; rotation := rotation d; scale := scale d;
     castShadow := castShadow d; receiveShadow := receiveShadow d;
     isLabel := isLabel d; isNappe := isNappe d;
     geometry := geometry d; material := material d; light := light d |}.

Definition set_visible (b : bool) (d : ObjectData) : ObjectData :=
  {| oid := oid d; otype := otype d; name := name d; visible := b;
     position := position d; rotation := rotation d; scale := scale d;
     castShadow := castShadow d; receiveShadow := receiveShadow d;
     isLabel := isLabel d; isNappe := isNappe d;
     geometry := geometry d; material := material d; light := light d |}.

Definition set_position (p : Vector3) (d : ObjectData) : ObjectData :=
  {| oid := oid d; otype := otype d; name := name d; visible := visible d;
     position := p; rotation := rotation d; scale := scale d;
     castShadow := castShadow d; receiveShadow := receiveShadow d;
     isLabel := isLabel d; isNappe := isNappe d;
     geometry := geometry d; material := material d; light := light d |}.

Definition set_rotation (r : Vector3) (d : ObjectData) : ObjectData :=
  {| oid := oid d; otype := otype d; name := name d; visible := visible d;
     position := position d; rotation := r; scale := scale d;
     castShadow := castShadow d; receiveShadow := receiveShadow d;
     isLabel := isLabel d; isNappe := isNappe d;
     geometry := geometry d; material := material d; light := light d |}.

Definition set_scale (s : Vector3) (d : ObjectData) : ObjectData :=
  {| oid := oid d; otype := otype d; name := name d; visible := visible d;
     position := position d; rotation := rotation d; scale := s;
     castShadow := castShadow d; receiveShadow := receiveShadow d;
     isLabel := isLabel d; isNappe := isNappe d;
     geometry := geometry d; material := material d; light := light d |}.

Definition set_castShadow (b : bool) (d : ObjectData) : ObjectData :=
  {| oid := oid d; otype := otype d; name := name d; visible := visible d;
     position := position d; rotation := rotation d; scale := scale d;
     castShadow := b; receiveShadow := receiveShadow d;
     isLabel := isLabel d; isNappe := isNappe d;
     geometry := geometry d; material := material d; light := light d |}.

Definition set_receiveShadow (b : bool) (d : ObjectData) : ObjectData :=
  {| oid := oid d; otype := otype d; name := name d; visible := visible d;
     position := position d; rotation := rotation d; scale := scale d;
     castShadow := castShadow d; receiveShadow := b;
     isLabel := isLabel d; isNappe := isNappe d;
     geometry := geometry d; material := material d; light := light d |}.

Definition set_isLabel (b : bool) (d : ObjectData) : ObjectData :=
  {| oid := oid d; otype := otype d; name := name d; visible := visible d;
     position := position d; rotation := rotation d; scale := scale d;
     castShadow := castShadow d; receiveShadow := receiveShadow d;
     isLabel := b; isNappe := isNappe d;
     geometry := geometry d; material := material d; light := light d |}.

Definition set_isNappe (b : bool) (d : ObjectData) : ObjectData :=
  {| oid := oid d; otype := otype d; name := name d; visible := visible d;
     position := position d; rotation := rotation d; scale := scale d;
     castShadow := castShadow d; receiveShadow := receiveShadow d;
     isLabel := isLabel d; isNappe := b;
     geometry := geometry d; material := material d; light := light d |}.

Definition set_material (m : option ident) (d : ObjectData) : ObjectData :=
  {| oid := oid d; otype := otype d; name := name d; visible := visible d;
     position := position d; rotation := rotation d; scale := scale d;
     castShadow := castShadow d; receiveShadow := receiveShadow d;
     isLabel := isLabel d; isNappe := isNappe d;
     geometry := geometry d; material := m; light := light d |}.

Definition set_light (l : Light) (d : ObjectData) : ObjectData :=
  {| oid := oid d; otype := otype d; name := name d; visible := visible d;
     position := position d; rotation := rotation d; scale := scale d;
     castShadow := castShadow d; receiveShadow := receiveShadow d;
     isLabel := isLabel d; isNappe := isNappe d;
     geometry := geometry d; material := material d; light := Some l |}.

(** [m.rotation.x = rx] and [m.rotation.z = rz]. *)
Definition set_rotation_x (rx : float) (d : ObjectData) : ObjectData :=
  set_rotation (V3 rx (vy (rotation d)) (vz (rotation d))) d.
Definition set_rotation_z (rz : float) (d : ObjectData) : ObjectData :=
  set_rotation (V3 (vx (rotation d)) (vy (rotation d)) rz) d.
Definition set_position_y (y : float) (d : ObjectData) : ObjectData :=
  set_position (V3 (vx (position d)) y (vz (position d))) d.

(** ** The object forest *)

Definition data (o : Object3D) : ObjectData :=
  match o with Node d _ => d end.
Definition children (o : Object3D) : list Object3D :=
  match o with Node _ cs => cs end.

(** [Object3D.traverse]: the object itself, then its children in order,
    each with its own descendants; invisible objects are visited too. *)
Fixpoint traverse (o : Object3D) : list ObjectData :=
  match o with
  | Node d cs => d :: flat_map traverse cs
  end.

Definition traverse_all (l : list Object3D) : list ObjectData :=
  flat_map traverse l.

(** The object with identity [i], if it is in the tree. *)
Fixpoint obj_find (i : ident) (o : Object3D) : option Object3D :=
  match o with
  | Node d cs =>
      if oid d =? i then Some o
      else (fix go (l : list Object3D) : option Object3D :=
              match l with
              | [] => None
              | c :: l' =>
                  match obj_find i c with
                  | Some r => Some r
                  | None => go l'
                  end
              end) cs
  end.

Fixpoint forest_find (i : ident) (l : list Object3D) : option Object3D :=
  match l with
  | [] => None
  | o :: l' =>
      match obj_find i o with
      | Some r => Some r
      | None => forest_find i l'
      end
  end.

(** A field assignment on the object with identity [i]. *)
Fixpoint obj_alter (i : ident) (f : ObjectData -> ObjectData) (o : Object3D) : Object3D :=
  match o with
  | Node d cs => Node (if oid d =? i then f d else d) (List.map (obj_alter i f) cs)
  end.

(** [parent.add(c)]: [c] becomes the last child of the object [i]. *)
Fixpoint obj_push (i : ident) (c : Object3D) (o : Object3D) : Object3D :=
  match o with
  | Node d cs =>
      Node d (List.map (obj_push i c) cs ++ (if oid d =? i then [c] else []))
  end.

(** Taking the object [i] out of its place. *)
Fixpoint obj_remove (i : ident) (o : Object3D) : Object3D :=
  match o with
  | Node d cs =>
      Node d ((fix go (l : list Object3D) : list Object3D :=
                 match l with
                 | [] => []
                 | c :: l' =>
                     if oid (data c) =? i then go l'
                     else obj_remove i c :: go l'
                 end) cs)
  end.

Fixpoint forest_remove (i : ident) (l : list Object3D) : list Object3D :=
  match l with
  | [] => []
  | c :: l' =>
      if oid (data c) =? i then forest_remove i l'
      else obj_remove i c :: forest_remove i l'
  end.

(** ** The heap and the builder monad *)

Record Heap : Type := {
  next : ident;
  materials : gmap ident Material;
  roots : list Object3D;
}.

Definition empty_heap : Heap :=
  {| next := 0; materials := ∅; roots := [] |}.

Definition Build (A : Type) : Type := Heap -> option (A * Heap).

Definition ret {A} (a : A) : Build A := fun h => Some (a, h).

Definition bind {A B} (m : Build A) (k : A -> Build B) : Build B :=
  fun h => match m h with
           | Some (a, h') => k a h'
           | None => None
           end.

Declare Scope build_scope.
Delimit Scope build_scope with build.
Bind Scope build_scope with Build.
Notation "x <- m ;; k" := (bind m (fun x => k))
  (at level 100, m at next level, right associativity) : build_scope.
Notation "m ;; k" := (bind m (fun _ => k))
  (at level 100, right associativity) : build_scope.
#[local] Open Scope build_scope.

(** [for (const x of l) body]. *)
Fixpoint for_each {A} (l : list A) (body : A -> Build unit) : Build unit :=
  match l with
  | [] => ret tt
  | x :: l' => body x ;; for_each l' body
  end.

(** [new THREE.XxxMaterial(...)]: a new identity, bound to the material
    in the store. *)
Definition new_Material (m : Material) : Build ident := fun h =>
  Some (next h,
        {| next := S (next h);
           materials := <[next h := m]> (materials h);
           roots := roots h |}).

(** [new THREE.Group()], [new THREE.Mesh(geo, mat)], ...: a new object
    without a parent. *)
Definition new_Object3D (ty : ObjectType) (geo : option Geometry)
    (mat : option ident) : Build ident := fun h =>
  Some (next h,
        {| next := S (next h);
           materials := materials h;
           roots := roots h ++ [Node (Object3D_new (next h) ty geo mat) []] |}).

(** Reading the fields of the object [i]. *)
Definition read (i : ident) : Build ObjectData := fun h =>
  match forest_find i (roots h) with
  | Some o => Some (data o, h)
  | None => None
  end.

(** A field assignment [o.f = v] on the object [i]. *)
Definition heap_assign (i : ident) (f : ObjectData -> ObjectData) (h : Heap) : Heap :=
  {| next := next h; materials := materials h;
     roots := List.map (obj_alter i f) (roots h) |}.

Definition assign (i : ident) (f : ObjectData -> ObjectData) : Build unit := fun h =>
  match forest_find i (roots h) with
  | Some _ => Some (tt, heap_assign i f h)
  | None => None
  end.

(** [parent.add(child)]: the child leaves the place it had and becomes
    the last child of [parent]. *)
Definition add (parent child : ident) : Build unit := fun h =>
  match forest_find child (roots h) with
  | Some c =>
      let rest := forest_remove child (roots h) in
      match forest_find parent rest with
      | Some _ =>
          Some (tt, {| next := next h; materials := materials h;
                       roots := List.map (obj_push parent c) rest |})
      | None => None
      end
  | None => None
  end.

(** *** Calling a builder

    [buildSorbant()], [buildPeltier()], [buildFiltration()] and
    [buildAssemblage()] take no argument and close over numbers and
    functions only, so a call sees none of the caller's objects.  The
    body runs on a heap of its own and its objects then receive the
    identities that are next in the caller's heap: whatever a call
    allocates is new to the caller. *)

Definition shift_data (k : nat) (d : ObjectData) : ObjectData :=
  set_material (Nat.add k <$> material d) (set_oid (k + oid d) d).

Fixpoint shift_obj (k : nat) (o : Object3D) : Object3D :=
  match o with
  | Node d cs => Node (shift_data k d) (List.map (shift_obj k) cs)
  end.

Definition call (b : Build ident) : Build ident := fun h =>
  match b empty_heap with
  | Some (g, t) =>
      Some (next h + g,
            {| next := next h + next t;
               materials := materials h ∪ kmap (Nat.add (next h)) (materials t);
               roots := roots h ++ List.map (shift_obj (next h)) (roots t) |})
  | None => None
  end.

(** *** Instances

    What a builder returned, as found in a heap: the tree under the
    returned object, the identities of its objects and of the materials
    they use, and its description with the identities left out (every
    object with the material it refers to). *)

Definition instance (h : Heap) (g : ident) : option Object3D :=
  forest_find g (roots h).

Definition obj_ids (o : Object3D) : list ident :=
  List.map oid (traverse o).

Definition mat_ids (o : Object3D) : list ident :=
  omap material (traverse o).

Inductive Shape : Type :=
| ShapeNode (d : ObjectData) (m : option Material) (parts : list Shape).

Definition anonymous (d : ObjectData) : ObjectData :=
  set_material None (set_oid 0 d).

Fixpoint describe (ms : gmap ident Material) (o : Object3D) : Shape :=
  match o with
  | Node d cs =>
      ShapeNode (anonymous d)
        (match material d with Some i => ms !! i | None => None end)
        (List.map (describe ms) cs)
  end.

(** The primitives of a tree in traversal order: type, geometry and
    local transform of each. *)
Definition signature (o : Object3D) : list (ObjectType * option Geometry * Vector3 * Vector3 * Vector3) :=
  List.map (fun d => (otype d, geometry d, position d, rotation d, scale d)) (traverse o).

(** Every identity of a well-formed heap is below [next]. *)
Definition heap_wf (h : Heap) : Prop :=
  Forall (fun d => oid d < next h) (traverse_all (roots h)) /\
  forall i m, materials h !! i = Some m -> i < next h.

(** The same, as a test on a heap that is known in full; it also asks
    that the heap is one tree under [g] whose materials are all in the
    store. *)
Definition template_ok (g : ident) (t : Heap) : bool :=
  match roots t with
  | [o] =>
      (oid (data o) =? g)
      && forallb (fun d => oid d <? next t) (traverse o)
      && forallb (fun i => (i <? next t) && bool_decide (is_Some (materials t !! i))) (mat_ids o)
      && forallb (fun i => i <? next t) (List.map fst (map_to_list (materials t)))
  | _ => false
  end.

(** ** modules/sorbant.js *)

Module Sorbant.
Section Builder.
Context {host : MathHost}.
#[local] Open Scope float_scope.

Definition W : float := 50.
Definition D : float := 40.
Definition HW : float := W / 2.
Definition HD : float := D / 2.
Definition T : float := 2.0.
Definition ANGLE : float := 12 * Math_PI / 180.
Definition H_AV : float := 18.
Definition H_AR : float := H_AV + D * Math_tan ANGLE.
Definition H_MOY : float := (H_AV + H_AR) / 2.

(** The material [mat(color, { roughness, metalness, opacity })] makes;
    an absent option takes its default. *)
Definition mat_material (color : Z) (roughness metalness opacity : option float) : Material :=
  let roughness := default 0.7 roughness in
  let metalness := default 0.1 metalness in
  let opacity := default 1 opacity in
  let t := opacity <? 0.99 in
  with_side (if t then DoubleSide else FrontSide)
    (with_transparent t
       (with_opacity opacity
          (with_metalness metalness
             (with_roughness roughness
                (with_color (Hex color) (Material_new MeshStandardMaterial)))))).

Definition mat (color : Z) (roughness metalness opacity : option float) : Build ident :=
  new_Material (mat_material color roughness metalness opacity).

(** The table [M]: every entry is a function, so every use makes a new
    material. *)
Definition M_paroi := mat 0x2a2f3d (Some 0.5) (Some 0.3) (Some 0.22).
Definition M_base := mat 0x1e2530 (Some 0.8) (Some 0.3) None.
Definition M_nappe := mat 0xc0392b (Some 0.9) (Some 0.0) None.
Definition M_grille := mat 0xbfc9ca (Some 0.3) (Some 0.8) None.
Definition M_tissu := mat 0x1e4d2b (Some 0.97) (Some 0.0) None.
Definition M_vapeur := mat 0x5dade2 (Some 0.0) (Some 0.0) (Some 0.06).
Definition M_vitre := mat 0x4ab3e8 (Some 0.04) (Some 0.0) (Some 0.40).
Definition M_canal := mat 0x1f8ec2 (Some 0.4) (Some 0.55) None.
Definition M_tuyau := mat 0x2e86c1 (Some 0.45) (Some 0.5) (Some 0.85).
Definition M_volet := mat 0x3d4454 (Some 0.75) (Some 0.25) None.
Definition M_tringle := mat 0x7f8c8d (Some 0.4) (Some 0.7) None.
Definition M_servo := mat 0x212535 (Some 0.7) (Some 0.2) None.
Definition M_panneau := mat 0x1a1f2b (Some 0.7) (Some 0.3) None.
Definition M_oled := mat 0x001a2e (Some 0.2) (Some 0.1) None.
Definition M_oledScr := mat 0x00aacc (Some 0.1) (Some 0.0) (Some 0.92).
Definition M_ds18 := mat 0x1c1c1c (Some 0.5) (Some 0.1) None.
Definition M_dht22 := mat 0xecf0f1 (Some 0.8) (Some 0.0) None.
Definition M_ldr := mat 0xd4ac0d (Some 0.3) (Some 0.1) (Some 0.9).
Definition M_pin := mat 0x7f8c8d (Some 0.3) (Some 0.9) None.
Definition M_btnVert := mat 0x27ae60 (Some 0.4) (Some 0.1) None.
Definition M_btnRouge := mat 0xe74c3c (Some 0.4) (Some 0.1) None.

Definition addM (parent : ident) (geo : Geometry) (material : ident) : Build ident :=
  m <- new_Object3D Mesh (Some geo) (Some material) ;;
  assign m (set_receiveShadow true) ;;
  assign m (set_castShadow true) ;;
  add parent m ;;
  ret m.

Definition edgeLine (parent m : ident) (color : Z) (op : option float) : Build unit :=
  let op := default 0.6 op in
  md <- read m ;;
  lm <- new_Material
          (with_transparent true
             (with_opacity op (with_color (Hex color) (Material_new LineBasicMaterial)))) ;;
  line <- new_Object3D LineSegments (EdgesGeometry <$> geometry md) (Some lm) ;;
  assign line (set_position (position md)) ;;
  assign line (set_rotation (rotation md)) ;;
  add parent line.

(** [bx(parent, w, h, d, material, x, y, z, rx, ry, rz)]; the call sites
    below write the default [0] of an omitted argument. *)
Definition bx (parent : ident) (w h d : float) (material : ident)
    (x y z rx ry rz : float) : Build ident :=
  m <- addM parent (BoxGeometry w h d) material ;;
  assign m (set_position (V3 x y z)) ;;
  assign m (set_rotation (V3 rx ry rz)) ;;
  ret m.

(** [cy(parent, r, h, material, x, y, z, rx, rz)]. *)
Definition cy (parent : ident) (r h : float) (material : ident)
    (x y z rx rz : float) : Build ident :=
  m <- addM parent (CylinderGeometry r r h 32) material ;;
  assign m (set_position (V3 x y z)) ;;
  assign m (set_rotation_x rx) ;;
  assign m (set_rotation_z rz) ;;
  ret m.

(** The vertex array and the index array of a trapezoidal side wall.
    The [Float32Array] keeps each coordinate in single precision, which
    leaves the values 0, 18, 20, 23 and 25 as they are. *)
Definition trapWall_verts (xPos : float) : list float :=
  let x0 := xPos in
  let x1 := xPos + T * (if xPos <? 0 then 1 else -1) in
  [ x0; 0;    -HD;
    x0; 0;     HD;
    x0; H_AR;  HD;
    x0; H_AV; -HD;
    x1; 0;    -HD;
    x1; 0;     HD;
    x1; H_AR;  HD;
    x1; H_AV; -HD ].

Definition trapWall_idx : list nat :=
  [ 0;1;2; 0;2;3;
    5;4;7; 5;7;6;
    4;0;3; 4;3;7;
    1;5;6; 1;6;2;
    4;5;1; 4;1;0;
    3;2;6; 3;6;7 ]%nat.

Definition makeTrapWall (parent : ident) (xPos : float) (material : ident) : Build ident :=
  let geo := BufferGeometry (trapWall_verts xPos) 3 trapWall_idx in
  m <- new_Object3D Mesh (Some geo) (Some material) ;;
  assign m (set_receiveShadow true) ;;
  assign m (set_castShadow true) ;;
  add parent m ;;
  ret m.

Definition buildSorbant : Build ident :=
  g <- new_Object3D Group None None ;;
  assign g (set_name "sorbant") ;;
  (* 1. trapezoidal side walls *)
  (p <- M_paroi ;; makeTrapWall g (-HW) p) ;;
  (p <- M_paroi ;; makeTrapWall g HW p) ;;
  (* 2. rear wall *)
  (p <- M_paroi ;; bx g W H_AR T p 0 (H_AR/2) HD 0 0 0) ;;
  (* 3. floor *)
  (p <- M_base ;; bx g W T D p 0 (T/2) 0 0 0 0) ;;
  (* 4. five louvre slats *)
  let NV := 5%nat in
  let step := (D - 2) / num NV in
  for_each (seq 0 NV) (fun i =>
    let zv := -HD + 1 + step * (num i + 0.5) in
    p <- M_volet ;;
    bx g (W - T*2 - 0.5) 1.2 (step - 0.5) p 0 (T + 1.5) zv 0 0 0 ;; ret tt) ;;
  (p <- M_tringle ;; cy g 0.5 (D - 2) p (HW - T - 1) (T + 1.5) 0 (Math_PI/2) 0) ;;
  (p <- M_servo ;; bx g 2.5 3 5 p (HW - T - 1.5) (T + 3) (HD - 8) 0 0 0) ;;
  (* 5. heating mat *)
  nappe <- (p <- M_nappe ;; bx g (W - T*2) 1.5 (D - T*2) p 0 (T + 3.5) 0 0 0 0) ;;
  assign nappe (set_isNappe true) ;;
  (* 6. steel grid tray *)
  (p <- M_grille ;; bx g (W - T*2) 0.4 (D - T*2) p 0 (T + 5.5) 0 0 0 0) ;;
  for_each (seq 0 8) (fun i =>
    let zf := -HD + T + 1 + ((D - T*2 - 2) / 7) * num i in
    p <- M_grille ;;
    bx g (W - T*2) 0.18 0.22 p 0 (T + 5.9) zf 0 0 0 ;; ret tt) ;;
  for_each (seq 0 6) (fun i =>
    let xf := -HW + T + 1 + ((W - T*2 - 2) / 5) * num i in
    p <- M_grille ;;
    bx g 0.22 0.18 (D - T*2) p xf (T + 5.9) 0 0 0 0 ;; ret tt) ;;
  (* 7. cotton cloth *)
  (p <- M_tissu ;; bx g (W - T*2) 2.5 (D - T*2) p 0 (T + 7.5) 0 0 0 0) ;;
  (* 8. vapour space *)
  (p <- M_vapeur ;; bx g (W - T*2) 4.5 (D - T*2) p 0 (T + 11.5) 0 0 0 0) ;;
  (* 9. inclined glass lid *)
  vitreM <- (p <- M_vitre ;; addM g (BoxGeometry W 0.35 (D + T * 2)) p) ;;
  assign vitreM (set_position (V3 0 H_MOY 0)) ;;
  assign vitreM (set_rotation_x (-ANGLE)) ;;
  edgeLine g vitreM 0x88d8ff (Some 0.9) ;;
  (* 9b. rear hinges *)
  for_each [-HW + T/2; HW - T/2] (fun xh =>
    p <- M_tringle ;;
    cy g 1.2 (T + 1) p xh H_AR (HD - 1) 0 (Math_PI/2) ;; ret tt) ;;
  (* 10. gutter *)
  let gutY := H_AV + 0.4 in
  let gutZ := -HD - 0.8 in
  gout <- (p <- M_canal ;; bx g W 1.2 2.8 p 0 gutY gutZ 0 0 0) ;;
  edgeLine g gout 0x3bc8f8 (Some 0.7) ;;
  (let sx := -HW + 5 in
   let curve := CatmullRomCurve3
     [ V3 sx (gutY - 1) gutZ;
       V3 sx (gutY - 6) (gutZ - 1);
       V3 sx (gutY - 14) (gutZ - 0.5) ] in
   p <- M_tuyau ;;
   addM g (TubeGeometry curve 12 1.0 10 false) p) ;;
  (* 11. lower front panel *)
  let panH := 6 in
  let panY := gutY - 0.8 - panH / 2 in
  let panZ := gutZ - 0.1 in
  (p <- M_panneau ;; bx g W panH (T * 0.7) p 0 panY panZ 0 0 0) ;;
  (let cw := 256 in
   let ch := 64 in
   let cv := {| cv_width := cw; cv_height := ch;
                cv_text := "AQUA-ATMOS"; cv_style := "#00e5ff" |} in
   let tex := CanvasTexture cv in
   scrMesh <- (p <- new_Material (with_map tex (Material_new MeshBasicMaterial)) ;;
               addM g (BoxGeometry 9 2.3 0.4) p) ;;
   assign scrMesh (set_position (V3 16 (panY + 0.5) (panZ - 0.9))) ;;
   p <- M_oled ;;
   bx g 10 2.8 0.8 p 16 (panY + 0.3) (panZ - 0.6) 0 0 0) ;;
  (p <- M_btnRouge ;; cy g 1.0 1.5 p 7 (panY + 0.5) (panZ - 1.0) (Math_PI/2) 0) ;;
  (p <- M_btnVert ;; cy g 1.0 1.5 p 3 (panY + 0.5) (panZ - 1.0) (Math_PI/2) 0) ;;
  (* 11b. lid servo mechanism *)
  let svX := HW + T + 0.2 in
  let svY := H_AV - 4 in
  let svZ := -HD + 6 in
  (p <- M_servo ;; bx g 1.5 4 8 p svX svY svZ 0 0 0) ;;
  (p <- M_tringle ;; cy g 0.6 2 p (svX - 1.0) (svY + 1) svZ 0 (Math_PI/2)) ;;
  (p <- M_tringle ;; bx g 4 0.8 0.8 p (svX - 2.5) (svY + 1) svZ 0 0 0.5) ;;
  (let curve := CatmullRomCurve3
     [ V3 (svX - 4.5) (svY + 2.5) svZ;
       V3 (svX - 2) (H_AV + 1) (-HD + 2);
       V3 (svX - 1.5) H_AV (-HD - 0.5) ] in
   p <- M_tringle ;;
   addM g (TubeGeometry curve 8 0.4 8 false) p) ;;
  (* 12. inner sensors *)
  (p <- M_ds18 ;; cy g 0.5 7.5 p (-10) (T + 12) 3 0 0) ;;
  (s <- (p <- M_ds18 ;; addM g (SphereGeometry 0.7 12 8) p) ;;
   assign s (set_position (V3 (-10) (T + 8.5) 3))) ;;
  (p <- M_dht22 ;; bx g 4 7 3 p 12 (T + 12) 2 0 0 0) ;;
  (p <- M_ldr ;; cy g 0.8 1.2 p (-HW - 0.3) (T + 2.5) (-HD + 4) 0 (Math_PI/2)) ;;
  (* 13. outer DHT22 *)
  (p <- M_dht22 ;; bx g 1.5 4 5 p (HW + T + 0.1) (H_AV * 0.6) (-HD + 16) 0 0 0) ;;
  ret g.

End Builder.
End Sorbant.

(** ** Indexed triangle meshes

    The triangles of an indexed [BufferGeometry], their normals by the
    right-hand rule (counter-clockwise is the front), and two tests of
    the winding. *)

Module Winding.

#[local] Open Scope float_scope.

Definition vertex (vs : list float) (k : nat) : Vector3 :=
  V3 (nth (3 * k) vs 0) (nth (3 * k + 1) vs 0) (nth (3 * k + 2) vs 0).

Fixpoint triangles (idx : list nat) : list (nat * nat * nat) :=
  match idx with
  | a :: b :: c :: rest => (a, b, c) :: triangles rest
  | _ => []
  end.

Definition sub3 (p q : Vector3) : Vector3 :=
  V3 (vx p - vx q) (vy p - vy q) (vz p - vz q).

Definition cross3 (p q : Vector3) : Vector3 :=
  V3 (vy p * vz q - vz p * vy q)
     (vz p * vx q - vx p * vz q)
     (vx p * vy q - vy p * vx q).

Definition dot3 (p q : Vector3) : float :=
  vx p * vx q + vy p * vy q + vz p * vz q.

Definition normal (vs : list float) (t : nat * nat * nat) : Vector3 :=
  let '(a, b, c) := t in
  cross3 (sub3 (vertex vs b) (vertex vs a)) (sub3 (vertex vs c) (vertex vs a)).

(** A triangle of a convex solid is wound outwards when no vertex of the
    solid lies on the side its normal points to, and some vertex lies
    strictly behind it. *)
Definition outward (vs : list float) (n : nat) (t : nat * nat * nat) : bool :=
  let '(a, _, _) := t in
  let side := fun k => dot3 (normal vs t) (sub3 (vertex vs k) (vertex vs a)) in
  forallb (fun k => side k <=? 0) (seq 0 n) && existsb (fun k => side k <? 0) (seq 0 n).

(** The same with the normal reversed. *)
Definition inward (vs : list float) (n : nat) (t : nat * nat * nat) : bool :=
  let '(a, _, _) := t in
  let side := fun k => dot3 (normal vs t) (sub3 (vertex vs k) (vertex vs a)) in
  forallb (fun k => 0 <=? side k) (seq 0 n) && existsb (fun k => 0 <? side k) (seq 0 n).

(** The directed edges of the triangles; on a closed surface that is
    wound one way throughout, every directed edge occurs once and so
    does its reverse. *)
Definition edges_of (t : nat * nat * nat) : list (nat * nat) :=
  let '(a, b, c) := t in [(a, b); (b, c); (c, a)].

Definition edge_eqb (e f : nat * nat) : bool :=
  (fst e =? fst f)%nat && (snd e =? snd f)%nat.

Definition occurrences (e : nat * nat) (l : list (nat * nat)) : nat :=
  List.length (List.filter (edge_eqb e) l).

Definition consistent (idx : list nat) : bool :=
  let es := flat_map edges_of (triangles idx) in
  forallb (fun e => (occurrences e es =? 1)%nat
                    && (occurrences (snd e, fst e) es =? 1)%nat) es.

End Winding.

(** ** modules/peltier.js *)

Module Peltier.
Section Builder.
Context {host : MathHost}.
#[local] Open Scope float_scope.

Definition W : float := 50.
Definition D : float := 40.
Definition H : float := 15.
Definition HW : float := W / 2.
Definition HD : float := D / 2.
Definition T : float := 2.0.

Definition mat_material (color : Z) (roughness metalness opacity : option float) : Material :=
  let roughness := default 0.7 roughness in
  let metalness := default 0.1 metalness in
  let opacity := default 1 opacity in
  let t := opacity <? 0.99 in
  with_side (if t then DoubleSide else FrontSide)
    (with_transparent t
       (with_opacity opacity
          (with_metalness metalness
             (with_roughness roughness
                (with_color (Hex color) (Material_new MeshStandardMaterial)))))).

Definition mat (color : Z) (roughness metalness opacity : option float) : Build ident :=
  new_Material (mat_material color roughness metalness opacity).

Definition M_boitier := mat 0xc0cace (Some 0.28) (Some 0.88) None.
Definition M_coldFace := mat 0x1a7fd4 (Some 0.05) (Some 0.30) None.
Definition M_hotFace := mat 0x3a1a00 (Some 0.55) (Some 0.10) None.
Definition M_tec := mat 0xffffff (Some 0.38) (Some 0.18) None.
Definition M_fin := mat 0xd4dfe8 (Some 0.15) (Some 0.92) None.
Definition M_fan := mat 0x1a2030 (Some 0.6) (Some 0.3) None.
Definition M_fanBlade := mat 0x5590cc (Some 0.40) (Some 0.35) None.
Definition M_vapeur := mat 0x7ad4f0 (Some 0.0) (Some 0.0) (Some 0.05).
Definition M_floor := mat 0x8e9ca8 (Some 0.38) (Some 0.80) None.
Definition M_canal := mat 0x1f8ec2 (Some 0.4) (Some 0.55) None.
Definition M_tuyau := mat 0x2e86c1 (Some 0.45) (Some 0.50) (Some 0.85).
Definition M_iso := mat 0x5a4a30 (Some 0.97) (Some 0.0) None.

Definition addM (parent : ident) (geo : Geometry) (material : ident) : Build ident :=
  m <- new_Object3D Mesh (Some geo) (Some material) ;;
  assign m (set_receiveShadow true) ;;
  assign m (set_castShadow true) ;;
  add parent m ;;
  ret m.

Definition bx (parent : ident) (w h d : float) (material : ident)
    (x y z rx ry rz : float) : Build ident :=
  m <- addM parent (BoxGeometry w h d) material ;;
  assign m (set_position (V3 x y z)) ;;
  assign m (set_rotation (V3 rx ry rz)) ;;
  ret m.

Definition cy (parent : ident) (r h : float) (material : ident)
    (x y z rx rz : float) : Build ident :=
  m <- addM parent (CylinderGeometry r r h 32) material ;;
  assign m (set_position (V3 x y z)) ;;
  assign m (set_rotation_x rx) ;;
  assign m (set_rotation_z rz) ;;
  ret m.

Definition edgeLine (parent m : ident) (color : Z) (op : option float) : Build unit :=
  let op := default 0.5 op in
  md <- read m ;;
  lm <- new_Material
          (with_transparent true
             (with_opacity op (with_color (Hex color) (Material_new LineBasicMaterial)))) ;;
  line <- new_Object3D LineSegments (EdgesGeometry <$> geometry md) (Some lm) ;;
  assign line (set_position (position md)) ;;
  assign line (set_rotation (rotation md)) ;;
  add parent line.

Definition buildPeltier : Build ident :=
  g <- new_Object3D Group None None ;;
  assign g (set_name "peltier") ;;
  (* 1. floor and three walls *)
  base <- (p <- M_floor ;; bx g W T D p 0 (T / 2) 0 0 0 0) ;;
  edgeLine g base 0x809ab0 (Some 0.55) ;;
  (p <- M_boitier ;; bx g W H T p 0 (H / 2) HD 0 0 0) ;;
  (p <- M_boitier ;; bx g T H D p (-HW + T / 2) (H / 2) 0 0 0 0) ;;
  (p <- M_boitier ;; bx g T H D p (HW - T / 2) (H / 2) 0 0 0 0) ;;
  (* 2. the TECs in the side walls *)
  let tecSz := 5.5 in
  let tecT := 1.4 in
  let tecY := T + H * 0.38 in
  let tecZs := [-HD * 0.42; HD * 0.42] in
  for_each tecZs (fun tz =>
    tl <- (p <- M_tec ;; bx g tecT tecSz tecSz p (-HW + T / 2) tecY tz 0 0 0) ;;
    edgeLine g tl 0xff6020 (Some 1.0) ;;
    cfl <- (p <- M_coldFace ;; bx g 0.30 tecSz tecSz p (-HW + T + 0.15) tecY tz 0 0 0) ;;
    edgeLine g cfl 0x1a7fd4 (Some 1.0) ;;
    (p <- M_hotFace ;; bx g 0.25 tecSz tecSz p (-HW + 0.12) tecY tz 0 0 0) ;;
    (p <- M_iso ;; bx g 0.5 (tecSz + 0.5) (tecSz + 0.5) p (-HW + T + 0.5) tecY tz 0 0 0) ;;
    tr <- (p <- M_tec ;; bx g tecT tecSz tecSz p (HW - T / 2) tecY tz 0 0 0) ;;
    edgeLine g tr 0xff6020 (Some 1.0) ;;
    cfr <- (p <- M_coldFace ;; bx g 0.30 tecSz tecSz p (HW - T - 0.15) tecY tz 0 0 0) ;;
    edgeLine g cfr 0x1a7fd4 (Some 1.0) ;;
    (p <- M_hotFace ;; bx g 0.25 tecSz tecSz p (HW - 0.12) tecY tz 0 0 0) ;;
    (p <- M_iso ;; bx g 0.5 (tecSz + 0.5) (tecSz + 0.5) p (HW - T - 0.5) tecY tz 0 0 0) ;;
    ret tt) ;;
  (* 3. outer cooling fins *)
  let N_FIN := 10%nat in
  let finLen := H * 0.65 in
  let finBaseY := T + H * 0.18 in
  let finStep := D / num N_FIN in
  for_each (seq 0 N_FIN) (fun i =>
    let zf := -HD + finStep * (num i + 0.5) in
    (p <- M_fin ;;
     bx g finLen 0.28 0.28 p (-(HW + 0.5 + finLen / 2)) (finBaseY + finLen / 2) zf
        0 0 (Math_PI / 2)) ;;
    (p <- M_fin ;;
     bx g finLen 0.28 0.28 p (HW + 0.5 + finLen / 2) (finBaseY + finLen / 2) zf
        0 0 (Math_PI / 2)) ;;
    ret tt) ;;
  (p <- M_fin ;; bx g 0.5 finLen D p (-(HW + 0.35)) (finBaseY + finLen / 2) 0 0 0 0) ;;
  (p <- M_fin ;; bx g 0.5 finLen D p (HW + 0.35) (finBaseY + finLen / 2) 0 0 0 0) ;;
  (* 4. inner fans *)
  let ifR := 2.8 in
  let ifY := T + ifR + 0.5 in
  let ifX := HW - T - ifR - 0.4 in
  let ifZ := 0 in
  arrowMat <- new_Material
                (with_depthTest false
                   (with_transparent true
                      (with_opacity 0.60
                         (with_color (Hex 0x60c0ee) (Material_new MeshStandardMaterial))))) ;;
  for_each [-1; 1] (fun sX =>
    let fx := sX * ifX in
    (p <- M_fan ;; cy g (ifR + 0.65) 1.1 p fx ifY ifZ 0 (Math_PI / 2)) ;;
    (p <- M_fan ;; cy g (ifR + 0.65) 0.28 p (fx - sX * 0.58) ifY ifZ 0 (Math_PI / 2)) ;;
    (p <- M_fan ;; cy g (ifR + 0.65) 0.28 p (fx + sX * 0.58) ifY ifZ 0 (Math_PI / 2)) ;;
    (p <- M_fan ;; cy g 0.52 1.6 p fx ifY ifZ 0 (Math_PI / 2)) ;;
    for_each (seq 0 6) (fun i =>
      let a := (num i / 6) * Math_PI * 2 in
      let sk := 0.52 in
      pr <- (p <- M_fanBlade ;; addM g (BoxGeometry 0.88 1.05 0.20) p) ;;
      assign pr (set_position (V3 fx (ifY + Math_cos a * 1.05) (ifZ + Math_sin a * 1.05))) ;;
      assign pr (set_rotation_x (a + 0.28)) ;;
      assign pr (set_castShadow false) ;;
      pt <- (p <- M_fanBlade ;; addM g (BoxGeometry 0.72 0.98 0.18) p) ;;
      assign pt (set_position
                   (V3 fx (ifY + Math_cos (a + sk) * 1.88) (ifZ + Math_sin (a + sk) * 1.88))) ;;
      assign pt (set_rotation_x (a + sk + 0.44)) ;;
      assign pt (set_castShadow false)) ;;
    (p <- M_fan ;; bx g 1.5 0.45 (ifR * 2 + 1.2) p fx (T + 0.22) ifZ 0 0 0) ;;
    let legH := ifY - T - 0.45 in
    let legY := T + 0.45 + legH / 2 in
    (p <- M_fan ;; bx g 0.95 legH 0.50 p fx legY (ifZ - ifR + 0.3) 0 0 0) ;;
    (p <- M_fan ;; bx g 0.95 legH 0.50 p fx legY (ifZ + ifR - 0.3) 0 0 0) ;;
    for_each [-ifR * 0.65; 0; ifR * 0.65] (fun dz =>
      cone <- addM g (ConeGeometry 0.50 1.9 8) arrowMat ;;
      assign cone (set_position (V3 (fx - sX * (ifR + 2.0)) ifY dz)) ;;
      assign cone (set_rotation_z (sX * Math_PI / 2)) ;;
      assign cone (set_castShadow false))) ;;
  (* 5. inner vapour space *)
  (p <- M_vapeur ;; bx g (W - T * 2) (H - 1.5) (D - T * 2) p 0 (T + (H - 1.5) / 2) 0 0 0 0) ;;
  (* 6. floor gutter and drain tube *)
  let gutW := W - T * 2 in
  let gutY := T + 0.45 in
  let gutZ := 0 in
  gout <- (p <- M_canal ;; bx g gutW 0.85 (D - T * 2) p 0 gutY gutZ 0 0 0) ;;
  edgeLine g gout 0x3bc8f8 (Some 0.55) ;;
  (s <- (p <- M_canal ;;
         bx g (gutW / 2) 0.18 (D - T * 2 - 0.5) p (-gutW / 4) (gutY - 0.28) gutZ 0 0 0) ;;
   assign s (set_rotation_z 0.1)) ;;
  (let sx := -HW + 5 in
   let curve := CatmullRomCurve3
     [ V3 sx (gutY - 0.3) (-HD + 3);
       V3 sx (gutY - 0.8) (-HD - 1);
       V3 sx (gutY - 1.6) (-HD - 4) ] in
   p <- M_tuyau ;;
   addM g (TubeGeometry curve 8 0.8 10 false) p) ;;
  ret g.

End Builder.
End Peltier.

(** ** modules/filtration.js *)

Module Filtration.
Section Builder.
#[local] Open Scope float_scope.

Definition mat_material (color : Z) (roughness metalness opacity : option float) : Material :=
  let roughness := default 0.7 roughness in
  let metalness := default 0.1 metalness in
  let opacity := default 1 opacity in
  let t := opacity <? 0.99 in
  with_side (if t then DoubleSide else FrontSide)
    (with_transparent t
       (with_opacity opacity
          (with_metalness metalness
             (with_roughness roughness
                (with_color (Hex color) (Material_new MeshStandardMaterial)))))).

Definition mat (color : Z) (roughness metalness opacity : option float) : Build ident :=
  new_Material (mat_material color roughness metalness opacity).

Definition M_base := mat 0xb0bec5 (Some 0.55) (Some 0.65) None.
Definition M_canBlc := mat 0xdce8f0 (Some 0.50) (Some 0.05) None.
Definition M_canNoir := mat 0x2a2a2a (Some 0.88) (Some 0.05) None.
Definition M_canBei := mat 0xe8dcc8 (Some 0.60) (Some 0.05) None.
Definition M_cap := mat 0x8aaabb (Some 0.35) (Some 0.65) None.
Definition M_tuyau := mat 0x2e86c1 (Some 0.45) (Some 0.50) (Some 0.88).
Definition M_tds := mat 0x1a1a1a (Some 0.50) (Some 0.20) None.
Definition M_tdsProbe := mat 0xd4af37 (Some 0.25) (Some 0.80) None.
Definition M_flowMeter := mat 0x2980b9 (Some 0.40) (Some 0.55) None.
Definition M_uvInox := mat 0xd4dfe8 (Some 0.22) (Some 0.78) None.
Definition M_uvWin := mat 0x7ec8e3 (Some 0.05) (Some 0.05) (Some 0.55).
Definition M_uvLed := mat 0xbbdefb (Some 0.10) (Some 0.00) (Some 0.92).
Definition M_reserBody := mat 0x80cbc4 (Some 0.08) (Some 0.05) (Some 0.38).
Definition M_reserEdge := mat 0x4db6ac (Some 0.12) (Some 0.08) (Some 0.58).
Definition M_eau := mat 0x1565c0 (Some 0.00) (Some 0.00) (Some 0.28).
Definition M_couv := mat 0x78909c (Some 0.50) (Some 0.60) None.
Definition M_hcPcb := mat 0x1565c0 (Some 0.60) (Some 0.15) None.
Definition M_hcCyl := mat 0xf5f5f5 (Some 0.70) (Some 0.05) None.
Definition M_robinet := mat 0xc0c0c0 (Some 0.28) (Some 0.80) None.
Definition M_label := mat 0xffffff (Some 0.95) (Some 0.00) None.
Definition M_collier := mat 0x8e9ca8 (Some 0.30) (Some 0.80) None.

Definition addM (parent : ident) (geo : Geometry) (material : ident) : Build ident :=
  m <- new_Object3D Mesh (Some geo) (Some material) ;;
  assign m (set_receiveShadow true) ;;
  assign m (set_castShadow true) ;;
  add parent m ;;
  ret m.

Definition bx (parent : ident) (w h d : float) (material : ident)
    (x y z rx ry rz : float) : Build ident :=
  m <- addM parent (BoxGeometry w h d) material ;;
  assign m (set_position (V3 x y z)) ;;
  assign m (set_rotation (V3 rx ry rz)) ;;
  ret m.

Definition cy (parent : ident) (r h : float) (material : ident)
    (x y z rx rz : float) : Build ident :=
  m <- addM parent (CylinderGeometry r r h 32) material ;;
  assign m (set_position (V3 x y z)) ;;
  assign m (set_rotation_x rx) ;;
  assign m (set_rotation_z rz) ;;
  ret m.

(** [pipe(parent, points, r = 0.55)]. *)
Definition pipe (parent : ident) (points : list Vector3) (r : option float) : Build unit :=
  let r := default 0.55 r in
  p <- M_tuyau ;;
  addM parent (TubeGeometry (CatmullRomCurve3 points) 14 r 10 false) p ;;
  ret tt.

Definition edgeLine (parent m : ident) (color : Z) (op : option float) : Build unit :=
  let op := default 0.65 op in
  md <- read m ;;
  lm <- new_Material
          (with_transparent true
             (with_opacity op (with_color (Hex color) (Material_new LineBasicMaterial)))) ;;
  ln <- new_Object3D LineSegments (EdgesGeometry <$> geometry md) (Some lm) ;;
  assign ln (set_position (position md)) ;;
  assign ln (set_rotation (rotation md)) ;;
  add parent ln.

Record Can : Type := { can_x : float; baseY : float; can_H : float; can_R : float; raccordY : float }.

Definition mkCan (parent : ident) (x : float) (bodyMat : ident) : Build Can :=
  let R := 1.6 in
  let H := 9.0 in
  let BY := 1.2 in
  body <- cy parent R H bodyMat x (BY+H/2) 0 0 0 ;;
  edgeLine parent body 0x78909c (Some 0.60) ;;
  (c <- (p <- M_cap ;; cy parent (R+0.25) 0.7 p x (BY+H+0.35) 0 0 0) ;;
   edgeLine parent c 0x546e7a (Some 0.60)) ;;
  (p <- M_cap ;; cy parent (R+0.25) 0.7 p x (BY-0.35) 0 0 0) ;;
  (p <- M_cap ;; cy parent 0.48 1.8 p (x-0.9) (BY+H+1.25) 0 0 0) ;;
  (p <- M_cap ;; cy parent 0.48 1.8 p (x+0.9) (BY+H+1.25) 0 0 0) ;;
  (p <- M_label ;; bx parent (R*1.5) (H*0.35) 0.15 p x (BY+H*0.55) (-R+0.08) 0 0 0) ;;
  ret {| can_x := x; baseY := BY; can_H := H; can_R := R; raccordY := BY+H+2.15 |}.

Definition mkUVC (parent : ident) (x pipeY : float) : Build float :=
  let L := 6.5 in
  let R := 1.2 in
  (c <- (p <- M_uvInox ;; cy parent R L p x pipeY 0 0 (Math_PI/2)) ;;
   edgeLine parent c 0x607d8b (Some 0.72)) ;;
  (p <- M_uvWin ;; cy parent (R+0.04) (L*0.50) p x pipeY 0 0 (Math_PI/2)) ;;
  (p <- M_uvLed ;; cy parent 0.42 (L*0.45) p x pipeY 0 0 (Math_PI/2)) ;;
  (p <- M_cap ;; cy parent (R+0.10) 0.8 p (x-L/2-0.4) pipeY 0 0 (Math_PI/2)) ;;
  (p <- M_cap ;; cy parent (R+0.10) 0.8 p (x+L/2+0.4) pipeY 0 0 (Math_PI/2)) ;;
  ret (x + L/2 + 0.9).

Definition buildFiltration : Build ident :=
  g <- new_Object3D Group None None ;;
  assign g (set_name "filtration") ;;
  (* support plate *)
  (b <- (p <- M_base ;; bx g 50 1.2 36 p 0 0.6 0 0 0 0) ;;
   edgeLine g b 0x546e7a (Some 0.55)) ;;
  for_each [(-1, -1); (1, -1); (-1, 1); (1, 1)] (fun '(sx, sz) =>
    p <- M_base ;;
    cy g 0.5 2.8 p (sx*23) 1.4 (sz*16) 0 0 ;; ret tt) ;;
  let pipeY := 12.5 in
  (* flow meter *)
  let fmX := -22 in
  (c <- (p <- M_flowMeter ;; cy g 1.4 4.0 p fmX pipeY 0 0 (Math_PI/2)) ;;
   edgeLine g c 0x1a5f8a (Some 0.80)) ;;
  (p <- M_tuyau ;; cy g 0.6 3.2 p fmX pipeY 0 0 (Math_PI/2)) ;;
  (* TDS probe *)
  let tdsX := -17 in
  (c <- (p <- M_tds ;; cy g 1.2 4.5 p tdsX pipeY 0 0 (Math_PI/2)) ;;
   edgeLine g c 0x333333 (Some 0.80)) ;;
  for_each [-0.7; 0.7] (fun ex =>
    p <- M_tdsProbe ;;
    cy g 1.08 0.28 p (tdsX+ex) pipeY 0 0 (Math_PI/2) ;; ret tt) ;;
  (* three canisters *)
  c1 <- (p <- M_canBlc ;; mkCan g (-12) p) ;;
  c2 <- (p <- M_canNoir ;; mkCan g (-6) p) ;;
  c3 <- (p <- M_canBei ;; mkCan g 0 p) ;;
  (* UV-C *)
  uvcExitX <- mkUVC g 6 pipeY ;;
  (* 5 L tank *)
  let RX := 16 in
  let RW := 16 in
  let RH := 13 in
  let RD := 14 in
  let RZ := -11 in
  let BY := 1.2 in
  (p <- M_reserBody ;; bx g RW RH RD p RX (BY+RH/2) RZ 0 0 0) ;;
  (b <- (p <- M_reserEdge ;; bx g RW RH RD p RX (BY+RH/2) RZ 0 0 0) ;;
   edgeLine g b 0x26a69a (Some 0.72)) ;;
  (p <- M_eau ;; bx g (RW-0.5) (RH*0.60) (RD-0.5) p RX (BY+RH*0.30) RZ 0 0 0) ;;
  (b <- (p <- M_couv ;; bx g RW 0.6 RD p RX (BY+RH+0.3) RZ 0 0 0) ;;
   edgeLine g b 0x546e7a (Some 0.60)) ;;
  (p <- M_cap ;; cy g 0.52 1.6 p (RX-RW/2+1.5) (BY+RH+1.1) RZ 0 0) ;;
  (b <- (p <- M_hcPcb ;; bx g 3.6 0.35 1.5 p (RX+3) (BY+RH+0.7) RZ 0 0 0) ;;
   edgeLine g b 0x0d47a1 (Some 0.75)) ;;
  for_each [-0.5; 0.5] (fun dz =>
    (p <- M_hcCyl ;; cy g 0.65 1.0 p (RX+2.2) (BY+RH+1.5) (RZ+dz) 0 0) ;;
    (p <- M_hcCyl ;; cy g 0.65 1.0 p (RX+3.8) (BY+RH+1.5) (RZ+dz) 0 0) ;;
    ret tt) ;;
  (* tap *)
  let robZ := RZ - RD/2 - 1.5 in
  let robY := BY + 3.0 in
  (p <- M_robinet ;; cy g 0.80 3.0 p RX robY robZ (Math_PI/2) 0) ;;
  (p <- M_robinet ;; bx g 0.45 3.5 0.45 p RX (robY+1.5) (robZ-0.8) 0 0 0.4) ;;
  pipe g [ V3 RX robY (robZ - 1.6);
           V3 RX (robY - 1.2) (robZ - 3.2);
           V3 RX (robY - 3.0) (robZ - 4.8) ] (Some 0.48) ;;
  (* circuit tubes *)
  pipe g [V3 (-25) pipeY 0; V3 (fmX-2.1) pipeY 0] None ;;
  pipe g [V3 (fmX+2.1) pipeY 0; V3 (tdsX-1.5) pipeY 0] None ;;
  pipe g [ V3 (tdsX+1.5) pipeY 0;
           V3 (can_x c1-0.9) pipeY 0;
           V3 (can_x c1-0.9) (raccordY c1) 0 ] None ;;
  pipe g [ V3 (can_x c1+0.9) (raccordY c1) 0;
           V3 (can_x c1+0.9) (pipeY+1.4) 0;
           V3 (can_x c2-0.9) (pipeY+1.4) 0;
           V3 (can_x c2-0.9) (raccordY c2) 0 ] None ;;
  pipe g [ V3 (can_x c2+0.9) (raccordY c2) 0;
           V3 (can_x c2+0.9) (pipeY+1.4) 0;
           V3 (can_x c3-0.9) (pipeY+1.4) 0;
           V3 (can_x c3-0.9) (raccordY c3) 0 ] None ;;
  pipe g [ V3 (can_x c3+0.9) (raccordY c3) 0;
           V3 (can_x c3+0.9) pipeY 0;
           V3 (6-3.7) pipeY 0 ] None ;;
  let entryX := RX - RW/2 + 1.5 in
  pipe g [ V3 uvcExitX pipeY 0;
           V3 (entryX+4) pipeY (RZ * 0.4);
           V3 (entryX+4) (BY+RH+2.0) RZ;
           V3 entryX (BY+RH+1.1) RZ ] None ;;
  (* clamps *)
  for_each [-24; -19; -14; -8; -2; 4; 12] (fun cx =>
    p <- M_collier ;;
    cy g 1.1 0.6 p cx pipeY 0 0 (Math_PI/2) ;; ret tt) ;;
  ret g.

End Builder.
End Filtration.

(** ** modules/assemblage.js *)

Module Assemblage.
Section Builder.
Context {host : MathHost}.
#[local] Open Scope float_scope.

Definition mat_material (color : Z) (roughness metalness opacity : option float) : Material :=
  let roughness := default 0.7 roughness in
  let metalness := default 0.1 metalness in
  let opacity := default 1 opacity in
  let t := opacity <? 0.99 in
  with_side (if t then DoubleSide else FrontSide)
    (with_transparent t
       (with_opacity opacity
          (with_metalness metalness
             (with_roughness roughness
                (with_color (Hex color) (Material_new MeshStandardMaterial)))))).

Definition mat (color : Z) (roughness metalness opacity : option float) : Build ident :=
  new_Material (mat_material color roughness metalness opacity).

Definition addM (parent : ident) (geo : Geometry) (material : ident) : Build ident :=
  m <- new_Object3D Mesh (Some geo) (Some material) ;;
  assign m (set_receiveShadow true) ;;
  assign m (set_castShadow true) ;;
  add parent m ;;
  ret m.

Definition bx (parent : ident) (w h d : float) (material : ident)
    (x y z rx ry rz : float) : Build ident :=
  m <- addM parent (BoxGeometry w h d) material ;;
  assign m (set_position (V3 x y z)) ;;
  assign m (set_rotation (V3 rx ry rz)) ;;
  ret m.

Definition cy (parent : ident) (r h : float) (material : ident)
    (x y z rx rz : float) : Build ident :=
  m <- addM parent (CylinderGeometry r r h 32) material ;;
  assign m (set_position (V3 x y z)) ;;
  assign m (set_rotation_x rx) ;;
  assign m (set_rotation_z rz) ;;
  ret m.

(** [pipe(parent, points, r = 0.60)]: the tube geometry is made with 14
    segments along the path, radius [r], 10 segments around it, and
    [closed = false]. *)
Definition pipe_geometry (points : list Vector3) (r : float) : Geometry :=
  TubeGeometry (CatmullRomCurve3 points) 14 r 10 false.

Definition pipe (parent : ident) (points : list Vector3) (r : option float) : Build unit :=
  let r := default 0.60 r in
  p <- mat 0x2e86c1 (Some 0.45) (Some 0.50) (Some 0.88) ;;
  addM parent (pipe_geometry points r) p ;;
  ret tt.

Definition edgeLine (parent m : ident) (color : Z) (op : option float) : Build unit :=
  let op := default 0.65 op in
  md <- read m ;;
  lm <- new_Material
          (with_transparent true
             (with_opacity op (with_color (Hex color) (Material_new LineBasicMaterial)))) ;;
  ln <- new_Object3D LineSegments (EdgesGeometry <$> geometry md) (Some lm) ;;
  assign ln (set_position (position md)) ;;
  assign ln (set_rotation (rotation md)) ;;
  add parent ln.

(** [labelSprite(parent, text, x, y, z, hex = '#a0c8e8', scaleW = 32)]:
    a text sprite marked as a label. *)
Definition labelSprite (parent : ident) (text : string) (x y z : float)
    (hex : option string) (scaleW : option float) : Build unit :=
  let hex := default "#a0c8e8"%string hex in
  let scaleW := default 32 scaleW in
  let CW := Math_round (512 * scaleW / 32) in
  let CH := 96 in
  let cv := {| cv_width := CW; cv_height := CH; cv_text := text; cv_style := hex |} in
  sm <- new_Material
          (with_depthTest false
             (with_transparent true
                (with_opacity 0.92
                   (with_map (CanvasTexture cv) (Material_new SpriteMaterial))))) ;;
  sp <- new_Object3D Sprite None (Some sm) ;;
  assign sp (set_scale (V3 scaleW 6 1)) ;;
  assign sp (set_position (V3 x y z)) ;;
  assign sp (set_isLabel true) ;;
  add parent sp.

(** The vertical offsets of the stack. *)
Definition Y_ELEC : float := 0.
Definition Y_FILTR : float := 11.
Definition Y_PELTIER : float := 33.
Definition Y_SORBANT : float := 50.

Definition buildElec (parent : ident) : Build unit :=
  let EW := 50 in
  let EH := 10 in
  let ED := 40 in
  let EY := EH / 2 in
  let T := 0.5 in
  acryl <- mat 0xc8dff0 (Some 0.04) (Some 0.00) (Some 0.13) ;;
  acrylFront <- mat 0xc8dff0 (Some 0.04) (Some 0.00) (Some 0.10) ;;
  (b <- bx parent EW EH T acrylFront 0 EY (-ED/2) 0 0 0 ;;
   edgeLine parent b 0x90a4ae (Some 0.95)) ;;
  (b <- bx parent EW EH T acryl 0 EY (ED/2) 0 0 0 ;;
   edgeLine parent b 0x90a4ae (Some 0.70)) ;;
  bx parent T EH ED acryl (-EW/2) EY 0 0 0 0 ;;
  bx parent T EH ED acryl (EW/2) EY 0 0 0 0 ;;
  (p <- mat 0x37474f (Some 0.65) (Some 0.70) None ;; bx parent EW T ED p 0 (T/2) 0 0 0 0) ;;
  bx parent EW T ED acryl 0 (EH - T/2) 0 0 0 0 ;;
  pipeMat <- new_Material
               (with_metalness 0.4
                  (with_roughness 0.5
                     (with_color (Hex 0xf4d03f) (Material_new MeshStandardMaterial)))) ;;
  (let solarCurve := CatmullRomCurve3
     [ V3 (-EW/2 + 1) (EY + 2) 2;
       V3 (-18) (EY + 2.5) 2;
       V3 (-10) (EY + 2.5) (-4);
       V3 4 (EY + 1.5) (-7) ] in
   m <- new_Object3D Mesh (Some (TubeGeometry solarCurve 12 0.28 8 false)) (Some pipeMat) ;;
   add parent m) ;;
  (* battery *)
  (b <- (p <- mat 0x1a1a1a (Some 0.88) (Some 0.05) None ;;
         bx parent 15 8 6.5 p (-13) EY 0 0 0 0) ;;
   edgeLine parent b 0x424242 (Some 0.65)) ;;
  (p <- mat 0xd4af37 (Some 0.22) (Some 0.85) None ;;
   cy parent 0.55 1.0 p (-15.5) (EH - 0.2) 0 (Math_PI/2) 0) ;;
  (p <- mat 0xc0392b (Some 0.22) (Some 0.85) None ;;
   cy parent 0.55 1.0 p (-10.5) (EH - 0.2) 0 (Math_PI/2) 0) ;;
  (* ESP32 and relay board *)
  (b <- (p <- mat 0x2e7d32 (Some 0.65) (Some 0.15) None ;;
         bx parent 20 0.35 13 p 8 (EY + 1.5) 0 0 0 0) ;;
   edgeLine parent b 0x388e3c (Some 0.70)) ;;
  for_each (seq 0 4) (fun i =>
    p <- mat 0x01579b (Some 0.55) (Some 0.30) None ;;
    bx parent 1.6 1.2 1.2 p (-2 + num i * 3.5) (EY + 2.4) 2.5 0 0 0 ;; ret tt) ;;
  (p <- mat 0x37474f (Some 0.55) (Some 0.50) None ;;
   bx parent 5.5 0.4 3.3 p 10 (EY + 2.3) (-3.0) 0 0 0) ;;
  (* MPPT *)
  (b <- (p <- mat 0xb71c1c (Some 0.65) (Some 0.20) None ;;
         bx parent 7 4.5 5 p 4 EY (-8) 0 0 0) ;;
   edgeLine parent b 0xe53935 (Some 0.70)) ;;
  (* status LEDs *)
  for_each (seq 0 3) (fun i =>
    p <- mat (nth i [0x43a047; 0xfdd835; 0xef5350]%Z 0%Z)
           (Some 0.10) (Some 0.00) (Some 0.95) ;;
    bx parent 0.7 0.7 0.3 p (-8 + num i * 3.0) EY (-(ED/2 - 0.4)) 0 0 0 ;; ret tt) ;;
  (* load cable *)
  pipe parent [ V3 0 0 (-14); V3 2 (-2) (-16); V3 4 (-3.5) (-18) ] (Some 0.32).

Definition buildPanneau (parent : ident) : Build unit :=
  let PX := -68 in
  let PY := Y_ELEC + 8 in
  let PZ := 0 in
  (b <- (p <- mat 0xb0bec5 (Some 0.40) (Some 0.80) None ;;
         bx parent 54 34 1.5 p PX (PY + 17) PZ 0 0 0) ;;
   edgeLine parent b 0x78909c (Some 0.70)) ;;
  for_each (seq 0 3) (fun row =>
    for_each (seq 0 5) (fun col =>
      p <- mat 0x1a237e (Some 0.15) (Some 0.20) None ;;
      bx parent 9.5 6.0 0.4 p
         (PX - 18 + num col * 10.2) (PY + 5 + num row * 8.0) (PZ - 0.6) 0 0 0 ;;
      ret tt)) ;;
  (p <- mat 0x212121 (Some 0.80) (Some 0.10) None ;;
   bx parent 5 2.5 1.8 p PX PY (PZ - 1.2) 0 0 0) ;;
  pipe parent [ V3 (PX + 27) (PY + 10) PZ;
                V3 (PX + 42) (PY + 4) 6;
                V3 (-22) (Y_ELEC + 4) 8;
                V3 (-22) (Y_ELEC + 2) 0 ] (Some 0.35) ;;
  for_each [1; -1] (fun sx =>
    p <- mat 0x9eaab5 (Some 0.50) (Some 0.70) None ;;
    bx parent 1.5 20 1.5 p (PX + sx * 20) (PY + 8) (PZ + 0.8) 0.3 0 0 ;; ret tt).

Definition R_INTER : float := 0.60.

Definition buildFluxEau (parent : ident) : Build unit :=
  let SX := -20 in
  let SY := Y_SORBANT + 4.4 in
  let SZ := -21.3 in
  let PX := -20 in
  let PY := Y_PELTIER + 0.85 in
  let PZ := -24 in
  let JX := -24 in
  let JY := Y_PELTIER - 8 in
  let JZ := -20 in
  let FX := -25 in
  let FY := Y_FILTR + 12.5 in
  let FZ := 0 in
  pipe parent [ V3 SX SY SZ;
                V3 SX (Y_PELTIER + 8) SZ;
                V3 SX (PY + 2) SZ;
                V3 JX JY JZ ] (Some R_INTER) ;;
  pipe parent [ V3 PX PY PZ;
                V3 PX PY (JZ + 2);
                V3 JX JY JZ ] (Some R_INTER) ;;
  fitMat <- mat 0xcfd8dc (Some 0.18) (Some 0.90) None ;;
  colMat <- mat 0x90a4ae (Some 0.22) (Some 0.85) None ;;
  let R_FIT := R_INTER * 1.55 in
  let R_IN := R_INTER * 0.85 in
  bodyV <- new_Object3D Mesh (Some (CylinderGeometry R_FIT R_FIT (R_INTER * 6) 16)) (Some fitMat) ;;
  assign bodyV (set_position (V3 JX JY JZ)) ;;
  add parent bodyV ;;
  for_each [-R_INTER*2.8; R_INTER*2.8] (fun dy =>
    c <- new_Object3D Mesh (Some (CylinderGeometry (R_FIT+0.3) (R_FIT+0.3) 0.7 16)) (Some colMat) ;;
    assign c (set_position (V3 JX (JY + dy) JZ)) ;;
    add parent c) ;;
  bodyH <- new_Object3D Mesh (Some (CylinderGeometry R_FIT R_FIT (R_INTER * 5) 16)) (Some fitMat) ;;
  assign bodyH (set_rotation_z (Math_PI / 2)) ;;
  assign bodyH (set_position (V3 (JX + R_INTER*2) JY JZ)) ;;
  add parent bodyH ;;
  cBr <- new_Object3D Mesh (Some (CylinderGeometry (R_FIT+0.3) (R_FIT+0.3) 0.7 16)) (Some colMat) ;;
  assign cBr (set_rotation_z (Math_PI / 2)) ;;
  assign cBr (set_position (V3 (JX + R_INTER*4) JY JZ)) ;;
  add parent cBr ;;
  lum <- (p <- mat 0x1a3a4a (Some 0.1) (Some 0.0) (Some 0.40) ;;
          new_Object3D Mesh (Some (CylinderGeometry R_IN R_IN (R_INTER * 7) 12)) (Some p)) ;;
  assign lum (set_position (V3 JX JY JZ)) ;;
  add parent lum ;;
  pipe parent [ V3 JX JY JZ;
                V3 FX (FY + 4) (JZ * 0.4);
                V3 FX FY FZ ] (Some R_INTER).

Definition buildAssemblage : Build ident :=
  g <- new_Object3D Group None None ;;
  assign g (set_name "assemblage") ;;
  buildElec g ;;
  filtr <- call Filtration.buildFiltration ;;
  assign filtr (set_position (V3 0 Y_FILTR 0)) ;;
  add g filtr ;;
  peltier <- call Peltier.buildPeltier ;;
  assign peltier (set_position (V3 0 Y_PELTIER 0)) ;;
  add g peltier ;;
  sorbant <- call Sorbant.buildSorbant ;;
  assign sorbant (set_position (V3 0 Y_SORBANT 0)) ;;
  add g sorbant ;;
  buildPanneau g ;;
  buildFluxEau g ;;
  labelSprite g "SORBANT" 0 (Y_SORBANT + 30) 32 (Some "#d4a843"%string) None ;;
  labelSprite g "PELTIER TEC" 0 (Y_PELTIER + 22) 32 (Some "#4ab8e8"%string) None ;;
  labelSprite g "FILTRATION + RÉSERVOIR" 0 (Y_FILTR + 22) 28 (Some "#4db6ac"%string) (Some 50) ;;
  labelSprite g "ÉLECTRONIQUE" 0 (Y_ELEC + 8) 28 (Some "#78909c"%string) None ;;
  ret g.

End Builder.
End Assemblage.

(** ** helpers.js *)

Module Helpers.
Section Builder.
Context {host : MathHost}.
#[local] Open Scope float_scope.

(** The option object of [box], with the defaults of its destructuring
    pattern. *)
Record BoxOptions : Type := {
  box_w : float; box_h : float; box_d : float;
  box_x : float; box_y : float; box_z : float;
  box_rx : float; box_ry : float; box_rz : float;
  box_color : Z;
  box_opacity : float;
  box_roughness : float;
  box_metalness : float;
  box_side : Side;
  box_castShadow : bool;
  box_receiveShadow : bool;
}.

Definition box_defaults : BoxOptions :=
  {| box_w := 1; box_h := 1; box_d := 1;
     box_x := 0; box_y := 0; box_z := 0;
     box_rx := 0; box_ry := 0; box_rz := 0;
     box_color := 0xffffff;
     box_opacity := 1;
     box_roughness := 0.7;
     box_metalness := 0.1;
     box_side := FrontSide;
     box_castShadow := true;
     box_receiveShadow := true |}.

Definition box_material (o : BoxOptions) : Material :=
  let transparent := box_opacity o <? 0.99 in
  with_side (if transparent then DoubleSide else box_side o)
    (with_metalness (box_metalness o)
       (with_roughness (box_roughness o)
          (with_transparent transparent
             (with_opacity (box_opacity o)
                (with_color (Hex (box_color o)) (Material_new MeshStandardMaterial)))))).

Definition box (scene : ident) (o : BoxOptions) : Build ident :=
  mat <- new_Material (box_material o) ;;
  mesh <- new_Object3D Mesh (Some (BoxGeometry (box_w o) (box_h o) (box_d o))) (Some mat) ;;
  assign mesh (set_position (V3 (box_x o) (box_y o) (box_z o))) ;;
  assign mesh (set_rotation (V3 (box_rx o) (box_ry o) (box_rz o))) ;;
  assign mesh (set_castShadow (box_castShadow o)) ;;
  assign mesh (set_receiveShadow (box_receiveShadow o)) ;;
  add scene mesh ;;
  ret mesh.

Record CylOptions : Type := {
  cyl_r : float; cyl_rBot : option float; cyl_h : float;
  cyl_x : float; cyl_y : float; cyl_z : float;
  cyl_rx : float; cyl_ry : float; cyl_rz : float;
  cyl_color : Z;
  cyl_opacity : float;
  cyl_roughness : float;
  cyl_metalness : float;
  cyl_segments : nat;
  cyl_castShadow : bool;
}.

Definition cyl_defaults : CylOptions :=
  {| cyl_r := 1; cyl_rBot := None; cyl_h := 1;
     cyl_x := 0; cyl_y := 0; cyl_z := 0;
     cyl_rx := 0; cyl_ry := 0; cyl_rz := 0;
     cyl_color := 0xffffff;
     cyl_opacity := 1;
     cyl_roughness := 0.5;
     cyl_metalness := 0.2;
     cyl_segments := 32;
     cyl_castShadow := true |}.

Definition cyl_material (o : CylOptions) : Material :=
  let transparent := cyl_opacity o <? 0.99 in
  with_metalness (cyl_metalness o)
    (with_roughness (cyl_roughness o)
       (with_transparent transparent
          (with_opacity (cyl_opacity o)
             (with_color (Hex (cyl_color o)) (Material_new MeshStandardMaterial))))).

Definition cyl (scene : ident) (o : CylOptions) : Build ident :=
  mat <- new_Material (cyl_material o) ;;
  mesh <- new_Object3D Mesh
            (Some (CylinderGeometry (cyl_r o) (default (cyl_r o) (cyl_rBot o))
                     (cyl_h o) (cyl_segments o)))
            (Some mat) ;;
  assign mesh (set_position (V3 (cyl_x o) (cyl_y o) (cyl_z o))) ;;
  assign mesh (set_rotation (V3 (cyl_rx o) (cyl_ry o) (cyl_rz o))) ;;
  assign mesh (set_castShadow (cyl_castShadow o)) ;;
  add scene mesh ;;
  ret mesh.

(** [edges(scene, mesh, { color = 0x00d4ff, opacity = 0.5 })]. *)
Definition edges_material (color : Z) (opacity : float) : Material :=
  with_transparent (opacity <? 1)
    (with_opacity opacity (with_color (Hex color) (Material_new LineBasicMaterial))).

Definition edges (scene mesh : ident) (color : option Z) (opacity : option float) : Build ident :=
  let color := default 0x00d4ff%Z color in
  let opacity := default 0.5 opacity in
  md <- read mesh ;;
  mat <- new_Material (edges_material color opacity) ;;
  line <- new_Object3D LineSegments (EdgesGeometry <$> geometry md) (Some mat) ;;
  assign line (set_position (position md)) ;;
  assign line (set_rotation (rotation md)) ;;
  add scene line ;;
  ret line.

(** [label(scene, text, { x, y, z, color = '#00d4ff', size = 320 })]:
    a plane mesh with a canvas texture, marked as a label. *)
Definition label (scene : ident) (text : string) (x y z : float)
    (color : option string) (size : option float) : Build ident :=
  let color := default "#00d4ff"%string color in
  let size := default 320 size in
  let cv := {| cv_width := size; cv_height := Math_round (size * 0.22);
               cv_text := text; cv_style := color |} in
  mat <- new_Material
           (with_depthTest false
              (with_transparent true
                 (with_map (CanvasTexture cv) (Material_new MeshBasicMaterial)))) ;;
  mesh <- new_Object3D Mesh (Some (PlaneGeometry (size * 0.3) (cv_height cv * 0.3))) (Some mat) ;;
  assign mesh (set_position (V3 x y z)) ;;
  assign mesh (set_isLabel true) ;;
  add scene mesh ;;
  ret mesh.

End Builder.
End Helpers.

(** ** main.js: the scene and the view controller *)

Module Main.
Section Controller.
Context {host : MathHost}.

(** The object [modules = { peltier, sorbant, filtration, assemblage }]. *)
Record Modules : Type := {
  peltier : ident;
  sorbant : ident;
  filtration : ident;
  assemblage : ident;
}.

Record Refs : Type := { r_scene : ident; r_modules : Modules }.

Definition directional (color : Z) (i : float) (p : Vector3) (shadow : bool) : Build ident :=
  l <- new_Object3D DirectionalLight None None ;;
  assign l (set_light {| lcolor := color; intensity := i; distance := 0 |}) ;;
  assign l (set_position p) ;;
  (if shadow then assign l (set_castShadow true) else ret tt) ;;
  ret l.

Definition point (color : Z) (i d : float) (p : Vector3) : Build ident :=
  l <- new_Object3D PointLight None None ;;
  assign l (set_light {| lcolor := color; intensity := i; distance := d |}) ;;
  assign l (set_position p) ;;
  ret l.

#[local] Open Scope float_scope.

Definition SOL_SIZE : float := 2000.

(** The top level of the script up to [const modules = ...]: the scene,
    its lights, the ground and the grid, then the four modules, the last
    three hidden.  The renderer and the shadow-map settings of the sun
    are left out. *)
Definition build_scene : Build Refs :=
  scene <- new_Object3D Scene None None ;;
  (a <- new_Object3D AmbientLight None None ;;
   assign a (set_light {| lcolor := 0x1a2e4a; intensity := 1.2; distance := 0 |}) ;;
   add scene a) ;;
  sun <- directional 0xfff4e0 1.6 (V3 120 200 120) true ;;
  add scene sun ;;
  fill <- directional 0x446688 0.5 (V3 (-100) 80 (-80)) false ;;
  add scene fill ;;
  front <- directional 0x8ab4d4 0.9 (V3 0 20 (-200)) false ;;
  add scene front ;;
  frontLow <- directional 0x6090b0 0.7 (V3 0 5 (-120)) false ;;
  add scene frontLow ;;
  accent <- point 0x00d4ff 0.8 180 (V3 0 30 80) ;;
  add scene accent ;;
  nappeLight <- point 0x4ab8e8 0.6 40 (V3 0 7 0) ;;
  add scene nappeLight ;;
  sol <- (m <- new_Material
                 (with_metalness 0.0
                    (with_roughness 0.95
                       (with_color (Hex 0xd0d8e4) (Material_new MeshStandardMaterial)))) ;;
          new_Object3D Mesh (Some (PlaneGeometry SOL_SIZE SOL_SIZE)) (Some m)) ;;
  assign sol (set_rotation_x (-Math_PI / 2)) ;;
  assign sol (set_position_y (-0.5)) ;;
  assign sol (set_receiveShadow true) ;;
  add scene sol ;;
  grid <- (m <- new_Material (Material_new LineBasicMaterial) ;;
           new_Object3D GridHelper
             (Some (GridGeometry SOL_SIZE (SOL_SIZE / 10) 0x7090aa 0x9aaec0)) (Some m)) ;;
  assign grid (set_position_y (-0.48)) ;;
  add scene grid ;;
  peltier <- call Peltier.buildPeltier ;;
  assign peltier (set_position (V3 0 0 0)) ;;
  add scene peltier ;;
  sorbant <- call Sorbant.buildSorbant ;;
  assign sorbant (set_position (V3 0 0 0)) ;;
  assign sorbant (set_visible false) ;;
  add scene sorbant ;;
  filtration <- call Filtration.buildFiltration ;;
  assign filtration (set_position (V3 0 0 0)) ;;
  assign filtration (set_visible false) ;;
  add scene filtration ;;
  assemblage <- call Assemblage.buildAssemblage ;;
  assign assemblage (set_position (V3 0 0 0)) ;;
  assign assemblage (set_visible false) ;;
  add scene assemblage ;;
  ret {| r_scene := scene;
         r_modules := {| peltier := peltier; sorbant := sorbant;
                         filtration := filtration; assemblage := assemblage |} |}.

(** What the scripts write to the page ([index.html] is taken to define
    the elements they look up). *)
Record Dom : Type := {
  btn_wire_on : bool;
  btn_rot_on : bool;
  mod_btn_active : option string;
  legend_display : gmap string string;
}.

Record State : Type := {
  heap : Heap;
  scene : ident;
  modules : Modules;
  activeModule : string;
  wireOn : bool;
  autoRot : bool;
  camera_position : Vector3;
  controls_target : Vector3;
  controls_autoRotate : bool;
  controls_autoRotateSpeed : float;
  dom : Dom;
  (** members of [Object.prototype] that were given a [visible] property *)
  proto_visible : list string;
}.

Definition initial_state (h : Heap) (r : Refs) : State :=
  {| heap := h;
     scene := r_scene r;
     modules := r_modules r;
     activeModule := "peltier";
     wireOn := false;
     autoRot := false;
     camera_position := V3 95 55 95;
     controls_target := V3 0 7 0;
     controls_autoRotate := false;
     controls_autoRotateSpeed := 2.0;
     dom := {| btn_wire_on := false; btn_rot_on := false;
               mod_btn_active := None; legend_display := ∅ |};
     proto_visible := [] |}.

(** The state when the script has run.  [build_scene] does not fail
    (lemma [build_scene_runs]); the other branch is never taken. *)
Definition init : State :=
  match build_scene empty_heap with
  | Some (r, h) => initial_state h r
  | None =>
      initial_state empty_heap
        {| r_scene := 0%nat;
           r_modules := {| peltier := 0%nat; sorbant := 0%nat;
                           filtration := 0%nat; assemblage := 0%nat |} |}
  end.

(** *** Field updates of the state *)

Definition with_heap (h : Heap) (s : State) : State :=
  Build_State h (scene s) (modules s) (activeModule s) (wireOn s) (autoRot s)
    (camera_position s) (controls_target s) (controls_autoRotate s)
    (controls_autoRotateSpeed s) (dom s) (proto_visible s).
Definition with_activeModule (a : string) (s : State) : State :=
  Build_State (heap s) (scene s) (modules s) a (wireOn s) (autoRot s)
    (camera_position s) (controls_target s) (controls_autoRotate s)
    (controls_autoRotateSpeed s) (dom s) (proto_visible s).
Definition with_wireOn (w : bool) (s : State) : State :=
  Build_State (heap s) (scene s) (modules s) (activeModule s) w (autoRot s)
    (camera_position s) (controls_target s) (controls_autoRotate s)
    (controls_autoRotateSpeed s) (dom s) (proto_visible s).
Definition with_autoRot (a : bool) (s : State) : State :=
  Build_State (heap s) (scene s) (modules s) (activeModule s) (wireOn s) a
    (camera_position s) (controls_target s) (controls_autoRotate s)
    (controls_autoRotateSpeed s) (dom s) (proto_visible s).
Definition with_camera (p t : Vector3) (s : State) : State :=
  Build_State (heap s) (scene s) (modules s) (activeModule s) (wireOn s) (autoRot s)
    p t (controls_autoRotate s) (controls_autoRotateSpeed s) (dom s) (proto_visible s).
Definition with_autoRotate (a : bool) (speed : float) (s : State) : State :=
  Build_State (heap s) (scene s) (modules s) (activeModule s) (wireOn s) (autoRot s)
    (camera_position s) (controls_target s) a speed (dom s) (proto_visible s).
Definition with_dom (d : Dom) (s : State) : State :=
  Build_State (heap s) (scene s) (modules s) (activeModule s) (wireOn s) (autoRot s)
    (camera_position s) (controls_target s) (controls_autoRotate s)
    (controls_autoRotateSpeed s) d (proto_visible s).
Definition with_proto_visible (l : list string) (s : State) : State :=
  Build_State (heap s) (scene s) (modules s) (activeModule s) (wireOn s) (autoRot s)
    (camera_position s) (controls_target s) (controls_autoRotate s)
    (controls_autoRotateSpeed s) (dom s) l.

(** [o.visible = b] on the object [i] of the heap. *)
Definition heap_set_visible (i : ident) (b : bool) (h : Heap) : Heap :=
  heap_assign i (set_visible b) h.

(** The callback [o => { if (o.isMesh && !o.userData.isLabel)
    o.material.wireframe = w }] run over the objects [ds] in order. *)
Definition wire_target (d : ObjectData) : option ident :=
  if isMesh d && negb (isLabel d) then material d else None.

Definition apply_wireframe (w : bool) (ds : list ObjectData)
    (ms : gmap ident Material) : gmap ident Material :=
  fold_left (fun ms d =>
               match wire_target d with
               | Some i => alter (set_wireframe w) i ms
               | None => ms
               end) ds ms.

(** [root.traverse(callback)] with that callback. *)
Definition heap_wireframe (root : ident) (w : bool) (h : Heap) : Heap :=
  match forest_find root (roots h) with
  | Some o =>
      {| next := next h;
         materials := apply_wireframe w (traverse o) (materials h);
         roots := roots h |}
  | None => h
  end.

(** *** Property lookup [modules[name]]

    [modules] is an object literal, so a name that is not one of its own
    four keys is looked up in [Object.prototype], whose members are
    functions (and [__proto__], an object): all truthy. *)
Definition Object_prototype : list string :=
  [ "constructor"; "hasOwnProperty"; "isPrototypeOf"; "propertyIsEnumerable";
    "toLocaleString"; "toString"; "valueOf"; "__proto__";
    "__defineGetter__"; "__defineSetter__"; "__lookupGetter__"; "__lookupSetter__" ]%string.

Inductive Property : Type :=
| Own (m : ident)
| Inherited
| Undefined.

Definition Object_keys : list string :=
  [ "peltier"; "sorbant"; "filtration"; "assemblage" ]%string.

Definition modules_get (ms : Modules) (name : string) : Property :=
  if String.eqb name "peltier" then Own (peltier ms)
  else if String.eqb name "sorbant" then Own (sorbant ms)
  else if String.eqb name "filtration" then Own (filtration ms)
  else if String.eqb name "assemblage" then Own (assemblage ms)
  else if existsb (String.eqb name) Object_prototype then Inherited
  else Undefined.

(** [legMap[name]] for the four module names. *)
Definition legMap (name : string) : string :=
  if String.eqb name "peltier" then "legend"
  else if String.eqb name "sorbant" then "legend-sorbant"
  else if String.eqb name "filtration" then "legend-filtration"
  else "legend-assemblage".

Inductive Completion : Type :=
| Normal
| Throw (error : string).

(** [Object.keys(modules).forEach(k => { modules[k].visible = false })]. *)
Definition hide_all (s : State) : State :=
  with_heap
    (fold_left (fun h k =>
                  match modules_get (modules s) k with
                  | Own m => heap_set_visible m false h
                  | _ => h
                  end) Object_keys (heap s)) s.

(** The legends: the four are hidden, then the one of the module is
    shown again. *)
Definition hide_legends (d : Dom) : Dom :=
  {| btn_wire_on := btn_wire_on d; btn_rot_on := btn_rot_on d;
     mod_btn_active := mod_btn_active d;
     legend_display :=
       fold_left (fun m id => <[id := "none"%string]> m)
         [ "legend"; "legend-sorbant"; "legend-filtration"; "legend-assemblage" ]%string
         (legend_display d) |}.

Definition show_legend (id : string) (d : Dom) : Dom :=
  {| btn_wire_on := btn_wire_on d; btn_rot_on := btn_rot_on d;
     mod_btn_active := mod_btn_active d;
     legend_display := <[id := ""%string]> (legend_display d) |}.

Definition activate_button (name : string) (d : Dom) : Dom :=
  {| btn_wire_on := btn_wire_on d; btn_rot_on := btn_rot_on d;
     mod_btn_active := Some name;
     legend_display := legend_display d |}.

(** [controls.update()].  The orbit controls belong to three.js; what
    they add to the pose on their own (damping, auto-rotation, the
    distance limits) is an [Orbit] event of the environment below, and
    the call leaves the pose the handler has just written. *)
Definition controls_update (s : State) : State := s.

(** [window.switchModule = (name) => { ... }]. *)
Definition switchModule (name : string) (s : State) : State * Completion :=
  match modules_get (modules s) name with
  | Undefined => (s, Normal)
  | target =>
      let s := hide_all s in
      let s := match target with
               | Own m => with_heap (heap_set_visible m true (heap s)) s
               | _ => with_proto_visible (name :: proto_visible s) s
               end in
      let s := with_activeModule name s in
      let s := with_dom (activate_button name (dom s)) s in
      let s := with_dom (hide_legends (dom s)) s in
      match target with
      | Own m =>
          let s := with_dom (show_legend (legMap name) (dom s)) s in
          let s := with_heap (heap_wireframe m (wireOn s) (heap s)) s in
          let s := if String.eqb name "assemblage"
                   then with_camera (V3 170 105 170) (V3 0 40 0) s
                   else with_camera (V3 95 55 95) (V3 0 7 0) s in
          (controls_update s, Normal)
      | _ => (s, Throw "TypeError: modules[name].traverse is not a function")
      end
  end.

(** [window.toggleWire]. *)
Definition toggleWire (s : State) : State :=
  let s := with_wireOn (negb (wireOn s)) s in
  let s := with_dom {| btn_wire_on := wireOn s; btn_rot_on := btn_rot_on (dom s);
                       mod_btn_active := mod_btn_active (dom s);
                       legend_display := legend_display (dom s) |} s in
  with_heap (heap_wireframe (scene s) (wireOn s) (heap s)) s.

(** [window.toggleRot]. *)
Definition toggleRot (s : State) : State :=
  let s := with_autoRot (negb (autoRot s)) s in
  let s := with_dom {| btn_wire_on := btn_wire_on (dom s); btn_rot_on := autoRot s;
                       mod_btn_active := mod_btn_active (dom s);
                       legend_display := legend_display (dom s) |} s in
  with_autoRotate (autoRot s) 1.2 s.

(** [window.resetView]. *)
Definition resetView (s : State) : State :=
  controls_update (with_camera (V3 100 60 100) (V3 0 7 0) s).

(** *** Observations *)

(** The [visible] flag of the module group [modules[name]]. *)
Definition module_visible (s : State) (name : string) : bool :=
  match modules_get (modules s) name with
  | Own m =>
      match forest_find m (roots (heap s)) with
      | Some o => visible (data o)
      | None => false
      end
  | _ => false
  end.

Definition visible_modules (s : State) : list string :=
  List.filter (module_visible s) Object_keys.

(** The objects of the scene, in traversal order. *)
Definition scene_objects (s : State) : list ObjectData :=
  match forest_find (scene s) (roots (heap s)) with
  | Some o => traverse o
  | None => []
  end.

(** The material of an object, as the store has it. *)
Definition material_of (s : State) (d : ObjectData) : option Material :=
  match material d with
  | Some i => materials (heap s) !! i
  | None => None
  end.

(** The snapshot of the spec: the visibility of each module, the active
    module, the two toggles, and the camera position and orbit target. *)
Definition snapshot (s : State) : list bool * string * bool * bool * Vector3 * Vector3 :=
  (List.map (module_visible s) Object_keys, activeModule s, wireOn s, autoRot s,
   camera_position s, controls_target s).

(** The preset pose of a module: camera position and orbit target. *)
Definition preset_pose (name : string) : Vector3 * Vector3 :=
  if String.eqb name "assemblage"
  then (V3 170 105 170, V3 0 40 0)
  else (V3 95 55 95, V3 0 7 0).

(** *** The transition system *)

Inductive Event : Type :=
| SwitchModule (name : string)
| ToggleWire
| ToggleRot
| ResetView
| Orbit (position target : Vector3).

Definition step (e : Event) (s : State) : State :=
  match e with
  | SwitchModule name => fst (switchModule name s)
  | ToggleWire => toggleWire s
  | ToggleRot => toggleRot s
  | ResetView => resetView s
  | Orbit p t => with_camera p t s
  end.

Inductive reachable : State -> Prop :=
| reachable_init : reachable init
| reachable_step (e : Event) (s : State) : reachable s -> reachable (step e s).

End Controller.
End Main.

(** ** modules/assemblage.js, the version with gutters

    The file under [modules/] differs from the one above in
    [labelSprite] (no [scaleW]), in [buildElec] (an opaque case), and in
    the water path (two gutters, [buildGouttiereS2P] and
    [buildGouttiereP2F], in place of [buildFluxEau]); [mat], [addM],
    [bx], [cy], [pipe], [edgeLine], the offsets and [buildPanneau] are
    the same text in both. *)

Module Assemblage0.
Section Builder.
Context {host : MathHost}.
#[local] Open Scope float_scope.

(** [labelSprite(parent, text, x, y, z, hex = '#a0c8e8')]. *)
Definition labelSprite (parent : ident) (text : string) (x y z : float)
    (hex : option string) : Build unit :=
  let hex := default "#a0c8e8"%string hex in
  let CW := 512 in
  let CH := 96 in
  let cv := {| cv_width := CW; cv_height := CH; cv_text := text; cv_style := hex |} in
  sm <- new_Material
          (with_depthTest false
             (with_transparent true
                (with_opacity 0.92
                   (with_map (CanvasTexture cv) (Material_new SpriteMaterial))))) ;;
  sp <- new_Object3D Sprite None (Some sm) ;;
  assign sp (set_scale (V3 32 6 1)) ;;
  assign sp (set_position (V3 x y z)) ;;
  assign sp (set_isLabel true) ;;
  add parent sp.

Definition buildElec (parent : ident) : Build unit :=
  let EW := 50 in
  let EH := 10 in
  let ED := 40 in
  let EY := EH / 2 in
  (* anodised case *)
  (b <- (p <- Assemblage.mat 0x37474f (Some 0.55) (Some 0.75) None ;;
         Assemblage.bx parent EW EH ED p 0 EY 0 0 0 0) ;;
   Assemblage.edgeLine parent b 0x546e7a (Some 0.80)) ;;
  (* front panel *)
  (p <- Assemblage.mat 0x263238 (Some 0.70) (Some 0.60) (Some 0.90) ;;
   Assemblage.bx parent EW EH 0.5 p 0 EY (-ED / 2 + 0.25) 0 0 0) ;;
  (* battery *)
  (b <- (p <- Assemblage.mat 0x1a1a1a (Some 0.88) (Some 0.05) None ;;
         Assemblage.bx parent 15 8 6.5 p 13 EY 0 0 0 0) ;;
   Assemblage.edgeLine parent b 0x424242 (Some 0.65)) ;;
  (p <- Assemblage.mat 0xd4af37 (Some 0.22) (Some 0.85) None ;;
   Assemblage.cy parent 0.55 1.0 p 10.5 (EH - 0.2) 0 (Math_PI/2) 0) ;;
  (p <- Assemblage.mat 0xc0392b (Some 0.22) (Some 0.85) None ;;
   Assemblage.cy parent 0.55 1.0 p 15.5 (EH - 0.2) 0 (Math_PI/2) 0) ;;
  (* ESP32 and relay board *)
  (b <- (p <- Assemblage.mat 0x2e7d32 (Some 0.65) (Some 0.15) None ;;
         Assemblage.bx parent 20 0.35 13 p (-5) (EY + 1.5) 0 0 0 0) ;;
   Assemblage.edgeLine parent b 0x388e3c (Some 0.70)) ;;
  for_each (seq 0 4) (fun i =>
    p <- Assemblage.mat 0x01579b (Some 0.55) (Some 0.30) None ;;
    Assemblage.bx parent 1.6 1.2 1.2 p (-14 + num i * 3.5) (EY + 2.4) 2.5 0 0 0 ;; ret tt) ;;
  (p <- Assemblage.mat 0x37474f (Some 0.55) (Some 0.50) None ;;
   Assemblage.bx parent 5.5 0.4 3.3 p (-2) (EY + 2.3) (-3.0) 0 0 0) ;;
  (* MPPT *)
  (b <- (p <- Assemblage.mat 0xb71c1c (Some 0.65) (Some 0.20) None ;;
         Assemblage.bx parent 7 4.5 5 p 4 EY (-8) 0 0 0) ;;
   Assemblage.edgeLine parent b 0xe53935 (Some 0.70)) ;;
  (* status LEDs *)
  for_each (seq 0 3) (fun i =>
    p <- Assemblage.mat (nth i [0x43a047; 0xfdd835; 0xef5350]%Z 0%Z)
           (Some 0.10) (Some 0.00) (Some 0.95) ;;
    Assemblage.bx parent 0.7 0.7 0.3 p (-8 + num i * 3.0) EY (-(ED/2 - 0.4)) 0 0 0 ;; ret tt) ;;
  (* load cable *)
  Assemblage.pipe parent [ V3 0 0 (-14); V3 2 (-2) (-16); V3 4 (-3.5) (-18) ] (Some 0.32).

Definition buildGouttiereS2P (parent : ident) : Build unit :=
  Assemblage.pipe parent
    [ V3 (-20) (Assemblage.Y_SORBANT + 1.5) (-18);
      V3 (-20) (Assemblage.Y_PELTIER + 15.5) (-18) ] (Some 0.55).

Definition buildGouttiereP2F (parent : ident) : Build unit :=
  Assemblage.pipe parent
    [ V3 0 (Assemblage.Y_PELTIER + 0.5) (-18);
      V3 0 (Assemblage.Y_PELTIER - 3) (-14);
      V3 (-30) (Assemblage.Y_FILTR + 13) (-5);
      V3 (-33) (Assemblage.Y_FILTR + 12.5) 0 ] (Some 0.55).

Definition buildAssemblage : Build ident :=
  g <- new_Object3D Group None None ;;
  assign g (set_name "assemblage") ;;
  buildElec g ;;
  filtr <- call Filtration.buildFiltration ;;
  assign filtr (set_position (V3 0 Assemblage.Y_FILTR 0)) ;;
  add g filtr ;;
  peltier <- call Peltier.buildPeltier ;;
  assign peltier (set_position (V3 0 Assemblage.Y_PELTIER 0)) ;;
  add g peltier ;;
  sorbant <- call Sorbant.buildSorbant ;;
  assign sorbant (set_position (V3 0 Assemblage.Y_SORBANT 0)) ;;
  add g sorbant ;;
  Assemblage.buildPanneau g ;;
  buildGouttiereS2P g ;;
  buildGouttiereP2F g ;;
  labelSprite g "SORBANT" 0 (Assemblage.Y_SORBANT + 30) 32 (Some "#d4a843"%string) ;;
  labelSprite g "PELTIER TEC" 0 (Assemblage.Y_PELTIER + 22) 32 (Some "#4ab8e8"%string) ;;
  labelSprite g "FILTRATION + RÉSERVOIR" 0 (Assemblage.Y_FILTR + 22) 28 (Some "#4db6ac"%string) ;;
  labelSprite g "ÉLECTRONIQUE" 0 (Assemblage.Y_ELEC + 8) 28 (Some "#78909c"%string) ;;
  ret g.

End Builder.
End Assemblage0.

(** * The vocabulary of the statements *)

(** Two trees that share no object and no material. *)
Definition separate (o1 o2 : Object3D) : Prop :=
  (forall i, In i (obj_ids o1) -> ~ In i (obj_ids o2)) /\
  (forall j, In j (mat_ids o1) -> ~ In j (mat_ids o2)).

(** Two calls of the builder [b] in a row, from the heap [h]: both
    return; the two instances have the same primitives with the same
    transforms and the same materials; they share no object and no
    material; the first is still what it was when the second has been
    built; and setting the visibility of an object, or the wireframe
    flag of a material, of the one leaves the other as it is. *)
Definition independent_copies (b : Build ident) (h : Heap) : Prop :=
  exists g1 h1 g2 h2 o1 o2,
    call b h = Some (g1, h1) /\ call b h1 = Some (g2, h2) /\
    instance h1 g1 = Some o1 /\ instance h2 g1 = Some o1 /\
    instance h2 g2 = Some o2 /\
    signature o1 = signature o2 /\
    describe (materials h1) o1 = describe (materials h2) o2 /\
    describe (materials h2) o1 = describe (materials h2) o2 /\
    separate o1 o2 /\
    (forall i v, In i (obj_ids o1) ->
       instance (heap_assign i (set_visible v) h2) g2 = Some o2) /\
    (forall i v, In i (obj_ids o2) ->
       instance (heap_assign i (set_visible v) h2) g1 = Some o1) /\
    (forall j w, In j (mat_ids o1) ->
       describe (alter (set_wireframe w) j (materials h2)) o2
       = describe (materials h2) o2) /\
    (forall j w, In j (mat_ids o2) ->
       describe (alter (set_wireframe w) j (materials h2)) o1
       = describe (materials h2) o1).

(** Running a builder on the empty heap and testing what it built. *)
Definition check_template (b : Build ident) : bool :=
  match b empty_heap with
  | Some (g, t) => template_ok g t
  | None => false
  end.

(** *** What the handlers leave in place

    The handlers write [visible] flags of objects and [wireframe] flags
    of materials only: the skeleton of the forest (every [visible] put
    to [true]) stays the one the script built. *)

Definition skel_data (d : ObjectData) : ObjectData := set_visible true d.

Fixpoint skel (o : Object3D) : Object3D :=
  match o with
  | Node d cs => Node (skel_data d) (List.map skel cs)
  end.

(** Tests on the objects of a scene: every non-label mesh has a material
    that the store holds with the flag [w]; no label uses the material
    of a non-label mesh. *)
Definition wired (w : bool) (ms : gmap ident Material) (ds : list ObjectData) : bool :=
  forallb (fun d =>
             if isMesh d && negb (isLabel d) then
               match material d with
               | Some i =>
                   match ms !! i with
                   | Some m => eqb (wireframe m) w
                   | None => false
                   end
               | None => false
               end
             else true) ds.

Definition targets (ds : list ObjectData) : list ident :=
  omap Main.wire_target ds.

Definition labels_apart (ds : list ObjectData) : bool :=
  forallb (fun d =>
             if isLabel d then
               match material d with
               | Some i => negb (existsb (Nat.eqb i) (targets ds))
               | None => true
               end
             else true) ds.

Definition meshes_have_material (ds : list ObjectData) : bool :=
  forallb (fun d => if isMesh d then bool_decide (is_Some (material d)) else true) ds.

(** The objects of the module [modules[name]], in traversal order. *)
Definition module_objects (s : Main.State) (name : string) : list ObjectData :=
  match Main.modules_get (Main.modules s) name with
  | Main.Own m =>
      match forest_find m (roots (Main.heap s)) with
      | Some o => traverse o
      | None => []
      end
  | _ => []
  end.

(** The layout of the composite: the position of the returned group and,
    for each group among its children, the name and the position. *)
Definition isGroup (d : ObjectData) : bool :=
  match otype d with Group => true | _ => false end.

Definition layout (root : Object3D) : Vector3 * list (string * Vector3) :=
  (position (data root),
   List.map (fun c => (name (data c), position (data c)))
     (List.filter (fun c => isGroup (data c)) (children root))).

(** The children of the composite that are primitives, with their
    geometry and position: they stand in the composite's own frame. *)
Definition direct_parts (root : Object3D) : list (option Geometry * Vector3) :=
  List.map (fun c => (geometry (data c), position (data c)))
    (List.filter (fun c => negb (isGroup (data c))) (children root)).

Definition built (b : Build ident) : option Object3D :=
  match b empty_heap with
  | Some (g, h) => instance h g
  | None => None
  end.

(** A material follows the threshold for the opacity [o]: it is
    transparent and double-sided when [o < 0.99], opaque and front-sided
    otherwise. *)
Definition follows_threshold (o : float) (m : Material) : Prop :=
  opacity m = o /\
  transparent m = (o <? 0.99)%float /\
  side m = if (o <? 0.99)%float then DoubleSide else FrontSide.

(** Two option objects for [helpers.js]: a translucent cylinder, and an
    almost opaque box that asks for both sides. *)
Definition translucent_cyl : Helpers.CylOptions :=
  {| Helpers.cyl_r := 1; Helpers.cyl_rBot := None; Helpers.cyl_h := 1;
     Helpers.cyl_x := 0; Helpers.cyl_y := 0; Helpers.cyl_z := 0;
     Helpers.cyl_rx := 0; Helpers.cyl_ry := 0; Helpers.cyl_rz := 0;
     Helpers.cyl_color := 0xffffff;
     Helpers.cyl_opacity := 0.5;
     Helpers.cyl_roughness := 0.5;
     Helpers.cyl_metalness := 0.2;
     Helpers.cyl_segments := 32;
     Helpers.cyl_castShadow := true |}.

Definition two_sided_box : Helpers.BoxOptions :=
  {| Helpers.box_w := 1; Helpers.box_h := 1; Helpers.box_d := 1;
     Helpers.box_x := 0; Helpers.box_y := 0; Helpers.box_z := 0;
     Helpers.box_rx := 0; Helpers.box_ry := 0; Helpers.box_rz := 0;
     Helpers.box_color := 0xffffff;
     Helpers.box_opacity := 0.995;
     Helpers.box_roughness := 0.7;
     Helpers.box_metalness := 0.1;
     Helpers.box_side := DoubleSide;
     Helpers.box_castShadow := true;
     Helpers.box_receiveShadow := true |}.

(** The triangles of the front face and of the bottom face of a
    trapezoidal wall, as the index array lists them. *)
Definition front_and_bottom : list (nat * nat * nat) :=
  [(4, 0, 3); (4, 3, 7); (4, 5, 1); (4, 1, 0)].

(** An assignment [o.field = v] on the object [i], seen on the records
    of a traversal. *)
Definition alter_data (i : ident) (f : ObjectData -> ObjectData) (d : ObjectData) : ObjectData :=
  if oid d =? i then f d else d.

(** The [visible] flag of the object [k] of a heap. *)
Definition visible_at (h : Heap) (k : ident) : option bool :=
  (fun o => visible (data o)) <$> forest_find k (roots h).

Section Invariant.
Context {host : MathHost}.

(** The frame of a state: the scene, the modules and the skeleton of
    the forest are those of the initial state. *)
Record frame (s : Main.State) : Prop := {
  frame_scene : Main.scene s = 0;
  frame_modules :
    Main.modules s =
    {| Main.peltier := 12; Main.sorbant := 208; Main.filtration := 309; Main.assemblage := 456 |};
  frame_roots : List.map skel (roots (Main.heap s)) = List.map skel (roots (Main.heap Main.init));
}.

(** The invariant of the wireframe toggle: every non-label mesh of the
    scene carries the controller's flag. *)
Definition wire_inv (s : Main.State) : Prop :=
  wired (Main.wireOn s) (materials (Main.heap s))
    (List.map skel_data (Main.scene_objects Main.init)) = true.

End Invariant.

(** A state of the viewer on the reference host: the wireframe toggled
    and the Peltier module selected again. *)
Definition sample_state : Main.State :=
  Main.step (Main.SwitchModule "peltier")
    (Main.step Main.ToggleWire (@Main.init ReferenceHost.host)).


(** ** Further vocabulary *)

(** A function applied to the record of every object of a tree. *)
Fixpoint obj_map (f : ObjectData -> ObjectData) (o : Object3D) : Object3D :=
  match o with
  | Node d cs => Node (f d) (List.map (obj_map f) cs)
  end.

(** What [switchModule] writes to the [visible] flags when it selects
    the module [m]: the four modules hidden in the order of
    [Object.keys], then [m] shown. *)
Definition switch_visible (m : ident) (d : ObjectData) : ObjectData :=
  alter_data m (set_visible true)
    (alter_data 456 (set_visible false)
       (alter_data 309 (set_visible false)
          (alter_data 208 (set_visible false)
             (alter_data 12 (set_visible false) d)))).

(** The state in the middle of [switchModule]: every module hidden, the
    module [m] shown again. *)
Definition shown (m : ident) (s : Main.State) : Main.State :=
  Main.with_heap (Main.heap_set_visible m true (Main.heap (Main.hide_all s))) (Main.hide_all s).

(** Outlines.  [edgeLine(parent, m, ...)] adds line segments over the
    edges of the mesh [m]; in a tree, the line segments among the
    children of every object, each with the sibling that comes just
    before it. *)
Definition isLineSegments (d : ObjectData) : bool :=
  match otype d with LineSegments => true | _ => false end.

Fixpoint preceded (prev : option ObjectData) (cs : list Object3D)
    : list (option ObjectData * ObjectData) :=
  match cs with
  | [] => []
  | c :: cs' => (prev, data c) :: preceded (Some (data c)) cs'
  end.

Fixpoint outline_pairs (o : Object3D) : list (option ObjectData * ObjectData) :=
  match o with
  | Node d cs =>
      List.filter (fun p => isLineSegments (snd p)) (preceded None cs)
      ++ flat_map outline_pairs cs
  end.

(** The line segments [l] lie on the edges of the mesh [m]. *)
Definition outlines (p : option ObjectData * ObjectData) : Prop :=
  match p with
  | (Some m, l) =>
      isMesh m = true /\
      (exists g, geometry m = Some g /\ geometry l = Some (EdgesGeometry g)) /\
      position l = position m /\ rotation l = rotation m /\ scale l = scale m
  | (None, _) => False
  end.

Definition well_outlined (b : Build ident) : Prop :=
  match built b with
  | Some o => Forall outlines (outline_pairs o)
  | None => False
  end.

Definition outline_count (b : Build ident) : option nat :=
  (fun o => List.length (outline_pairs o)) <$> built b.

(** The description of what a builder returns, and of the group named
    [nm] among the children of what it returns. *)
Definition described (b : Build ident) : option Shape :=
  match b empty_heap with
  | Some (g, h) => describe (materials h) <$> instance h g
  | None => None
  end.

Definition part (nm : string) (o : Object3D) : option Object3D :=
  List.find (fun c => isGroup (data c) && String.eqb (name (data c)) nm) (children o).

Definition described_part (nm : string) (b : Build ident) : option Shape :=
  match b empty_heap with
  | Some (g, h) =>
      match instance h g with
      | Some o => describe (materials h) <$> part nm o
      | None => None
      end
  | None => None
  end.

(** A description with its root put at the position [p]. *)
Definition placed_at (p : Vector3) (sh : Shape) : Shape :=
  match sh with
  | ShapeNode d m parts => ShapeNode (set_position p d) m parts
  end.

(** The tubes among the children of an object: the waypoints of each. *)
Definition tube_paths (o : Object3D) : list (list Vector3) :=
  omap (fun c => match geometry (data c) with
                 | Some (TubeGeometry (CatmullRomCurve3 points) _ _ _ _) => Some points
                 | _ => None
                 end) (children o).

(** A point of a group, in the frame of the parent of the group: the
    position of the group is added (the group is neither rotated nor
    scaled). *)
Definition upright (g : Object3D) : Prop :=
  rotation (data g) = v3_zero /\ scale (data g) = v3_one.

Definition in_parent (g : Object3D) (p : Vector3) : Vector3 :=
  V3 (vx (position (data g)) + vx p) (vy (position (data g)) + vy p)
     (vz (position (data g)) + vz p).

(** The first and the last waypoint of a tube. *)
Definition inlet (points : list Vector3) : option Vector3 := hd_error points.
Definition outlet (points : list Vector3) : option Vector3 := hd_error (rev points).

(** A scene made with the primitives of [helpers.js]: a box, its
    outline, a cylinder and a text label. *)
Definition helpers_scene {host : MathHost} (b : Helpers.BoxOptions) (c : Helpers.CylOptions)
    (ecolor : option Z) (eopacity : option float)
    (text : string) (x y z : float) (style : option string) (size : option float)
    : Build (ident * (ident * ident * ident * ident)) :=
  (scene <- new_Object3D Scene None None ;;
   m <- Helpers.box scene b ;;
   e <- Helpers.edges scene m ecolor eopacity ;;
   k <- Helpers.cyl scene c ;;
   l <- Helpers.label scene text x y z style size ;;
   ret (scene, (m, e, k, l)))%build.

(** * Proofs *)

(** ** The object forest *)

Section Forest.

Lemma Object3D_rect' (P : Object3D -> Prop) :
  (forall d cs, Forall P cs -> P (Node d cs)) -> forall o, P o.
Proof.
  intros H. fix IH 1. intros [d cs]. apply H.
  induction cs as [|c cs IHcs]; constructor; [apply IH | exact IHcs].
Qed.

(** [obj_find] written with [forest_find]. *)
Lemma obj_find_unfold i d cs :
  obj_find i (Node d cs) = if oid d =? i then Some (Node d cs) else forest_find i cs.
Proof.
  simpl. destruct (oid d =? i); [reflexivity|].
  induction cs as [|c cs IH]; simpl; [reflexivity|].
  destruct (obj_find i c); [reflexivity | exact IH].
Qed.

Lemma obj_remove_unfold i d cs :
  obj_remove i (Node d cs) = Node d (forest_remove i cs).
Proof.
  simpl. f_equal.
  induction cs as [|c cs IH]; simpl; [reflexivity|].
  destruct (oid (data c) =? i); [exact IH | f_equal; exact IH].
Qed.

Lemma obj_find_oid i o r : obj_find i o = Some r -> oid (data r) = i.
Proof.
  revert r. induction o as [d cs IH] using Object3D_rect'. intros r.
  rewrite obj_find_unfold. destruct (oid d =? i) eqn:E.
  - intros [= <-]. simpl. now apply Nat.eqb_eq.
  - clear E. induction IH as [|c cs Hc _ IHcs]; simpl; [discriminate|].
    destruct (obj_find i c) eqn:F; [intros [= <-]; eauto | exact IHcs].
Qed.

Lemma forest_find_oid i l r : forest_find i l = Some r -> oid (data r) = i.
Proof.
  induction l as [|c l IH]; simpl; [discriminate|].
  destruct (obj_find i c) eqn:F; [intros [= <-]; eapply obj_find_oid; eauto | exact IH].
Qed.

Lemma forest_find_app i l1 l2 :
  forest_find i (l1 ++ l2) =
  match forest_find i l1 with Some r => Some r | None => forest_find i l2 end.
Proof.
  induction l1 as [|c l1 IH]; simpl; [reflexivity|].
  destruct (obj_find i c); [reflexivity | exact IH].
Qed.

(** An identity that no object of the tree has is not found. *)
Lemma obj_find_None i o : ~ In i (obj_ids o) -> obj_find i o = None.
Proof.
  induction o as [d cs IH] using Object3D_rect'. intros H.
  rewrite obj_find_unfold. unfold obj_ids in H. simpl in H.
  destruct (oid d =? i) eqn:E; [apply Nat.eqb_eq in E; tauto|].
  assert (H' : ~ In i (List.map oid (flat_map traverse cs))) by tauto.
  clear H E. induction IH as [|c cs Hc _ IHcs]; simpl; [reflexivity|].
  simpl in H'. rewrite List.map_app, in_app_iff in H'.
  rewrite Hc by (unfold obj_ids; tauto). apply IHcs. tauto.
Qed.

Lemma forest_find_None i l :
  ~ In i (List.map oid (traverse_all l)) -> forest_find i l = None.
Proof.
  induction l as [|c l IH]; simpl; [reflexivity|].
  unfold traverse_all in *. simpl. rewrite List.map_app, in_app_iff. intros H.
  rewrite obj_find_None by (unfold obj_ids; tauto). apply IH. tauto.
Qed.

(** *** Field assignments *)

Section Alter.
Variable i : ident.
Variable f : ObjectData -> ObjectData.
Hypothesis f_oid : forall d, oid (f d) = oid d.

Lemma alter_data_oid d : oid (alter_data i f d) = oid d.
Proof. unfold alter_data. destruct (oid d =? i); [apply f_oid | reflexivity]. Qed.

Lemma traverse_alter o :
  traverse (obj_alter i f o) = List.map (alter_data i f) (traverse o).
Proof.
  induction o as [d cs IH] using Object3D_rect'. simpl. f_equal.
  induction IH as [|c cs Hc _ IHcs]; simpl; [reflexivity|].
  rewrite List.map_app, Hc, IHcs. reflexivity.
Qed.

Lemma obj_find_alter k o :
  obj_find k (obj_alter i f o) = obj_alter i f <$> obj_find k o.
Proof.
  induction o as [d cs IH] using Object3D_rect'.
  change (obj_alter i f (Node d cs))
    with (Node (alter_data i f d) (List.map (obj_alter i f) cs)).
  rewrite !obj_find_unfold, alter_data_oid.
  destruct (oid d =? k); [reflexivity|].
  induction IH as [|c cs Hc _ IHcs]; simpl; [reflexivity|].
  rewrite Hc. destruct (obj_find k c); [reflexivity | exact IHcs].
Qed.

Lemma forest_find_alter k l :
  forest_find k (List.map (obj_alter i f) l) = obj_alter i f <$> forest_find k l.
Proof.
  induction l as [|c l IH]; simpl; [reflexivity|].
  rewrite obj_find_alter. destruct (obj_find k c); [reflexivity | exact IH].
Qed.

(** An assignment to an object that is not in the tree leaves the tree. *)
Lemma obj_alter_notin o : ~ In i (obj_ids o) -> obj_alter i f o = o.
Proof.
  induction o as [d cs IH] using Object3D_rect'. intros H.
  unfold obj_ids in H. simpl in H. simpl.
  destruct (oid d =? i) eqn:E; [apply Nat.eqb_eq in E; tauto|].
  f_equal.
  assert (H' : ~ In i (List.map oid (flat_map traverse cs))) by tauto.
  clear H E. induction IH as [|c cs Hc _ IHcs]; simpl; [reflexivity|].
  simpl in H'. rewrite List.map_app, in_app_iff in H'.
  rewrite Hc by (unfold obj_ids; tauto). f_equal. apply IHcs. tauto.
Qed.

End Alter.
End Forest.

(** ** Calls of a builder *)

Section Calls.

#[local] Instance add_inj (k : nat) : Inj (=) (=) (Nat.add k).
Proof. intros a b H. lia. Qed.

Lemma traverse_shift k o :
  traverse (shift_obj k o) = List.map (shift_data k) (traverse o).
Proof.
  induction o as [d cs IH] using Object3D_rect'. simpl. f_equal.
  induction IH as [|c cs Hc _ IHcs]; simpl; [reflexivity|].
  rewrite List.map_app, Hc, IHcs. reflexivity.
Qed.

Lemma obj_ids_shift k o : obj_ids (shift_obj k o) = List.map (Nat.add k) (obj_ids o).
Proof.
  unfold obj_ids. rewrite traverse_shift, !List.map_map. reflexivity.
Qed.

Lemma mat_ids_shift k o : mat_ids (shift_obj k o) = List.map (Nat.add k) (mat_ids o).
Proof.
  unfold mat_ids. rewrite traverse_shift.
  induction (traverse o) as [|d l IH]; [reflexivity|].
  cbn. destruct (material d); cbn; rewrite IH; reflexivity.
Qed.

Lemma signature_shift k o : signature (shift_obj k o) = signature o.
Proof.
  unfold signature. rewrite traverse_shift, List.map_map. reflexivity.
Qed.

Lemma obj_find_shift k i o :
  obj_find (k + i) (shift_obj k o) = shift_obj k <$> obj_find i o.
Proof.
  induction o as [d cs IH] using Object3D_rect'.
  change (shift_obj k (Node d cs))
    with (Node (shift_data k d) (List.map (shift_obj k) cs)).
  rewrite !obj_find_unfold.
  change (oid (shift_data k d)) with (k + oid d).
  destruct (oid d =? i) eqn:E.
  - apply Nat.eqb_eq in E. subst i. rewrite Nat.eqb_refl. reflexivity.
  - apply Nat.eqb_neq in E.
    destruct (k + oid d =? k + i) eqn:E'; [apply Nat.eqb_eq in E'; lia|].
    clear E E'. induction IH as [|c cs Hc _ IHcs]; simpl; [reflexivity|].
    rewrite Hc. destruct (obj_find i c); [reflexivity | exact IHcs].
Qed.

Lemma forest_find_shift k i l :
  forest_find (k + i) (List.map (shift_obj k) l) = shift_obj k <$> forest_find i l.
Proof.
  induction l as [|c l IH]; simpl; [reflexivity|].
  rewrite obj_find_shift. destruct (obj_find i c); [reflexivity | exact IH].
Qed.

(** A description depends on the store through the materials of the tree
    only. *)
Lemma describe_ext ms ms' o :
  (forall j, In j (mat_ids o) -> ms' !! j = ms !! j) ->
  describe ms' o = describe ms o.
Proof.
  induction o as [d cs IH] using Object3D_rect'. intros H. simpl.
  assert (Hd : match material d with Some i => ms' !! i | None => None end
               = match material d with Some i => ms !! i | None => None end).
  { destruct (material d) as [j|] eqn:E; [|reflexivity].
    apply H. unfold mat_ids. simpl. rewrite E. left. reflexivity. }
  rewrite Hd. f_equal.
  assert (H' : forall j, In j (omap material (flat_map traverse cs)) -> ms' !! j = ms !! j).
  { intros j Hj. apply H. unfold mat_ids. simpl.
    destruct (material d); [right|]; exact Hj. }
  clear H Hd. induction IH as [|c cs Hc _ IHcs]; simpl; [reflexivity|].
  simpl in H'. rewrite omap_app in H'.
  rewrite Hc, IHcs; [reflexivity | |];
    intros j Hj; apply H'; apply in_app_iff; [right | left]; exact Hj.
Qed.

Lemma describe_shift k ms ms' o :
  (forall j, In j (mat_ids o) -> ms' !! (k + j) = ms !! j) ->
  describe ms' (shift_obj k o) = describe ms o.
Proof.
  induction o as [d cs IH] using Object3D_rect'. intros H. simpl.
  assert (H' : forall j, In j (omap material (flat_map traverse cs)) -> ms' !! (k + j) = ms !! j).
  { intros j Hj. apply H. unfold mat_ids. simpl.
    destruct (material d); [right|]; exact Hj. }
  f_equal.
  - destruct (material d) as [j|] eqn:E; [|reflexivity].
    apply H. unfold mat_ids. simpl. rewrite E. left. reflexivity.
  - clear H. induction IH as [|c cs Hc _ IHcs]; simpl; [reflexivity|].
    simpl in H'. rewrite omap_app in H'.
    rewrite Hc, IHcs; [reflexivity | |];
      intros j Hj; apply H'; apply in_app_iff; [right | left]; exact Hj.
Qed.

End Calls.

Section CallTwice.

#[local] Existing Instance add_inj.

Variable b : Build ident.
Variable g : ident.
Variable t : Heap.
Hypothesis Hrun : b empty_heap = Some (g, t).
Hypothesis Hok : template_ok g t = true.

Lemma template_root : exists T, roots t = [T] /\ oid (data T) = g.
Proof.
  unfold template_ok in Hok. destruct (roots t) as [|T [|]]; try discriminate.
  exists T. split; [reflexivity|].
  rewrite !andb_true_iff in Hok. now apply Nat.eqb_eq.
Qed.

Lemma template_obj_ids T :
  roots t = [T] -> forall i, In i (obj_ids T) -> i < next t.
Proof.
  intros HT i Hi. unfold template_ok in Hok. rewrite HT in Hok.
  rewrite !andb_true_iff in Hok. destruct Hok as [[[_ H] _] _].
  rewrite forallb_forall in H. unfold obj_ids in Hi. apply in_map_iff in Hi.
  destruct Hi as [d [<- Hd]]. apply Nat.ltb_lt. now apply H.
Qed.

Lemma template_mat_ids T :
  roots t = [T] -> forall j, In j (mat_ids T) -> j < next t /\ is_Some (materials t !! j).
Proof.
  intros HT j Hj. unfold template_ok in Hok. rewrite HT in Hok.
  rewrite !andb_true_iff in Hok. destruct Hok as [[_ H] _].
  rewrite forallb_forall in H. specialize (H j Hj).
  rewrite andb_true_iff in H. destruct H as [H1 H2].
  split; [now apply Nat.ltb_lt | now apply bool_decide_eq_true in H2].
Qed.

Lemma template_store i m : materials t !! i = Some m -> i < next t.
Proof.
  intros Hi. unfold template_ok in Hok.
  destruct (roots t) as [|T [|]]; try discriminate.
  rewrite !andb_true_iff in Hok. destruct Hok as [_ H].
  rewrite forallb_forall in H. apply Nat.ltb_lt. apply H.
  apply in_map_iff. exists (i, m). split; [reflexivity|].
  apply list_elem_of_In. now apply elem_of_map_to_list.
Qed.

Lemma find_root T : roots t = [T] -> oid (data T) = g -> forest_find g [T] = Some T.
Proof.
  intros _ Hg. destruct T as [d cs]. simpl in Hg. cbn [forest_find].
  rewrite obj_find_unfold, Hg, Nat.eqb_refl. reflexivity.
Qed.

Lemma call_twice h : heap_wf h -> independent_copies b h.
Proof.
  intros [Hobj Hmat].
  destruct template_root as [T [HT Hg]].
  pose proof (template_obj_ids T HT) as HTo.
  pose proof (template_mat_ids T HT) as HTm.
  pose proof (find_root T HT Hg) as Hfind.
  set (n := next h). set (N := next t).
  set (o1 := shift_obj n T). set (o2 := shift_obj (n + N) T).
  set (h1 := {| next := n + N;
                materials := materials h ∪ kmap (Nat.add n) (materials t);
                roots := roots h ++ [o1] |}).
  set (h2 := {| next := n + N + N;
                materials := materials h1 ∪ kmap (Nat.add (n + N)) (materials t);
                roots := roots h1 ++ [o2] |}).
  assert (Hold : forall i, In i (List.map oid (traverse_all (roots h))) -> i < n).
  { intros i Hi. apply in_map_iff in Hi. destruct Hi as [d [<- Hd]].
    rewrite List.Forall_forall in Hobj. apply Hobj. exact Hd. }
  assert (Hids1 : forall i, In i (obj_ids o1) -> n <= i < n + N).
  { intros i Hi. unfold o1 in Hi. rewrite obj_ids_shift in Hi.
    apply in_map_iff in Hi. destruct Hi as [a [<- Ha]]. apply HTo in Ha. fold N in Ha. lia. }
  assert (Hids2 : forall i, In i (obj_ids o2) -> n + N <= i).
  { intros i Hi. unfold o2 in Hi. rewrite obj_ids_shift in Hi.
    apply in_map_iff in Hi. destruct Hi as [a [<- Ha]]. lia. }
  assert (Hmids1 : forall j, In j (mat_ids o1) -> n <= j < n + N).
  { intros j Hj. unfold o1 in Hj. rewrite mat_ids_shift in Hj.
    apply in_map_iff in Hj. destruct Hj as [a [<- Ha]]. apply HTm in Ha. fold N in Ha. lia. }
  assert (Hmids2 : forall j, In j (mat_ids o2) -> n + N <= j).
  { intros j Hj. unfold o2 in Hj. rewrite mat_ids_shift in Hj.
    apply in_map_iff in Hj. destruct Hj as [a [<- Ha]]. lia. }
  assert (Hnone : forall i, n <= i -> materials h !! i = None).
  { intros i Hi. destruct (materials h !! i) eqn:E; [|reflexivity].
    apply Hmat in E. fold n in E. lia. }
  assert (HnoneT : forall i, N <= i -> materials t !! i = None).
  { intros i Hi. destruct (materials t !! i) eqn:E; [|reflexivity].
    apply template_store in E. fold N in E. lia. }
  assert (Hm1 : forall j, In j (mat_ids T) -> materials h1 !! (n + j) = materials t !! j).
  { intros j Hj. cbn [materials h1].
    rewrite lookup_union_r by (apply Hnone; lia). apply lookup_kmap. apply _. }
  assert (Hm21 : forall j, In j (mat_ids T) -> materials h2 !! (n + j) = materials t !! j).
  { intros j Hj. cbn [materials h2].
    rewrite lookup_union_l'; [now apply Hm1|].
    rewrite Hm1 by exact Hj. now apply HTm. }
  assert (Hm22 : forall j, In j (mat_ids T) -> materials h2 !! (n + N + j) = materials t !! j).
  { intros j Hj. cbn [materials h2 h1].
    rewrite lookup_union_r; [apply lookup_kmap; apply _|].
    apply lookup_union_None_2; [apply Hnone; lia|].
    apply lookup_kmap_None; [apply _|]. intros i Hi. apply HnoneT. lia. }
  assert (Hf1 : forest_find (n + g) (roots h1) = Some o1).
  { cbn [roots h1]. rewrite forest_find_app.
    rewrite forest_find_None by (intros Hi; apply Hold in Hi; lia).
    change [o1] with (List.map (shift_obj n) [T]).
    rewrite forest_find_shift, Hfind. reflexivity. }
  assert (Hf21 : forest_find (n + g) (roots h2) = Some o1).
  { cbn [roots h2]. rewrite forest_find_app, Hf1. reflexivity. }
  assert (Hf22 : forest_find (n + N + g) (roots h2) = Some o2).
  { cbn [roots h2 h1]. rewrite !forest_find_app.
    rewrite forest_find_None by (intros Hi; apply Hold in Hi; lia).
    rewrite (forest_find_None _ [o1]).
    - change [o2] with (List.map (shift_obj (n + N)) [T]).
      rewrite forest_find_shift, Hfind. reflexivity.
    - unfold traverse_all. simpl. rewrite app_nil_r. intros Hi.
      apply Hids1 in Hi. lia. }
  assert (Hsep : separate o1 o2).
  { split.
    - intros i H1 H2. apply Hids1 in H1. apply Hids2 in H2. lia.
    - intros j H1 H2. apply Hmids1 in H1. apply Hmids2 in H2. lia. }
  assert (Hsep' : separate o2 o1).
  { destruct Hsep as [A B]. split; intros x H1 H2; [eapply A | eapply B]; eauto. }
  exists (n + g), h1, (n + N + g), h2, o1, o2.
  repeat split.
  - unfold call. rewrite Hrun, HT. reflexivity.
  - unfold call. rewrite Hrun, HT. reflexivity.
  - exact Hf1.
  - exact Hf21.
  - exact Hf22.
  - unfold o1, o2. now rewrite !signature_shift.
  - unfold o1, o2.
    rewrite (describe_shift n (materials t)) by exact Hm1.
    rewrite (describe_shift (n + N) (materials t)) by exact Hm22. reflexivity.
  - unfold o1, o2.
    rewrite (describe_shift n (materials t)) by exact Hm21.
    rewrite (describe_shift (n + N) (materials t)) by exact Hm22. reflexivity.
  - apply Hsep.
  - apply Hsep.
  - intros i v Hi. unfold instance, heap_assign. cbn [roots].
    rewrite forest_find_alter by reflexivity. rewrite Hf22. cbn.
    rewrite obj_alter_notin; [reflexivity|]. now apply Hsep.
  - intros i v Hi. unfold instance, heap_assign. cbn [roots].
    rewrite forest_find_alter by reflexivity. rewrite Hf21. cbn.
    rewrite obj_alter_notin; [reflexivity|]. now apply Hsep'.
  - intros j w Hj. apply describe_ext. intros j' Hj'.
    apply lookup_alter_ne. intros ->. now apply (proj2 Hsep j').
  - intros j w Hj. apply describe_ext. intros j' Hj'.
    apply lookup_alter_ne. intros ->. now apply (proj2 Hsep' j').
Qed.

End CallTwice.

Lemma checked_builder (b : Build ident) :
  check_template b = true -> forall h, heap_wf h -> independent_copies b h.
Proof.
  unfold check_template. destruct (b empty_heap) as [[g t]|] eqn:E; [|discriminate].
  intros Hok. exact (call_twice b g t E Hok).
Qed.

Lemma heap_wf_empty : heap_wf empty_heap.
Proof.
  split; [constructor|]. intros i m H. cbn in H. rewrite lookup_empty in H. discriminate.
Qed.

Section Templates.
Context {host : MathHost}.

Lemma buildSorbant_template : check_template Sorbant.buildSorbant = true.
Proof. vm_compute. reflexivity. Qed.

Lemma buildPeltier_template : check_template Peltier.buildPeltier = true.
Proof. vm_compute. reflexivity. Qed.

Lemma buildFiltration_template : check_template Filtration.buildFiltration = true.
Proof. vm_compute. reflexivity. Qed.

Lemma buildAssemblage_template : check_template Assemblage.buildAssemblage = true.
Proof. vm_compute. reflexivity. Qed.

End Templates.

(** ** The view controller *)

Section Skeleton.

Lemma traverse_skel o : traverse (skel o) = List.map skel_data (traverse o).
Proof.
  induction o as [d cs IH] using Object3D_rect'. simpl. f_equal.
  induction IH as [|c cs Hc _ IHcs]; simpl; [reflexivity|].
  rewrite List.map_app, Hc, IHcs. reflexivity.
Qed.

Lemma obj_find_skel k o : obj_find k (skel o) = skel <$> obj_find k o.
Proof.
  induction o as [d cs IH] using Object3D_rect'.
  change (skel (Node d cs)) with (Node (skel_data d) (List.map skel cs)).
  rewrite !obj_find_unfold. change (oid (skel_data d)) with (oid d).
  destruct (oid d =? k); [reflexivity|].
  induction IH as [|c cs Hc _ IHcs]; simpl; [reflexivity|].
  rewrite Hc. destruct (obj_find k c); [reflexivity | exact IHcs].
Qed.

Lemma forest_find_skel k l :
  forest_find k (List.map skel l) = skel <$> forest_find k l.
Proof.
  induction l as [|c l IH]; simpl; [reflexivity|].
  rewrite obj_find_skel. destruct (obj_find k c); [reflexivity | exact IH].
Qed.

Lemma skel_alter_visible i b o : skel (obj_alter i (set_visible b) o) = skel o.
Proof.
  induction o as [d cs IH] using Object3D_rect'. simpl. f_equal.
  - destruct (oid d =? i); reflexivity.
  - induction IH as [|c cs Hc _ IHcs]; simpl; [reflexivity|].
    rewrite Hc, IHcs. reflexivity.
Qed.

Lemma skel_forest_alter_visible i b l :
  List.map skel (List.map (obj_alter i (set_visible b)) l) = List.map skel l.
Proof.
  rewrite List.map_map. apply List.map_ext. intros o. apply skel_alter_visible.
Qed.

(** Two forests with one skeleton hold the same objects up to
    [visible]. *)
Lemma same_skeleton_find k l l0 o0 :
  List.map skel l = List.map skel l0 ->
  forest_find k l0 = Some o0 ->
  exists o, forest_find k l = Some o /\ skel o = skel o0.
Proof.
  intros Hl H0.
  assert (H : skel <$> forest_find k l = Some (skel o0)).
  { rewrite <- forest_find_skel, Hl, forest_find_skel, H0. reflexivity. }
  destruct (forest_find k l) as [o|]; [|discriminate].
  exists o. split; [reflexivity|]. now injection H.
Qed.

Lemma same_skeleton_traverse o o0 :
  skel o = skel o0 ->
  List.map skel_data (traverse o) = List.map skel_data (traverse o0).
Proof. intros H. rewrite <- !traverse_skel, H. reflexivity. Qed.

End Skeleton.

Section Wireframe.

Lemma set_wireframe_id w m : wireframe m = w -> set_wireframe w m = m.
Proof. destruct m. simpl. intros <-. reflexivity. Qed.

Lemma set_wireframe_twice w w' (x : option Material) :
  set_wireframe w <$> (set_wireframe w' <$> x) = set_wireframe w <$> x.
Proof. destruct x; reflexivity. Qed.

Lemma targets_skel ds : targets (List.map skel_data ds) = targets ds.
Proof.
  unfold targets. induction ds as [|d ds IH]; [reflexivity|].
  cbn. change (Main.wire_target (skel_data d)) with (Main.wire_target d).
  destruct (Main.wire_target d); cbn; rewrite IH; reflexivity.
Qed.

Lemma apply_wireframe_targets w ds ds' ms :
  List.map skel_data ds = List.map skel_data ds' ->
  Main.apply_wireframe w ds ms = Main.apply_wireframe w ds' ms.
Proof.
  revert ds' ms. induction ds as [|d ds IH]; intros [|d' ds'] ms H; try discriminate.
  - reflexivity.
  - pose proof (f_equal (hd (skel_data d)) H) as Hd.
    pose proof (f_equal (@tl _) H) as Hds. cbn [List.map hd tl] in Hd, Hds.
    cbn [Main.apply_wireframe fold_left].
    change (Main.wire_target d) with (Main.wire_target (skel_data d)).
    rewrite Hd. change (Main.wire_target (skel_data d')) with (Main.wire_target d').
    apply IH. exact Hds.
Qed.

Lemma apply_wireframe_lookup w ds ms j :
  Main.apply_wireframe w ds ms !! j =
  if existsb (Nat.eqb j) (targets ds) then set_wireframe w <$> ms !! j else ms !! j.
Proof.
  revert ms. induction ds as [|d ds IH]; intros ms; [reflexivity|].
  unfold Main.apply_wireframe, targets in *. cbn [fold_left omap list_omap].
  destruct (Main.wire_target d) as [i|]; [|apply IH].
  rewrite IH. cbn [existsb].
  destruct (j =? i) eqn:E.
  - apply Nat.eqb_eq in E. subst i. rewrite lookup_alter_eq. cbn [orb].
    destruct (existsb _ _); [apply set_wireframe_twice | reflexivity].
  - apply Nat.eqb_neq in E. rewrite lookup_alter_ne by congruence. reflexivity.
Qed.

Lemma in_targets d i ds :
  In d ds -> Main.wire_target d = Some i -> existsb (Nat.eqb i) (targets ds) = true.
Proof.
  intros Hd Hi. apply existsb_exists. exists i. split; [|apply Nat.eqb_refl].
  unfold targets. apply list_elem_of_In, list_elem_of_omap.
  exists d. split; [now apply list_elem_of_In | exact Hi].
Qed.

End Wireframe.

Section Visibility.

(** The [visible] flag of the object [k] of a heap. *)
Lemma visible_assign h i b k :
  (fun o => visible (data o)) <$> forest_find k (roots (heap_assign i (set_visible b) h)) =
  if k =? i then (fun _ => b) <$> forest_find k (roots h)
  else (fun o => visible (data o)) <$> forest_find k (roots h).
Proof.
  unfold heap_assign. cbn [roots]. rewrite forest_find_alter by reflexivity.
  destruct (forest_find k (roots h)) as [[d cs]|] eqn:E.
  - apply forest_find_oid in E. cbn in E. cbn. rewrite E.
    destruct (k =? i); reflexivity.
  - destruct (k =? i); reflexivity.
Qed.

Lemma roots_heap_wireframe r w h : roots (Main.heap_wireframe r w h) = roots h.
Proof. unfold Main.heap_wireframe. destruct (forest_find r (roots h)); reflexivity. Qed.

Lemma next_heap_wireframe r w h : next (Main.heap_wireframe r w h) = next h.
Proof. unfold Main.heap_wireframe. destruct (forest_find r (roots h)); reflexivity. Qed.

End Visibility.

Section Invariants.
Context {host : MathHost}.

Import Main.

(** What the script built, by running it. *)
Lemma init_facts :
  scene init = 0 /\
  modules init = {| peltier := 12; sorbant := 208; filtration := 309; assemblage := 456 |} /\
  (visible_at (heap init) 12 = Some true /\
   visible_at (heap init) 208 = Some false /\
   visible_at (heap init) 309 = Some false /\
   visible_at (heap init) 456 = Some false /\
   visible_at (heap init) 0 = Some true) /\
  wired (wireOn init) (materials (heap init)) (List.map skel_data (scene_objects init)) = true /\
  labels_apart (List.map skel_data (scene_objects init)) = true /\
  meshes_have_material (List.map skel_data (scene_objects init)) = true /\
  match roots (heap init) with [o] => oid (data o) =? 0 | _ => false end = true /\
  visible_modules init = ["peltier"%string].
Proof. vm_compute. repeat split. Qed.

#[local] Opaque init.

Lemma init_find k :
  In k [12; 208; 309; 456; 0] -> exists o, forest_find k (roots (heap init)) = Some o.
Proof.
  assert (G : forall k b, visible_at (heap init) k = Some b ->
                          exists o, forest_find k (roots (heap init)) = Some o).
  { unfold visible_at. intros k' b. destruct (forest_find k' _) as [o|]; [eauto | discriminate]. }
  destruct init_facts as (_ & _ & (H1 & H2 & H3 & H4 & H5) & _).
  intros [<-|[<-|[<-|[<-|[<-|[]]]]]];
    [exact (G _ _ H1) | exact (G _ _ H2) | exact (G _ _ H3) | exact (G _ _ H4) | exact (G _ _ H5)].
Qed.

Lemma frame_init : frame init.
Proof.
  destruct init_facts as (H1 & H2 & _). split; [exact H1 | exact H2 | reflexivity].
Qed.

Lemma frame_find s k :
  frame s -> In k [12; 208; 309; 456; 0] ->
  exists o o0, forest_find k (roots (heap s)) = Some o /\
               forest_find k (roots (heap init)) = Some o0 /\ skel o = skel o0.
Proof.
  intros F Hk. destruct (init_find k Hk) as [o0 H0].
  destruct (same_skeleton_find k _ _ o0 (frame_roots s F) H0) as [o [Ho Hs]].
  exists o, o0. auto.
Qed.

Lemma frame_scene_objects s :
  frame s ->
  List.map skel_data (scene_objects s) = List.map skel_data (scene_objects init).
Proof.
  intros F. unfold scene_objects.
  rewrite (frame_scene s F), (frame_scene init frame_init).
  destruct (frame_find s 0 F) as (o & o0 & Ho & H0 & Hs); [cbn; tauto|].
  rewrite Ho, H0. now apply same_skeleton_traverse.
Qed.

Lemma skel_hide_all s :
  List.map skel (roots (heap (hide_all s))) = List.map skel (roots (heap s)).
Proof.
  unfold hide_all. cbn [heap with_heap].
  generalize (heap s) as h. generalize Object_keys as ks.
  induction ks as [|k ks IH]; intros h; [reflexivity|].
  cbn [fold_left]. rewrite IH.
  destruct (modules_get (modules s) k); try reflexivity.
  apply skel_forest_alter_visible.
Qed.

(** No handler touches the scene, the modules or the skeleton. *)
Lemma step_frame e s :
  scene (step e s) = scene s /\ modules (step e s) = modules s /\
  List.map skel (roots (heap (step e s))) = List.map skel (roots (heap s)).
Proof.
  destruct e as [nm| | | |p t]; cbn [step]; try (repeat split; reflexivity).
  - unfold switchModule.
    pose proof (skel_hide_all s) as H.
    assert (H1 : scene (hide_all s) = scene s) by reflexivity.
    assert (H2 : modules (hide_all s) = modules s) by reflexivity.
    revert H H1 H2. generalize (hide_all s) as s1. intros s1 H H1 H2.
    destruct (modules_get (modules s) nm) as [m| |] eqn:E.
    + destruct (String.eqb nm "assemblage"); cbn;
        rewrite roots_heap_wireframe; cbn [heap_set_visible heap_assign roots];
        rewrite skel_forest_alter_visible; auto.
    + cbn. auto.
    + repeat split; reflexivity.
  - unfold toggleWire. cbn. rewrite roots_heap_wireframe. repeat split; reflexivity.
Qed.

Lemma frame_step e s : frame s -> frame (step e s).
Proof.
  intros [F1 F2 F3]. destruct (step_frame e s) as (E1 & E2 & E3).
  split; [now rewrite E1 | now rewrite E2 | now rewrite E3].
Qed.

Lemma reachable_frame s : reachable s -> frame s.
Proof.
  induction 1 as [|e s _ IH]; [apply frame_init | now apply frame_step].
Qed.

End Invariants.

Section WireInvariant.
Context {host : MathHost}.

Import Main.
#[local] Opaque init.

Lemma wired_spec w ms DS :
  wired w ms DS = true <->
  forall d, In d DS -> isMesh d && negb (isLabel d) = true ->
            exists i m, material d = Some i /\ ms !! i = Some m /\ wireframe m = w.
Proof.
  unfold wired. rewrite forallb_forall. split.
  - intros H d Hd Ht. specialize (H d Hd). rewrite Ht in H.
    destruct (material d) as [i|] eqn:Ei; [|discriminate].
    destruct (ms !! i) as [m|] eqn:Em; [|discriminate].
    exists i, m. split; [reflexivity|]. split; [exact Em | now apply eqb_prop].
  - intros H d Hd. destruct (isMesh d && negb (isLabel d)) eqn:Ht; [|reflexivity].
    destruct (H d Hd Ht) as (i & m & -> & -> & <-). apply eqb_reflx.
Qed.

Lemma wire_target_Some d i :
  isMesh d && negb (isLabel d) = true -> material d = Some i -> wire_target d = Some i.
Proof. unfold wire_target. intros -> ->. reflexivity. Qed.

(** Applying the current flag again keeps every flag. *)
Lemma wired_apply_same w ds ms DS :
  wired w ms DS = true -> wired w (apply_wireframe w ds ms) DS = true.
Proof.
  rewrite !wired_spec. intros H d Hd Ht. destruct (H d Hd Ht) as (i & m & Hi & Hm & Hw).
  destruct (existsb (Nat.eqb i) (targets ds)) eqn:E.
  - exists i, (set_wireframe w m). split; [exact Hi|]. split; [|reflexivity].
    rewrite apply_wireframe_lookup, E, Hm. reflexivity.
  - exists i, m. split; [exact Hi|]. split; [|exact Hw].
    rewrite apply_wireframe_lookup, E. exact Hm.
Qed.

(** Applying a flag over the whole scene sets every flag. *)
Lemma wired_apply_all w w0 ds ms DS :
  wired w0 ms DS = true -> List.map skel_data ds = DS ->
  wired w (apply_wireframe w ds ms) DS = true.
Proof.
  rewrite !wired_spec. intros H <- d Hd Ht.
  destruct (H d Hd Ht) as (i & m & Hi & Hm & Hw).
  exists i, (set_wireframe w m). split; [exact Hi|]. split; [|reflexivity].
  rewrite apply_wireframe_lookup, Hm.
  rewrite <- (targets_skel ds), (in_targets d i); [reflexivity | exact Hd |].
  now apply wire_target_Some.
Qed.

Lemma materials_heap_wireframe r w h :
  materials (heap_wireframe r w h) =
  match forest_find r (roots h) with
  | Some o => apply_wireframe w (traverse o) (materials h)
  | None => materials h
  end.
Proof. unfold heap_wireframe. destruct (forest_find r (roots h)); reflexivity. Qed.

Lemma materials_hide_all s : materials (heap (hide_all s)) = materials (heap s).
Proof.
  unfold hide_all. cbn [heap with_heap].
  generalize (heap s) as h. generalize Object_keys as ks.
  induction ks as [|k ks IH]; intros h; [reflexivity|].
  cbn [fold_left]. rewrite IH. destruct (modules_get (modules s) k); reflexivity.
Qed.

Lemma wired_switchModule DS nm s :
  wired (wireOn s) (materials (heap s)) DS = true ->
  wired (wireOn (fst (switchModule nm s)))
    (materials (heap (fst (switchModule nm s)))) DS = true.
Proof.
  unfold switchModule. intros W.
  pose proof (materials_hide_all s) as H.
  assert (H1 : wireOn (hide_all s) = wireOn s) by reflexivity.
  revert H H1. generalize (hide_all s) as s1. intros s1 H H1.
  destruct (modules_get (modules s) nm) as [m| |] eqn:E; [| |exact W].
  - destruct (String.eqb nm "assemblage"); cbn;
      rewrite materials_heap_wireframe; cbn [heap_set_visible heap_assign materials roots];
      rewrite H, H1;
      (destruct (forest_find m _); [now apply wired_apply_same | exact W]).
  - cbn. rewrite H, H1. exact W.
Qed.

Lemma wired_toggleWire s :
  frame s -> wire_inv s -> wire_inv (toggleWire s).
Proof.
  unfold wire_inv. intros F W.
  pose proof (frame_scene_objects s F) as HS. unfold scene_objects in HS at 1.
  revert W HS. generalize (List.map skel_data (scene_objects init)) as DS.
  intros DS W HS. unfold toggleWire. cbn.
  rewrite materials_heap_wireframe.
  destruct (forest_find (scene s) (roots (heap s))) as [o|].
  - eapply wired_apply_all; eauto.
  - cbn in HS. subst DS. reflexivity.
Qed.

Lemma wire_inv_step e s : frame s -> wire_inv s -> wire_inv (step e s).
Proof.
  intros F W. destruct e as [nm| | | |p t]; cbn [step].
  - exact (wired_switchModule _ nm s W).
  - exact (wired_toggleWire s F W).
  - exact W.
  - exact W.
  - exact W.
Qed.

Lemma wire_inv_init : wire_inv init.
Proof. unfold wire_inv. exact (proj1 (proj2 (proj2 (proj2 init_facts)))). Qed.

Lemma reachable_wire_inv s : reachable s -> wire_inv s.
Proof.
  induction 1 as [|e s R IH]; [exact wire_inv_init|].
  exact (wire_inv_step e s (reachable_frame s R) IH).
Qed.

End WireInvariant.

Section SceneTree.

Lemma obj_find_incl k o r :
  obj_find k o = Some r -> incl (traverse r) (traverse o).
Proof.
  revert r. induction o as [d cs IH] using Object3D_rect'. intros r.
  rewrite obj_find_unfold. destruct (oid d =? k).
  - intros [= <-]. apply incl_refl.
  - intros H. apply incl_tl. cbn [traverse].
    induction IH as [|c cs Hc _ IHcs]; cbn in H |- *; [discriminate|].
    destruct (obj_find k c) as [r'|] eqn:E.
    + injection H as <-. apply incl_appl. now apply Hc.
    + apply incl_appr. now apply IHcs.
Qed.

Lemma skel_oid o o0 : skel o = skel o0 -> oid (data o) = oid (data o0).
Proof. destruct o, o0. cbn. intros H. now injection H. Qed.

End SceneTree.

Section Claims.
Context {host : MathHost}.

Import Main.
#[local] Opaque init.

(** In every reachable state the forest is one tree, under the scene. *)
Lemma frame_single_root s :
  frame s -> exists o, roots (heap s) = [o] /\ oid (data o) = 0 /\
                       forest_find 0 (roots (heap s)) = Some o.
Proof.
  intros F. pose proof (frame_roots s F) as H.
  destruct init_facts as (_ & _ & _ & _ & _ & _ & R & _).
  destruct (roots (heap init)) as [|o0 [|]]; try discriminate.
  destruct (roots (heap s)) as [|o [|]]; try discriminate.
  cbn in H. injection H as H. apply skel_oid in H. apply Nat.eqb_eq in R.
  exists o. split; [reflexivity|]. split; [congruence|].
  destruct o as [d cs]. cbn [forest_find]. rewrite obj_find_unfold.
  cbn in H. rewrite H, R. reflexivity.
Qed.

Lemma module_objects_in_scene s nm d :
  frame s -> In d (module_objects s nm) -> In d (scene_objects s).
Proof.
  intros F. destruct (frame_single_root s F) as (o & Ho & _ & Hf).
  unfold module_objects, scene_objects. rewrite (frame_scene s F), Hf.
  destruct (modules_get (modules s) nm) as [m| |]; try contradiction.
  rewrite Ho. cbn [forest_find].
  destruct (obj_find m o) as [r|] eqn:E; [|contradiction].
  apply (obj_find_incl m o r E).
Qed.

Lemma scene_objects_toggleWire s : scene_objects (toggleWire s) = scene_objects s.
Proof. unfold scene_objects, toggleWire. cbn. rewrite roots_heap_wireframe. reflexivity. Qed.

(** What the invariant says of the objects of a reachable state. *)
Lemma reachable_wired s d :
  reachable s -> In d (scene_objects s) -> isMesh d && negb (isLabel d) = true ->
  exists i m, material d = Some i /\ materials (heap s) !! i = Some m /\
              wireframe m = wireOn s.
Proof.
  intros R Hd Ht. pose proof (reachable_wire_inv s R) as W. unfold wire_inv in W.
  rewrite <- (frame_scene_objects s (reachable_frame s R)) in W.
  rewrite wired_spec in W. apply (W (skel_data d)); [|exact Ht].
  apply in_map. exact Hd.
Qed.

Lemma reachable_label_apart s d i :
  reachable s -> In d (scene_objects s) -> isLabel d = true -> material d = Some i ->
  existsb (Nat.eqb i) (targets (scene_objects s)) = false.
Proof.
  intros R Hd Hl Hi.
  destruct init_facts as (_ & _ & _ & _ & L & _).
  rewrite <- (frame_scene_objects s (reachable_frame s R)) in L.
  unfold labels_apart in L. rewrite forallb_forall in L.
  specialize (L (skel_data d) (in_map skel_data _ _ Hd)).
  change (isLabel (skel_data d)) with (isLabel d) in L.
  change (material (skel_data d)) with (material d) in L.
  rewrite Hl, Hi, targets_skel in L. now apply negb_true_iff in L.
Qed.

Lemma materials_toggleWire s :
  frame s ->
  materials (heap (toggleWire s)) =
  apply_wireframe (negb (wireOn s)) (scene_objects s) (materials (heap s)).
Proof.
  intros F. destruct (frame_single_root s F) as (o & _ & _ & Hf).
  unfold toggleWire, scene_objects. cbn. rewrite materials_heap_wireframe.
  rewrite (frame_scene s F), Hf. reflexivity.
Qed.

Lemma toggleWire_twice_heap s :
  reachable s -> heap (toggleWire (toggleWire s)) = heap s.
Proof.
  intros R. pose proof (reachable_frame s R) as F.
  pose proof (reachable_frame _ (reachable_step ToggleWire s R)) as F'. cbn [step] in F'.
  assert (Hm : materials (heap (toggleWire (toggleWire s))) = materials (heap s)).
  { rewrite (materials_toggleWire _ F'), scene_objects_toggleWire.
    rewrite (materials_toggleWire _ F).
    change (wireOn (toggleWire s)) with (negb (wireOn s)). rewrite negb_involutive.
    apply map_eq. intros j. rewrite !apply_wireframe_lookup.
    destruct (existsb (Nat.eqb j) (targets (scene_objects s))) eqn:E; [|reflexivity].
    rewrite set_wireframe_twice.
    apply existsb_exists in E. destruct E as (j' & Hj & Ej).
    apply Nat.eqb_eq in Ej. subst j'.
    apply list_elem_of_In, list_elem_of_omap in Hj. destruct Hj as (d & Hd & Ht).
    apply list_elem_of_In in Hd. unfold wire_target in Ht.
    destruct (isMesh d && negb (isLabel d)) eqn:Et; [|discriminate].
    destruct (reachable_wired s d R Hd Et) as (i & m & Hi & Hmi & Hw).
    assert (i = j) by congruence. subst i.
    rewrite Hmi. cbn. now rewrite set_wireframe_id. }
  assert (Hr : roots (heap (toggleWire (toggleWire s))) = roots (heap s)).
  { unfold toggleWire. cbn. now rewrite !roots_heap_wireframe. }
  assert (Hn : next (heap (toggleWire (toggleWire s))) = next (heap s)).
  { unfold toggleWire. cbn. now rewrite !next_heap_wireframe. }
  revert Hm Hr Hn. generalize (heap (toggleWire (toggleWire s))). generalize (heap s).
  intros [n1 m1 r1] [n2 m2 r2]. cbn. intros -> -> ->. reflexivity.
Qed.

End Claims.

Section ControllerClaims.
Context {host : MathHost}.

Import Main.
#[local] Opaque init.

(** C3. From every reachable state, two calls of [toggleWire] in a row
    bring the controller's flag back, and with it the wireframe flag of
    the material of every non-label mesh of the scene: the heap is the
    one before the first call. *)
Theorem C3_toggleWire_involution (s : State) :
  reachable s ->
  wireOn (toggleWire (toggleWire s)) = wireOn s /\
  scene_objects (toggleWire (toggleWire s)) = scene_objects s /\
  (forall d, In d (scene_objects s) -> isMesh d = true -> isLabel d = false ->
     exists m, material_of s d = Some m /\
               material_of (toggleWire (toggleWire s)) d = Some m /\
               wireframe m = wireOn s) /\
  heap (toggleWire (toggleWire s)) = heap s.
Proof.
  intros R. pose proof (toggleWire_twice_heap s R) as H.
  split; [apply negb_involutive|].
  split; [now rewrite !scene_objects_toggleWire|].
  split; [|exact H].
  intros d Hd Hm Hl.
  destruct (reachable_wired s d R Hd) as (i & m & Hi & Hmi & Hw).
  { rewrite Hm, Hl. reflexivity. }
  exists m. unfold material_of. rewrite H, Hi. auto.
Qed.

Lemma reachable_iter_toggleWire n s :
  reachable s -> reachable (Nat.iter n toggleWire s).
Proof.
  intros R. induction n as [|n IH]; [exact R|].
  exact (reachable_step ToggleWire _ IH).
Qed.

Lemma scene_objects_iter_toggleWire n s :
  scene_objects (Nat.iter n toggleWire s) = scene_objects s.
Proof.
  induction n as [|n IH]; [reflexivity|].
  cbn [Nat.iter nat_rect]. now rewrite scene_objects_toggleWire.
Qed.

Lemma label_toggleWire s d :
  reachable s -> In d (scene_objects s) -> isLabel d = true ->
  material_of (toggleWire s) d = material_of s d.
Proof.
  intros R Hd Hl. unfold material_of.
  destruct (material d) as [i|] eqn:Hi; [|reflexivity].
  rewrite (materials_toggleWire s (reachable_frame s R)), apply_wireframe_lookup.
  now rewrite (reachable_label_apart s d i R Hd Hl Hi).
Qed.

(** C4. [toggleWire] never changes the material of a label, however
    often it is called, and one call gives the new flag to every
    non-label mesh of the scene, in every module, active or hidden. *)
Theorem C4_toggleWire_labels_exempt (s : State) :
  reachable s ->
  (forall n d, In d (scene_objects s) -> isLabel d = true ->
     material_of (Nat.iter n toggleWire s) d = material_of s d) /\
  (forall d, In d (scene_objects s) -> isMesh d = true -> isLabel d = false ->
     exists m, material_of (toggleWire s) d = Some m /\
               wireframe m = wireOn (toggleWire s) /\
               wireOn (toggleWire s) = negb (wireOn s)) /\
  (forall nm d, In d (module_objects s nm) -> In d (scene_objects s)).
Proof.
  intros R. split; [|split].
  - intros n d Hd Hl. induction n as [|n IH]; [reflexivity|].
    cbn [Nat.iter nat_rect]. rewrite <- IH.
    apply label_toggleWire; [now apply reachable_iter_toggleWire | | exact Hl].
    now rewrite scene_objects_iter_toggleWire.
  - intros d Hd Hm Hl.
    destruct (reachable_wired (toggleWire s) d (reachable_step ToggleWire s R))
      as (i & m & Hi & Hmi & Hw).
    { now rewrite scene_objects_toggleWire. }
    { rewrite Hm, Hl. reflexivity. }
    exists m. unfold material_of. rewrite Hi. auto.
  - intros nm d. apply module_objects_in_scene. now apply reachable_frame.
Qed.

(** *** Module visibility *)

Lemma module_visible_eq s nm :
  module_visible s nm =
  match modules_get (modules s) nm with
  | Own m => default false (visible_at (heap s) m)
  | _ => false
  end.
Proof.
  unfold module_visible, visible_at.
  destruct (modules_get (modules s) nm); try reflexivity.
  destruct (forest_find m _); reflexivity.
Qed.

Lemma frame_visible_at s k :
  frame s -> In k [12; 208; 309; 456; 0] -> exists b, visible_at (heap s) k = Some b.
Proof.
  intros F Hk. destruct (frame_find s k F Hk) as (o & _ & Ho & _).
  unfold visible_at. rewrite Ho. eauto.
Qed.

Lemma visible_at_assign h i b k :
  visible_at (heap_assign i (set_visible b) h) k =
  if k =? i then (fun _ => b) <$> visible_at h k else visible_at h k.
Proof.
  unfold visible_at. rewrite visible_assign.
  destruct (k =? i); [|reflexivity]. destruct (forest_find k (roots h)); reflexivity.
Qed.

Lemma visible_at_wireframe r w h k :
  visible_at (heap_wireframe r w h) k = visible_at h k.
Proof. unfold visible_at. now rewrite roots_heap_wireframe. Qed.

Lemma heap_hide_all s :
  frame s ->
  heap (hide_all s) =
  heap_assign 456 (set_visible false)
    (heap_assign 309 (set_visible false)
       (heap_assign 208 (set_visible false)
          (heap_assign 12 (set_visible false) (heap s)))).
Proof. intros F. unfold hide_all. rewrite (frame_modules s F). reflexivity. Qed.

Lemma heap_switchModule_own s nm m :
  modules_get (modules s) nm = Own m ->
  exists c, heap (fst (switchModule nm s)) =
            heap_wireframe m c (heap_assign m (set_visible true) (heap (hide_all s))).
Proof.
  intros E. unfold switchModule. rewrite E.
  destruct (String.eqb nm "assemblage"); eexists; reflexivity.
Qed.

Lemma modules_switchModule s nm : modules (fst (switchModule nm s)) = modules s.
Proof.
  unfold switchModule. destruct (modules_get (modules s) nm); try reflexivity.
  destruct (String.eqb nm "assemblage"); reflexivity.
Qed.

(** After [switchModule(m)] for a module name [m], the module [k] is
    visible exactly when [k] is [m]. *)
Lemma switchModule_visible s m k :
  frame s -> In m Object_keys -> In k Object_keys ->
  module_visible (fst (switchModule m s)) k = String.eqb k m.
Proof.
  intros F Hm Hk.
  destruct (frame_visible_at s 12 F) as [b1 H1]; [cbn; tauto|].
  destruct (frame_visible_at s 208 F) as [b2 H2]; [cbn; tauto|].
  destruct (frame_visible_at s 309 F) as [b3 H3]; [cbn; tauto|].
  destruct (frame_visible_at s 456 F) as [b4 H4]; [cbn; tauto|].
  rewrite module_visible_eq, modules_switchModule, (frame_modules s F).
  assert (G : forall i, modules_get (modules s) m = Own i -> forall x,
                visible_at (heap (fst (switchModule m s))) x =
                visible_at (heap_assign i (set_visible true) (heap (hide_all s))) x).
  { intros i E x. destruct (heap_switchModule_own s m i E) as [c ->].
    apply visible_at_wireframe. }
  rewrite (frame_modules s F) in G.
  destruct Hm as [<-|[<-|[<-|[<-|[]]]]]; destruct Hk as [<-|[<-|[<-|[<-|[]]]]];
    cbn [modules_get String.eqb Ascii.eqb Bool.eqb peltier sorbant filtration assemblage];
    rewrite (G _ eq_refl), !visible_at_assign, (heap_hide_all s F), !visible_at_assign;
    cbn [Nat.eqb]; rewrite ?H1, ?H2, ?H3, ?H4; reflexivity.
Qed.

End ControllerClaims.

Section ControllerClaims2.
Context {host : MathHost}.

Import Main.
#[local] Opaque init.

Lemma modules_get_Own ms nm m :
  modules_get ms nm = Own m -> In nm Object_keys.
Proof.
  unfold modules_get, Object_keys.
  destruct (String.eqb nm "peltier") eqn:E1;
    [apply String.eqb_eq in E1; subst; cbn; tauto|].
  destruct (String.eqb nm "sorbant") eqn:E2;
    [apply String.eqb_eq in E2; subst; cbn; tauto|].
  destruct (String.eqb nm "filtration") eqn:E3;
    [apply String.eqb_eq in E3; subst; cbn; tauto|].
  destruct (String.eqb nm "assemblage") eqn:E4;
    [apply String.eqb_eq in E4; subst; cbn; tauto|].
  destruct (existsb _ _); discriminate.
Qed.

Lemma modules_get_key ms nm :
  In nm Object_keys -> exists m, modules_get ms nm = Own m.
Proof.
  intros [<-|[<-|[<-|[<-|[]]]]]; eexists; reflexivity.
Qed.

Lemma visible_modules_switchModule s m :
  frame s -> In m Object_keys -> visible_modules (fst (switchModule m s)) = [m].
Proof.
  intros F Hm. unfold visible_modules.
  rewrite (filter_ext_in _ (fun k => String.eqb k m)).
  - destruct Hm as [<-|[<-|[<-|[<-|[]]]]]; reflexivity.
  - intros k Hk. now apply switchModule_visible.
Qed.

Lemma visible_modules_inherited s nm :
  frame s -> modules_get (modules s) nm = Inherited ->
  visible_modules (fst (switchModule nm s)) = [].
Proof.
  intros F E.
  destruct (frame_visible_at s 12 F) as [b1 H1]; [cbn; tauto|].
  destruct (frame_visible_at s 208 F) as [b2 H2]; [cbn; tauto|].
  destruct (frame_visible_at s 309 F) as [b3 H3]; [cbn; tauto|].
  destruct (frame_visible_at s 456 F) as [b4 H4]; [cbn; tauto|].
  assert (Hh : heap (fst (switchModule nm s)) = heap (hide_all s)).
  { unfold switchModule. rewrite E. reflexivity. }
  unfold visible_modules, Object_keys. cbn [List.filter].
  rewrite !module_visible_eq, modules_switchModule, (frame_modules s F), Hh.
  cbn [modules_get String.eqb Ascii.eqb Bool.eqb peltier sorbant filtration assemblage].
  rewrite (heap_hide_all s F), !visible_at_assign. cbn [Nat.eqb].
  rewrite H1, H2, H3, H4. reflexivity.
Qed.

Lemma visible_modules_init : visible_modules init = ["peltier"%string].
Proof. exact (proj2 (proj2 (proj2 (proj2 (proj2 (proj2 (proj2 init_facts))))))). Qed.

Lemma visible_modules_step e s :
  frame s -> length (visible_modules s) <= 1 -> length (visible_modules (step e s)) <= 1.
Proof.
  intros F H. destruct e as [nm| | | |p t]; cbn [step]; try exact H.
  - destruct (modules_get (modules s) nm) as [m| |] eqn:E.
    + rewrite (visible_modules_switchModule s nm F (modules_get_Own _ _ _ E)).
      cbn. lia.
    + rewrite (visible_modules_inherited s nm F E). cbn. lia.
    + unfold switchModule. rewrite E. exact H.
  - unfold visible_modules, module_visible, toggleWire in *. cbn.
    rewrite roots_heap_wireframe. exact H.
Qed.

Lemma reachable_visible_modules s : reachable s -> length (visible_modules s) <= 1.
Proof.
  induction 1 as [|e s R IH].
  - rewrite visible_modules_init. cbn. lia.
  - exact (visible_modules_step e s (reachable_frame s R) IH).
Qed.

(** C1. After [switchModule(m)] for one of the four module names, from
    any reachable state, the module [m] is visible and the other three
    are not; and in every reachable state at most one module is
    visible. *)
Theorem C1_one_module_visible (s : State) (m : string) :
  reachable s -> In m Object_keys ->
  (forall k, In k Object_keys ->
     module_visible (fst (switchModule m s)) k = String.eqb k m) /\
  visible_modules (fst (switchModule m s)) = [m] /\
  length (visible_modules s) <= 1.
Proof.
  intros R Hm. pose proof (reachable_frame s R) as F.
  split; [|split].
  - intros k Hk. exact (switchModule_visible s m k F Hm Hk).
  - exact (visible_modules_switchModule s m F Hm).
  - exact (reachable_visible_modules s R).
Qed.

(** A name that is neither a key of [modules] nor a member of
    [Object.prototype] leaves the state as it is. *)
Lemma switchModule_undefined (s : State) (nm : string) :
  modules_get (modules s) nm = Undefined -> switchModule nm s = (s, Normal).
Proof. intros E. unfold switchModule. rewrite E. reflexivity. Qed.


End ControllerClaims2.

(** ** Floating-point comparisons *)

Section FloatOrder.

Lemma SFcompare_antisym x y c :
  SFcompare x y = Some c -> SFcompare y x = Some (CompOpp c).
Proof.
  destruct x as [sx|sx| |sx mx ex], y as [sy|sy| |sy my ey]; cbn;
    try discriminate;
    try (destruct sx; intros [= <-]; reflexivity);
    try (destruct sy; intros [= <-]; reflexivity);
    try (intros [= <-]; reflexivity).
  - destruct sx, sy; intros [= <-]; reflexivity.
  - destruct sx, sy; intros [= <-]; try reflexivity.
    + rewrite (Z.compare_antisym ex ey).
      destruct (ex ?= ey)%Z; cbn; try reflexivity.
      rewrite (Pos.compare_cont_antisym mx my Eq). reflexivity.
    + rewrite (Z.compare_antisym ex ey).
      destruct (ex ?= ey)%Z; cbn; try reflexivity.
      rewrite (Pos.compare_cont_antisym mx my Eq). reflexivity.
Qed.

(** [x <= y] excludes [y < x]. *)
Lemma leb_not_ltb (x y : float) :
  PrimFloat.leb x y = true -> PrimFloat.ltb y x = false.
Proof.
  rewrite leb_spec, ltb_spec. unfold SFleb, SFltb.
  destruct (SFcompare (Prim2SF x) (Prim2SF y)) as [c|] eqn:E; [|discriminate].
  rewrite (SFcompare_antisym _ _ _ E). destruct c; cbn; congruence.
Qed.

End FloatOrder.

(** ** Materials *)

Section Materials.

#[local] Open Scope float_scope.

Lemma follows_threshold_opaque o m :
  follows_threshold o m -> (0.99 <=? o) = true -> (o <? 1) = true ->
  transparent m = false /\ side m = FrontSide.
Proof.
  intros (_ & Ht & Hs) Hlo _. rewrite Ht, Hs, (leb_not_ltb _ _ Hlo). split; reflexivity.
Qed.




End Materials.

(** ** The builders *)

Section BuilderClaims.
Context {host : MathHost}.

#[local] Open Scope float_scope.

(** C5. In the composite that [buildAssemblage] returns, the groups are
    the filtration module at the height 11, the Peltier module at 33
    and the sorbant module at 50, each at x = z = 0.  The composite
    itself is at the origin, and the electronics parts are its own
    children, so their offset is [Y_ELEC = 0]: the floor plate of the
    electronics case, 0.5 thick and centred at the height 0.25, stands
    on the plane y = 0.  In the scene of [main.js] the composite is at
    the origin of a scene at the origin, so these are the heights in
    world space as well. *)
Theorem C5_assembly_offsets :
  option_map layout (built Assemblage.buildAssemblage) =
    Some (V3 0 0 0,
          [ ("filtration"%string, V3 0 11 0);
            ("peltier"%string, V3 0 33 0);
            ("sorbant"%string, V3 0 50 0) ]) /\
  (Assemblage.Y_FILTR = 11 /\ Assemblage.Y_PELTIER = 33 /\
   Assemblage.Y_SORBANT = 50 /\ Assemblage.Y_ELEC = 0) /\
  option_map (fun root => nth_error (direct_parts root) 6)
    (built Assemblage.buildAssemblage) =
    Some (Some (Some (BoxGeometry 50 0.5 40), V3 0 0.25 0)) /\
  0.25 - 0.5 / 2 = Assemblage.Y_ELEC /\
  option_map layout
    (instance (Main.heap Main.init) (Main.assemblage (Main.modules Main.init))) =
    Some (V3 0 0 0,
          [ ("filtration"%string, V3 0 11 0);
            ("peltier"%string, V3 0 33 0);
            ("sorbant"%string, V3 0 50 0) ]) /\
  option_map (fun o => position (data o))
    (instance (Main.heap Main.init) (Main.scene Main.init)) = Some (V3 0 0 0).
Proof. vm_compute. repeat split. Qed.

(** The side walls of the sorbant chamber are the first two children of
    the group: indexed meshes of 8 vertices and 12 triangles, the front
    edge at the height [H_AV] and the rear edge at [H_AR]. *)
Lemma sorbant_side_walls :
  option_map (fun root => List.map (fun c => geometry (data c)) (firstn 2 (children root)))
    (built Sorbant.buildSorbant) =
    Some [ Some (BufferGeometry (Sorbant.trapWall_verts (- Sorbant.HW)) 3 Sorbant.trapWall_idx);
           Some (BufferGeometry (Sorbant.trapWall_verts Sorbant.HW) 3 Sorbant.trapWall_idx) ] /\
  (forall x, List.length (Sorbant.trapWall_verts x) = 24%nat) /\
  List.length (Winding.triangles Sorbant.trapWall_idx) = 12%nat /\
  (forall x, vy (Winding.vertex (Sorbant.trapWall_verts x) 3) = Sorbant.H_AV /\
             vy (Winding.vertex (Sorbant.trapWall_verts x) 7) = Sorbant.H_AV /\
             vy (Winding.vertex (Sorbant.trapWall_verts x) 2) = Sorbant.H_AR /\
             vy (Winding.vertex (Sorbant.trapWall_verts x) 6) = Sorbant.H_AR).
Proof.
  split; [vm_compute; reflexivity|]. repeat split.
Qed.

(** C8, at the right wall.  The index array winds the twelve triangles
    one way throughout.  On the left wall ([xPos = -HW]) that way is
    outwards: the triangles of the front face, which lies in the plane
    z = -20 with the wall behind it, have the normal (0, 0, -36), and
    those of the bottom face have (0, -80, 0).  On the right wall
    ([xPos = HW]) the same triangles have the normals (0, 0, 36) and
    (0, 80, 0), which point into the wall. *)
Theorem C8_right_wall_wound_inwards :
  Winding.consistent Sorbant.trapWall_idx = true /\
  List.map (Winding.normal (Sorbant.trapWall_verts (- Sorbant.HW))) front_and_bottom =
    [V3 0 0 (-36); V3 0 0 (-36); V3 0 (-80) 0; V3 0 (-80) 0] /\
  List.map (Winding.normal (Sorbant.trapWall_verts Sorbant.HW)) front_and_bottom =
    [V3 0 0 36; V3 0 0 36; V3 0 80 0; V3 0 80 0] /\
  List.map (fun k => vz (Winding.vertex (Sorbant.trapWall_verts Sorbant.HW) k)) (seq 0 8) =
    [-20; 20; 20; -20; -20; 20; 20; -20] /\
  List.map (fun k => vx (Winding.vertex (Sorbant.trapWall_verts Sorbant.HW) k)) (seq 0 8) =
    [25; 25; 25; 25; 23; 23; 23; 23].
Proof. vm_compute. repeat split. Qed.

End BuilderClaims.

(** With the reference host, where the rear height is a number: all
    twelve triangles of the left wall are wound outwards, all twelve of
    the right wall inwards. *)
Lemma trap_walls_on_reference_host :
  forallb (Winding.outward (@Sorbant.trapWall_verts ReferenceHost.host (- Sorbant.HW)) 8)
    (Winding.triangles Sorbant.trapWall_idx) = true /\
  forallb (Winding.inward (@Sorbant.trapWall_verts ReferenceHost.host Sorbant.HW) 8)
    (Winding.triangles Sorbant.trapWall_idx) = true /\
  existsb (Winding.outward (@Sorbant.trapWall_verts ReferenceHost.host Sorbant.HW) 8)
    (Winding.triangles Sorbant.trapWall_idx) = false.
Proof. vm_compute. repeat split. Qed.

Section MoreClaims.
Context {host : MathHost}.

(** C2, at the name ["constructor"].  It is no key of [modules], yet
    [modules["constructor"]] is the function [Object], so the guard lets
    it pass: the four modules are hidden, [activeModule] becomes
    ["constructor"], and the call ends in a [TypeError] at
    [modules[name].traverse]. *)
Theorem C2_switchModule_inherited_name :
  existsb (String.eqb "constructor") Main.Object_keys = false /\
  Main.snapshot Main.init =
    ([true; false; false; false], "peltier"%string, false, false,
     V3 95 55 95, V3 0 7 0) /\
  Main.snapshot (fst (Main.switchModule "constructor" Main.init)) =
    ([false; false; false; false], "constructor"%string, false, false,
     V3 95 55 95, V3 0 7 0) /\
  snd (Main.switchModule "constructor" Main.init) =
    Main.Throw "TypeError: modules[name].traverse is not a function".
Proof. vm_compute. repeat split. Qed.

(** The same from any state: a member of [Object.prototype] passes the
    guard. *)
Lemma switchModule_inherited (s : Main.State) (nm : string) :
  Main.modules_get (Main.modules s) nm = Main.Inherited ->
  Main.activeModule (fst (Main.switchModule nm s)) = nm /\
  Main.proto_visible (fst (Main.switchModule nm s)) = nm :: Main.proto_visible s /\
  snd (Main.switchModule nm s) =
    Main.Throw "TypeError: modules[name].traverse is not a function".
Proof. intros E. unfold Main.switchModule. rewrite E. repeat split. Qed.


End MoreClaims.

(** ** The claims at a concrete input *)


Lemma sample_state_reachable : @Main.reachable ReferenceHost.host sample_state.
Proof. repeat constructor. Defined.

Lemma C1_witness :
  (forall k, In k Main.Object_keys ->
     Main.module_visible (fst (Main.switchModule "sorbant" sample_state)) k
     = String.eqb k "sorbant") /\
  Main.visible_modules (fst (Main.switchModule "sorbant" sample_state)) = ["sorbant"%string] /\
  length (Main.visible_modules sample_state) <= 1.
Proof.
  apply (@C1_one_module_visible ReferenceHost.host sample_state "sorbant").
  - exact sample_state_reachable.
  - cbn. tauto.
Defined.

Lemma C3_witness :
  Main.wireOn (Main.toggleWire (Main.toggleWire sample_state)) = Main.wireOn sample_state /\
  Main.scene_objects (Main.toggleWire (Main.toggleWire sample_state))
  = Main.scene_objects sample_state /\
  (forall d, In d (Main.scene_objects sample_state) -> isMesh d = true -> isLabel d = false ->
     exists m, Main.material_of sample_state d = Some m /\
               Main.material_of (Main.toggleWire (Main.toggleWire sample_state)) d = Some m /\
               wireframe m = Main.wireOn sample_state) /\
  Main.heap (Main.toggleWire (Main.toggleWire sample_state)) = Main.heap sample_state.
Proof.
  apply (@C3_toggleWire_involution ReferenceHost.host sample_state).
  exact sample_state_reachable.
Defined.

Lemma C4_witness :
  (forall n d, In d (Main.scene_objects sample_state) -> isLabel d = true ->
     Main.material_of (Nat.iter n Main.toggleWire sample_state) d
     = Main.material_of sample_state d) /\
  (forall d, In d (Main.scene_objects sample_state) -> isMesh d = true -> isLabel d = false ->
     exists m, Main.material_of (Main.toggleWire sample_state) d = Some m /\
               wireframe m = Main.wireOn (Main.toggleWire sample_state) /\
               Main.wireOn (Main.toggleWire sample_state) = negb (Main.wireOn sample_state)) /\
  (forall nm d, In d (module_objects sample_state nm) ->
                  In d (Main.scene_objects sample_state)).
Proof.
  apply (@C4_toggleWire_labels_exempt ReferenceHost.host sample_state).
  exact sample_state_reachable.
Defined.


(** * Further properties *)

(** ** More on the view controller *)

Section Materials2.

Lemma targets_inv i ds :
  existsb (Nat.eqb i) (targets ds) = true ->
  exists d, In d ds /\ Main.wire_target d = Some i.
Proof.
  intros H. apply existsb_exists in H. destruct H as (j & Hj & E).
  apply Nat.eqb_eq in E. subst j.
  apply list_elem_of_In in Hj. unfold targets in Hj.
  apply list_elem_of_omap in Hj. destruct Hj as (d & Hd & Hw).
  exists d. split; [now apply list_elem_of_In | exact Hw].
Qed.

(** A wireframe pass over objects whose materials already carry the
    flag changes nothing. *)
Lemma apply_wireframe_in_sync w ds ms :
  (forall i m, existsb (Nat.eqb i) (targets ds) = true ->
               ms !! i = Some m -> wireframe m = w) ->
  Main.apply_wireframe w ds ms = ms.
Proof.
  intros H. apply map_eq. intros j. rewrite apply_wireframe_lookup.
  destruct (existsb (Nat.eqb j) (targets ds)) eqn:E; [|reflexivity].
  destruct (ms !! j) as [m|] eqn:Ej; [|reflexivity].
  cbn. f_equal. apply set_wireframe_id. exact (H j m E Ej).
Qed.

(** A wireframe pass writes wireframe flags only. *)
Lemma apply_wireframe_modulo w b ds (ms : gmap ident Material) :
  set_wireframe b <$> Main.apply_wireframe w ds ms = set_wireframe b <$> ms.
Proof.
  apply map_eq. intros j. rewrite !lookup_fmap, apply_wireframe_lookup.
  destruct (existsb (Nat.eqb j) (targets ds)); [|reflexivity].
  apply set_wireframe_twice.
Qed.

End Materials2.

Section Maps.

Lemma obj_alter_map i f o : obj_alter i f o = obj_map (alter_data i f) o.
Proof.
  induction o as [d cs IH] using Object3D_rect'. cbn. unfold alter_data at 1. f_equal.
  induction IH as [|c cs Hc _ IHcs]; cbn; [reflexivity|]. now rewrite Hc, IHcs.
Qed.

Lemma obj_map_map f g o : obj_map f (obj_map g o) = obj_map (fun d => f (g d)) o.
Proof.
  induction o as [d cs IH] using Object3D_rect'. cbn. f_equal.
  induction IH as [|c cs Hc _ IHcs]; cbn; [reflexivity|]. now rewrite Hc, IHcs.
Qed.

Lemma obj_map_ext f g o : (forall d, f d = g d) -> obj_map f o = obj_map g o.
Proof.
  intros E. induction o as [d cs IH] using Object3D_rect'. cbn. rewrite E. f_equal.
  induction IH as [|c cs Hc _ IHcs]; cbn; [reflexivity|]. now rewrite Hc, IHcs.
Qed.

Lemma forest_map_map f g (l : list Object3D) :
  List.map (obj_map f) (List.map (obj_map g) l) = List.map (obj_map (fun d => f (g d))) l.
Proof. rewrite List.map_map. apply List.map_ext. intros o. apply obj_map_map. Qed.

Lemma forest_alter_map i f (l : list Object3D) :
  List.map (obj_alter i f) l = List.map (obj_map (alter_data i f)) l.
Proof. apply List.map_ext. intros o. apply obj_alter_map. Qed.

Lemma alter_visible i b d :
  alter_data i (set_visible b) d = set_visible (if oid d =? i then b else visible d) d.
Proof.
  unfold alter_data. destruct (oid d =? i); [reflexivity | destruct d; reflexivity].
Qed.

(** The flag that [switchModule] leaves on an object, from its identity
    and the flag it had. *)
Lemma switch_visible_eq m d :
  switch_visible m d =
  set_visible
    (if oid d =? m then true
     else if oid d =? 456 then false
     else if oid d =? 309 then false
     else if oid d =? 208 then false
     else if oid d =? 12 then false
     else visible d) d.
Proof.
  unfold switch_visible. rewrite (alter_visible 12 false d).
  rewrite (alter_visible 208). cbn [oid visible set_visible].
  rewrite (alter_visible 309). cbn [oid visible set_visible].
  rewrite (alter_visible 456). cbn [oid visible set_visible].
  rewrite (alter_visible m). cbn [oid visible set_visible].
  reflexivity.
Qed.

Lemma switch_visible_idem m d :
  switch_visible m (switch_visible m d) = switch_visible m d.
Proof.
  rewrite (switch_visible_eq m (switch_visible m d)), (switch_visible_eq m d).
  cbn [oid visible set_visible].
  destruct (oid d =? m); [reflexivity|].
  destruct (oid d =? 456); [reflexivity|].
  destruct (oid d =? 309); [reflexivity|].
  destruct (oid d =? 208); [reflexivity|].
  destruct (oid d =? 12); reflexivity.
Qed.

Lemma heap_eq (h1 h2 : Heap) :
  next h1 = next h2 -> materials h1 = materials h2 -> roots h1 = roots h2 -> h1 = h2.
Proof. destruct h1, h2. cbn. intros -> -> ->. reflexivity. Qed.

End Maps.

Section Handlers.
Context {host : MathHost}.

Import Main.
#[local] Opaque init.

Lemma reachable_in_sync s i m :
  reachable s ->
  existsb (Nat.eqb i) (targets (scene_objects s)) = true ->
  materials (heap s) !! i = Some m -> wireframe m = wireOn s.
Proof.
  intros R Hi Hm. destruct (targets_inv _ _ Hi) as (d & Hd & Hw).
  unfold wire_target in Hw.
  destruct (isMesh d && negb (isLabel d)) eqn:E; [|discriminate].
  destruct (reachable_wired s d R Hd E) as (i' & m' & H1 & H2 & H3).
  congruence.
Qed.

Lemma frame_shown m s : frame s -> frame (shown m s).
Proof.
  intros [F1 F2 F3]. split.
  - exact F1.
  - exact F2.
  - unfold shown, heap_set_visible. cbn [heap with_heap heap_assign roots].
    rewrite skel_forest_alter_visible.
    rewrite skel_hide_all. exact F3.
Qed.


Lemma materials_shown m s : materials (heap (shown m s)) = materials (heap s).
Proof. unfold shown. cbn [heap with_heap heap_set_visible heap_assign materials]. apply materials_hide_all. Qed.

Lemma scene_targets_frame s1 s2 :
  frame s1 -> frame s2 -> targets (scene_objects s1) = targets (scene_objects s2).
Proof.
  intros F1 F2. rewrite <- (targets_skel (scene_objects s1)), <- (targets_skel (scene_objects s2)).
  rewrite (frame_scene_objects s1 F1), (frame_scene_objects s2 F2). reflexivity.
Qed.

(** In a reachable state the wireframe pass of [switchModule] finds
    every material with the flag it writes. *)
Lemma wireframe_pass_idle s m o :
  reachable s ->
  forest_find m (roots (heap (shown m s))) = Some o ->
  apply_wireframe (wireOn s) (traverse o) (materials (heap s)) = materials (heap s).
Proof.
  intros R Ho. pose proof (reachable_frame s R) as F.
  pose proof (frame_shown m s F) as F1.
  apply apply_wireframe_in_sync. intros i x Hi Hx.
  apply (reachable_in_sync s i x R); [|exact Hx].
  rewrite <- (scene_targets_frame (shown m s) s F1 F).
  destruct (targets_inv _ _ Hi) as (d & Hd & Hw).
  apply (in_targets d); [|exact Hw].
  destruct (frame_single_root _ F1) as (r & Hr & Hr0 & Hfind).
  unfold scene_objects. rewrite (frame_scene _ F1), Hfind.
  rewrite Hr in Ho. cbn in Ho. destruct (obj_find m r) as [o'|] eqn:E; [|discriminate].
  injection Ho as ->. exact (obj_find_incl _ _ _ E d Hd).
Qed.

(** [switchModule] for one of the four modules, field by field. *)
Lemma switchModule_own s nm m :
  modules_get (modules s) nm = Own m ->
  switchModule nm s =
  (Build_State (heap_wireframe m (wireOn s) (heap (shown m s)))
     (scene s) (modules s) nm (wireOn s) (autoRot s)
     (fst (preset_pose nm)) (snd (preset_pose nm))
     (controls_autoRotate s) (controls_autoRotateSpeed s)
     (show_legend (legMap nm) (hide_legends (activate_button nm (dom s))))
     (proto_visible s), Normal).
Proof.
  intros E. unfold switchModule, preset_pose. rewrite E.
  destruct (String.eqb nm "assemblage"); reflexivity.
Qed.

Lemma switchModule_heap_inherited s nm :
  modules_get (modules s) nm = Inherited ->
  heap (fst (switchModule nm s)) = heap (hide_all s).
Proof. intros E. unfold switchModule. rewrite E. reflexivity. Qed.

Lemma materials_switchModule s nm :
  reachable s -> materials (heap (fst (switchModule nm s))) = materials (heap s).
Proof.
  intros R. destruct (modules_get (modules s) nm) as [m| |] eqn:E.
  - rewrite (switchModule_own s nm m E). cbn [fst heap].
    rewrite materials_heap_wireframe, materials_shown.
    destruct (forest_find m (roots (heap (shown m s)))) as [o|] eqn:Ho; [|reflexivity].
    exact (wireframe_pass_idle s m o R Ho).
  - rewrite (switchModule_heap_inherited s nm E). apply materials_hide_all.
  - rewrite (switchModule_undefined s nm E). reflexivity.
Qed.

Lemma roots_shown s m :
  frame s ->
  roots (heap (shown m s)) = List.map (obj_map (switch_visible m)) (roots (heap s)).
Proof.
  intros F. unfold shown, heap_set_visible. cbn [heap with_heap].
  rewrite (heap_hide_all s F). cbn [heap_assign roots].
  rewrite !forest_alter_map, !forest_map_map. reflexivity.
Qed.

Lemma next_shown s m : next (heap (shown m s)) = next (heap s).
Proof.
  unfold shown, heap_set_visible, hide_all. cbn [heap with_heap heap_assign next].
  generalize (heap s). generalize Object_keys.
  induction l as [|k l IH]; intros h; cbn [fold_left]; [reflexivity|].
  rewrite IH. destruct (modules_get (modules s) k); reflexivity.
Qed.

Lemma roots_switchModule s nm m :
  frame s -> modules_get (modules s) nm = Own m ->
  roots (heap (fst (switchModule nm s))) = List.map (obj_map (switch_visible m)) (roots (heap s)).
Proof.
  intros F E. rewrite (switchModule_own s nm m E). cbn [fst heap].
  rewrite roots_heap_wireframe. exact (roots_shown s m F).
Qed.

Lemma next_switchModule s nm m :
  modules_get (modules s) nm = Own m ->
  next (heap (fst (switchModule nm s))) = next (heap s).
Proof.
  intros E. rewrite (switchModule_own s nm m E). cbn [fst heap].
  rewrite next_heap_wireframe. apply next_shown.
Qed.

Lemma legends_idem id (L : gmap string string) :
  let f (L : gmap string string) :=
    <[id := ""%string]>
      (<["legend-assemblage"%string := "none"%string]>
         (<["legend-filtration"%string := "none"%string]>
            (<["legend-sorbant"%string := "none"%string]>
               (<["legend"%string := "none"%string]> L)))) in
  f (f L) = f L.
Proof.
  cbv zeta. apply map_eq. intros k. rewrite !lookup_insert.
  repeat case_decide; reflexivity.
Qed.

Lemma dom_switch_idem nm d :
  show_legend (legMap nm) (hide_legends (activate_button nm
    (show_legend (legMap nm) (hide_legends (activate_button nm d))))) =
  show_legend (legMap nm) (hide_legends (activate_button nm d)).
Proof.
  unfold show_legend, hide_legends, activate_button.
  cbn [btn_wire_on btn_rot_on mod_btn_active legend_display fold_left].
  f_equal. apply legends_idem.
Qed.

Lemma reachable_switchModule s nm : reachable s -> reachable (fst (switchModule nm s)).
Proof. intros R. exact (reachable_step (SwitchModule nm) s R). Qed.

Lemma heap_switchModule_twice s nm m :
  reachable s -> modules_get (modules s) nm = Own m ->
  heap (fst (switchModule nm (fst (switchModule nm s)))) = heap (fst (switchModule nm s)).
Proof.
  intros R E. pose proof (reachable_frame s R) as F.
  pose proof (reachable_switchModule s nm R) as R1.
  pose proof (reachable_frame _ R1) as F1.
  assert (E1 : modules_get (modules (fst (switchModule nm s))) nm = Own m)
    by (rewrite modules_switchModule; exact E).
  apply heap_eq.
  - rewrite (next_switchModule _ nm m E1). reflexivity.
  - rewrite (materials_switchModule _ nm R1). reflexivity.
  - rewrite (roots_switchModule _ nm m F1 E1), (roots_switchModule s nm m F E).
    rewrite forest_map_map. apply List.map_ext. intros o. apply obj_map_ext. intros d.
    apply switch_visible_idem.
Qed.

Lemma state_eq (s t : State) :
  heap s = heap t -> scene s = scene t -> modules s = modules t ->
  activeModule s = activeModule t -> wireOn s = wireOn t -> autoRot s = autoRot t ->
  camera_position s = camera_position t -> controls_target s = controls_target t ->
  controls_autoRotate s = controls_autoRotate t ->
  controls_autoRotateSpeed s = controls_autoRotateSpeed t ->
  dom s = dom t -> proto_visible s = proto_visible t -> s = t.
Proof. destruct s, t. cbn. intros. subst. reflexivity. Qed.

Lemma switchModule_fields s nm m :
  modules_get (modules s) nm = Own m ->
  scene (fst (switchModule nm s)) = scene s /\
  activeModule (fst (switchModule nm s)) = nm /\
  wireOn (fst (switchModule nm s)) = wireOn s /\
  autoRot (fst (switchModule nm s)) = autoRot s /\
  camera_position (fst (switchModule nm s)) = fst (preset_pose nm) /\
  controls_target (fst (switchModule nm s)) = snd (preset_pose nm) /\
  controls_autoRotate (fst (switchModule nm s)) = controls_autoRotate s /\
  controls_autoRotateSpeed (fst (switchModule nm s)) = controls_autoRotateSpeed s /\
  dom (fst (switchModule nm s)) =
    show_legend (legMap nm) (hide_legends (activate_button nm (dom s))) /\
  proto_visible (fst (switchModule nm s)) = proto_visible s /\
  snd (switchModule nm s) = Normal.
Proof. intros E. rewrite (switchModule_own s nm m E). cbn. repeat split. Qed.


Lemma switchModule_inherited_state s nm :
  modules_get (modules s) nm = Inherited ->
  switchModule nm s =
  (Build_State (heap (hide_all s)) (scene s) (modules s) nm (wireOn s) (autoRot s)
     (camera_position s) (controls_target s)
     (controls_autoRotate s) (controls_autoRotateSpeed s)
     (hide_legends (activate_button nm (dom s)))
     (nm :: proto_visible s),
   Throw "TypeError: modules[name].traverse is not a function").
Proof. intros E. unfold switchModule. rewrite E. reflexivity. Qed.

Lemma wireOn_switchModule s nm : wireOn (fst (switchModule nm s)) = wireOn s.
Proof.
  destruct (modules_get (modules s) nm) as [m| |] eqn:E.
  - rewrite (switchModule_own s nm m E). reflexivity.
  - rewrite (switchModule_inherited_state s nm E). reflexivity.
  - rewrite (switchModule_undefined s nm E). reflexivity.
Qed.

(** The forest after [switchModule] is read off from the forest before
    it. *)
Lemma forest_switchModule_ext s t nm :
  frame s -> frame t ->
  roots (heap t) = roots (heap s) -> next (heap t) = next (heap s) ->
  roots (heap (fst (switchModule nm t))) = roots (heap (fst (switchModule nm s))) /\
  next (heap (fst (switchModule nm t))) = next (heap (fst (switchModule nm s))).
Proof.
  intros F G Hr Hn.
  assert (Hm : modules t = modules s)
    by (rewrite (frame_modules t G), (frame_modules s F); reflexivity).
  destruct (modules_get (modules s) nm) as [m| |] eqn:E.
  - assert (E' : modules_get (modules t) nm = Own m) by (rewrite Hm; exact E).
    rewrite (roots_switchModule t nm m G E'), (roots_switchModule s nm m F E).
    rewrite (next_switchModule t nm m E'), (next_switchModule s nm m E).
    rewrite Hr. split; [reflexivity | exact Hn].
  - assert (E' : modules_get (modules t) nm = Inherited) by (rewrite Hm; exact E).
    rewrite (switchModule_heap_inherited t nm E'), (switchModule_heap_inherited s nm E).
    rewrite (heap_hide_all t G), (heap_hide_all s F). cbn [heap_assign roots next].
    rewrite Hr. split; [reflexivity | exact Hn].
  - assert (E' : modules_get (modules t) nm = Undefined) by (rewrite Hm; exact E).
    rewrite (switchModule_undefined t nm E'), (switchModule_undefined s nm E).
    split; [exact Hr | exact Hn].
Qed.

Lemma heap_toggleWire s :
  heap (toggleWire s) = heap_wireframe (scene s) (negb (wireOn s)) (heap s).
Proof. reflexivity. Qed.

Lemma heap_toggleWire_switchModule s nm :
  reachable s ->
  heap (toggleWire (fst (switchModule nm s))) = heap (fst (switchModule nm (toggleWire s))).
Proof.
  intros R. pose proof (reachable_frame s R) as F.
  pose proof (reachable_switchModule s nm R) as R1.
  pose proof (reachable_frame _ R1) as F1.
  pose proof (reachable_step ToggleWire s R) as R2. cbn [step] in R2.
  pose proof (reachable_frame _ R2) as F2.
  destruct (forest_switchModule_ext s (toggleWire s) nm F F2) as [Hr Hn].
  { rewrite heap_toggleWire. apply roots_heap_wireframe. }
  { rewrite heap_toggleWire. apply next_heap_wireframe. }
  apply heap_eq.
  - rewrite heap_toggleWire, next_heap_wireframe. symmetry. exact Hn.
  - rewrite (materials_toggleWire _ F1), (materials_switchModule s nm R).
    rewrite (materials_switchModule _ nm R2), (materials_toggleWire s F).
    rewrite wireOn_switchModule.
    apply apply_wireframe_targets.
    rewrite (frame_scene_objects _ F1), (frame_scene_objects s F). reflexivity.
  - rewrite heap_toggleWire, roots_heap_wireframe. symmetry. exact Hr.
Qed.

(** The wireframe button and the module buttons can be pressed in
    either order. *)
Theorem toggleWire_switchModule_commute (s : State) (nm : string) :
  reachable s ->
  toggleWire (fst (switchModule nm s)) = fst (switchModule nm (toggleWire s)) /\
  snd (switchModule nm (toggleWire s)) = snd (switchModule nm s).
Proof.
  intros R. pose proof (heap_toggleWire_switchModule s nm R) as H.
  destruct (modules_get (modules s) nm) as [m| |] eqn:E.
  - assert (E' : modules_get (modules (toggleWire s)) nm = Own m) by exact E.
    revert H. rewrite (switchModule_own (toggleWire s) nm m E'), (switchModule_own s nm m E).
    intros H. split; [|reflexivity]. apply state_eq; try reflexivity. exact H.
  - assert (E' : modules_get (modules (toggleWire s)) nm = Inherited) by exact E.
    revert H.
    rewrite (switchModule_inherited_state (toggleWire s) nm E'),
      (switchModule_inherited_state s nm E).
    intros H. split; [|reflexivity]. apply state_eq; try reflexivity. exact H.
  - assert (E' : modules_get (modules (toggleWire s)) nm = Undefined) by exact E.
    rewrite (switchModule_undefined (toggleWire s) nm E'), (switchModule_undefined s nm E).
    split; reflexivity.
Qed.

(** *** Names *)

Lemma modules_get_Inherited ms nm :
  modules_get ms nm = Inherited <-> In nm Object_prototype.
Proof.
  split.
  - unfold modules_get.
    destruct (String.eqb nm "peltier"); [discriminate|].
    destruct (String.eqb nm "sorbant"); [discriminate|].
    destruct (String.eqb nm "filtration"); [discriminate|].
    destruct (String.eqb nm "assemblage"); [discriminate|].
    destruct (existsb (String.eqb nm) Object_prototype) eqn:E; [|discriminate].
    intros _. apply existsb_exists in E. destruct E as (x & Hx & E).
    apply String.eqb_eq in E. now subst x.
  - intros H. cbn in H.
    repeat (destruct H as [<-|H]; [reflexivity|]). contradiction.
Qed.

Lemma visible_modules_toggleWire s : visible_modules (toggleWire s) = visible_modules s.
Proof.
  unfold visible_modules. apply List.filter_ext. intros k.
  rewrite !module_visible_eq. change (modules (toggleWire s)) with (modules s).
  destruct (modules_get (modules s) k); try reflexivity.
  rewrite heap_toggleWire, visible_at_wireframe. reflexivity.
Qed.

(** More of what the script built, by running it. *)
Lemma init_fields :
  activeModule init = "peltier"%string /\
  autoRot init = false /\
  controls_autoRotate init = false /\
  camera_position init = V3 95 55 95 /\
  controls_target init = V3 0 7 0.
Proof. vm_compute. repeat split. Qed.


(** In a reachable state the wireframe pass at the end of
    [switchModule] finds every material with the flag it writes:
    [switchModule] changes no material, whatever the name. *)
Theorem switchModule_changes_no_material (s : State) (nm : string) :
  reachable s ->
  materials (heap (fst (switchModule nm s))) = materials (heap s).
Proof. exact (materials_switchModule s nm). Qed.


(** What a call with the name of a member of [Object.prototype] leaves
    behind: no module visible, the four legends hidden, [activeModule]
    set to the name; the toggles, the materials and the camera are not
    touched. *)
Theorem switchModule_inherited_effect (s : State) (nm : string) :
  reachable s -> In nm Object_prototype ->
  visible_modules (fst (switchModule nm s)) = [] /\
  activeModule (fst (switchModule nm s)) = nm /\
  (forall id, In id ["legend"; "legend-sorbant"; "legend-filtration"; "legend-assemblage"]%string ->
     legend_display (dom (fst (switchModule nm s))) !! id = Some "none"%string) /\
  materials (heap (fst (switchModule nm s))) = materials (heap s) /\
  (wireOn (fst (switchModule nm s)), autoRot (fst (switchModule nm s)),
   camera_position (fst (switchModule nm s)), controls_target (fst (switchModule nm s)))
  = (wireOn s, autoRot s, camera_position s, controls_target s).
Proof.
  intros R P. apply (modules_get_Inherited (modules s)) in P.
  pose proof (reachable_frame s R) as F.
  split; [exact (visible_modules_inherited s nm F P)|].
  split; [rewrite (switchModule_inherited_state s nm P); reflexivity|].
  split.
  - rewrite (switchModule_inherited_state s nm P). cbn [fst dom hide_legends legend_display fold_left].
    intros id [<-|[<-|[<-|[<-|[]]]]]; rewrite !lookup_insert; repeat case_decide;
      try reflexivity; congruence.
  - split; [exact (materials_switchModule s nm R)|].
    rewrite (switchModule_inherited_state s nm P). reflexivity.
Qed.

Lemma materials_step_modulo b e s :
  set_wireframe b <$> materials (heap (step e s)) = set_wireframe b <$> materials (heap s).
Proof.
  destruct e as [nm| | | |p t]; cbn [step]; try reflexivity.
  - destruct (modules_get (modules s) nm) as [m| |] eqn:E.
    + rewrite (switchModule_own s nm m E). cbn [fst heap].
      rewrite materials_heap_wireframe, materials_shown.
      destruct (forest_find m _); [apply apply_wireframe_modulo | reflexivity].
    + rewrite (switchModule_heap_inherited s nm E), materials_hide_all. reflexivity.
    + rewrite (switchModule_undefined s nm E). reflexivity.
  - rewrite heap_toggleWire, materials_heap_wireframe.
    destruct (forest_find _ _); [apply apply_wireframe_modulo | reflexivity].
Qed.

Lemma next_hide_all s : next (heap (hide_all s)) = next (heap s).
Proof.
  unfold hide_all. cbn [heap with_heap].
  generalize (heap s). generalize Object_keys.
  induction l as [|k l IH]; intros h; cbn [fold_left]; [reflexivity|].
  rewrite IH. destruct (modules_get (modules s) k); reflexivity.
Qed.

Lemma next_step e s : next (heap (step e s)) = next (heap s).
Proof.
  destruct e as [nm| | | |p t]; cbn [step]; try reflexivity.
  - destruct (modules_get (modules s) nm) as [m| |] eqn:E.
    + exact (next_switchModule s nm m E).
    + rewrite (switchModule_heap_inherited s nm E). apply next_hide_all.
    + rewrite (switchModule_undefined s nm E). reflexivity.
  - rewrite heap_toggleWire. apply next_heap_wireframe.
Qed.

(** The handlers write [visible] flags of objects and [wireframe] flags
    of materials, and nothing else of the scene: in every reachable
    state the forest is the one the script built up to [visible]
    flags, the store holds the same materials up to [wireframe] flags,
    and no object or material has been created. *)
Theorem handlers_write_flags_only (s : State) :
  reachable s ->
  List.map skel (roots (heap s)) = List.map skel (roots (heap init)) /\
  set_wireframe false <$> materials (heap s) = set_wireframe false <$> materials (heap init) /\
  next (heap s) = next (heap init) /\
  scene s = scene init /\ modules s = modules init.
Proof.
  induction 1 as [|e s R (IH1 & IH2 & IH3 & IH4 & IH5)].
  - repeat split.
  - destruct (step_frame e s) as (S1 & S2 & S3).
    rewrite S3, S1, S2, materials_step_modulo, next_step.
    exact (conj IH1 (conj IH2 (conj IH3 (conj IH4 IH5)))).
Qed.

(** After [switchModule] for one of the four modules the legend of that
    module is shown and the three others are hidden, whatever was shown
    before; the button of the module is the active one. *)
Theorem switchModule_shows_one_legend (s : State) (nm : string) :
  In nm Object_keys ->
  In (legMap nm) ["legend"; "legend-sorbant"; "legend-filtration"; "legend-assemblage"]%string /\
  (forall id,
     In id ["legend"; "legend-sorbant"; "legend-filtration"; "legend-assemblage"]%string ->
     legend_display (dom (fst (switchModule nm s))) !! id =
     Some (if String.eqb id (legMap nm) then "" else "none")%string) /\
  mod_btn_active (dom (fst (switchModule nm s))) = Some nm /\
  (forall nm', In nm' Object_keys -> legMap nm' = legMap nm -> nm' = nm).
Proof.
  intros K. destruct (modules_get_key (modules s) nm K) as [m E].
  destruct (switchModule_fields s nm m E) as (_ & _ & _ & _ & _ & _ & _ & _ & -> & _).
  unfold show_legend, hide_legends, activate_button.
  cbn [legend_display mod_btn_active fold_left].
  cbn in K. destruct K as [<-|[<-|[<-|[<-|[]]]]]; cbn [legMap String.eqb Ascii.eqb Bool.eqb].
  all: split; [cbn; tauto|]; split; [|split; [reflexivity|]].
  all: try (intros id [<-|[<-|[<-|[<-|[]]]]]; rewrite !lookup_insert; repeat case_decide;
            try reflexivity; congruence).
  all: intros nm' [<-|[<-|[<-|[<-|[]]]]]; cbn; congruence.
Qed.

#[local] Open Scope float_scope.

Lemma autoRot_switchModule s nm :
  autoRot (fst (switchModule nm s)) = autoRot s /\
  controls_autoRotate (fst (switchModule nm s)) = controls_autoRotate s /\
  controls_autoRotateSpeed (fst (switchModule nm s)) = controls_autoRotateSpeed s.
Proof.
  destruct (modules_get (modules s) nm) as [m| |] eqn:E.
  - rewrite (switchModule_own s nm m E). repeat split.
  - rewrite (switchModule_inherited_state s nm E). repeat split.
  - rewrite (switchModule_undefined s nm E). repeat split.
Qed.

Lemma autoRotate_step e s :
  controls_autoRotate s = autoRot s ->
  controls_autoRotate (step e s) = autoRot (step e s).
Proof.
  intros H. destruct e as [nm| | | |p t]; cbn [step]; try exact H.
  - destruct (autoRot_switchModule s nm) as (-> & -> & _). exact H.
  - reflexivity.
Qed.

Lemma reachable_autoRotate s : reachable s -> controls_autoRotate s = autoRot s.
Proof.
  induction 1 as [|e s R IH]; [|exact (autoRotate_step e s IH)].
  destruct init_fields as (_ & H2 & H3 & _). exact (eq_trans H3 (eq_sym H2)).
Qed.

(** [toggleRot] flips [autoRot], hands it to the orbit controls with the
    speed 1.2, and changes nothing else of the snapshot; the controls'
    flag is [autoRot] in every reachable state.  The speed stays at 1.2
    from the first call on, so two calls in a row undo each other only
    from the second call on. *)
Theorem toggleRot_flips_autoRotate (s : State) :
  reachable s ->
  controls_autoRotate s = autoRot s /\
  snapshot (toggleRot s) =
    (List.map (module_visible s) Object_keys, activeModule s, wireOn s,
     negb (autoRot s), camera_position s, controls_target s) /\
  (controls_autoRotate (toggleRot s), controls_autoRotateSpeed (toggleRot s))
  = (negb (autoRot s), 1.2) /\
  heap (toggleRot s) = heap s /\
  toggleRot (toggleRot (toggleRot s)) = toggleRot s.
Proof.
  intros R. split; [exact (reachable_autoRotate s R)|].
  repeat split. unfold toggleRot. cbn. rewrite negb_involutive. reflexivity.
Qed.


End Handlers.

(** ** More on the builders *)

Section Builders2.
Context {host : MathHost}.

#[local] Open Scope float_scope.

(** Every outline of the four modules comes right after the mesh it
    outlines, has the geometry of its edges and has its position,
    rotation and scale: no builder moves a mesh once it is outlined. *)
Theorem outlines_follow_their_meshes :
  well_outlined Sorbant.buildSorbant /\
  well_outlined Peltier.buildPeltier /\
  well_outlined Filtration.buildFiltration /\
  well_outlined Assemblage.buildAssemblage /\
  List.map outline_count
    [Sorbant.buildSorbant; Peltier.buildPeltier; Filtration.buildFiltration;
     Assemblage.buildAssemblage]
  = [Some 2; Some 10; Some 13; Some 31]%nat.
Proof.
  split; [|split; [|split; [|split]]]; vm_compute; try reflexivity;
    repeat (apply List.Forall_cons; [repeat split; eexists; split; reflexivity|]);
    apply List.Forall_nil.
Qed.

(** The three groups inside the composite are the modules as their own
    builders return them, put at their heights: [buildAssemblage]
    changes nothing else of them. *)
Theorem assembly_embeds_the_modules :
  described_part "filtration" Assemblage.buildAssemblage
  = placed_at (V3 0 Assemblage.Y_FILTR 0) <$> described Filtration.buildFiltration /\
  described_part "peltier" Assemblage.buildAssemblage
  = placed_at (V3 0 Assemblage.Y_PELTIER 0) <$> described Peltier.buildPeltier /\
  described_part "sorbant" Assemblage.buildAssemblage
  = placed_at (V3 0 Assemblage.Y_SORBANT 0) <$> described Sorbant.buildSorbant /\
  is_Some (described Filtration.buildFiltration) /\
  is_Some (described Peltier.buildPeltier) /\
  is_Some (described Sorbant.buildSorbant).
Proof.
  vm_compute. repeat split; eexists; reflexivity.
Qed.

End Builders2.

Section HelpersScene.
Context {host : MathHost}.

(** The primitives of [helpers.js] put together, for any options: the
    objects are children of the scene in the order of the calls; the
    outline has the transform of the box and the geometry of its edges;
    the label is a mesh, set apart by its [isLabel] mark only; and the
    wireframe pass of [toggleWire] over the scene sets the flag on the
    materials of the box and of the cylinder and on no other. *)
Theorem helpers_scene_wireframe
    (b : Helpers.BoxOptions) (c : Helpers.CylOptions)
    (ecolor : option Z) (eopacity : option float)
    (text : string) (x y z : float) (style : option string) (size : option float)
    (w : bool) :
  exists h o,
    helpers_scene b c ecolor eopacity text x y z style size empty_heap
    = Some ((0, (2, 4, 6, 8)), h) /\
    instance h 0 = Some o /\
    List.map (fun k => (oid (data k), otype (data k), isLabel (data k), material (data k)))
      (children o)
    = [(2, Mesh, false, Some 1); (4, LineSegments, false, Some 3);
       (6, Mesh, false, Some 5); (8, Mesh, true, Some 7)] /\
    Forall outlines (outline_pairs o) /\
    List.length (outline_pairs o) = 1 /\
    materials h !! 1 = Some (Helpers.box_material b) /\
    materials h !! 5 = Some (Helpers.cyl_material c) /\
    materials (Main.heap_wireframe 0 w h) =
      <[1 := set_wireframe w (Helpers.box_material b)]>
        (<[5 := set_wireframe w (Helpers.cyl_material c)]> (materials h)).
Proof.
  eexists. eexists. split; [vm_compute; reflexivity|].
  split; [vm_compute; reflexivity|].
  vm_compute. repeat split.
  repeat (apply List.Forall_cons; [repeat split; eexists; split; reflexivity|]).
  apply List.Forall_nil.
Qed.

End HelpersScene.

Section WaterPath.
Context {host : MathHost}.

(** The pipes that [buildFluxEau] lays between the modules of the
    composite start where the drain tubes of the sorbant and of the
    Peltier module end, meet at the junction, and end where the inlet
    pipe of the filtration module starts: the waypoints are the same
    floating-point numbers once the height of each module is added. *)
Theorem water_path_connected :
  exists comp S P F fromS fromP collector drainS drainP inletF junction,
    built Assemblage.buildAssemblage = Some comp /\
    (part "sorbant" comp = Some S /\ upright S) /\
    (part "peltier" comp = Some P /\ upright P) /\
    (part "filtration" comp = Some F /\ upright F) /\
    tube_paths comp !! 3 = Some fromS /\
    tube_paths comp !! 4 = Some fromP /\
    tube_paths comp !! 5 = Some collector /\
    tube_paths S !! 0 = Some drainS /\
    tube_paths P !! 0 = Some drainP /\
    tube_paths F !! 1 = Some inletF /\
    inlet fromS = in_parent S <$> outlet drainS /\
    inlet fromP = in_parent P <$> outlet drainP /\
    outlet fromS = Some junction /\
    outlet fromP = Some junction /\
    inlet collector = Some junction /\
    outlet collector = in_parent F <$> inlet inletF /\
    is_Some (outlet collector).
Proof.
  vm_compute. do 11 eexists.
  repeat (split; [reflexivity || (split; [reflexivity | split; reflexivity])|]).
  eexists; reflexivity.
Qed.

End WaterPath.

Section GutterVersion.
Context {host : MathHost}.

#[local] Open Scope float_scope.

Lemma buildAssemblage0_template : check_template Assemblage0.buildAssemblage = true.
Proof. vm_compute. reflexivity. Qed.

(** The version of [assemblage.js] with gutters builds the same stack:
    the three modules, unchanged, at the heights 11, 33 and 50, as in
    the other version; and its outlines lie on their meshes. *)
Theorem gutter_version_stack :
  layout <$> built Assemblage0.buildAssemblage
  = Some (V3 0 0 0, [("filtration"%string, V3 0 11 0); ("peltier"%string, V3 0 33 0);
                     ("sorbant"%string, V3 0 50 0)]) /\
  layout <$> built Assemblage0.buildAssemblage = layout <$> built Assemblage.buildAssemblage /\
  described_part "filtration" Assemblage0.buildAssemblage
  = placed_at (V3 0 Assemblage.Y_FILTR 0) <$> described Filtration.buildFiltration /\
  described_part "peltier" Assemblage0.buildAssemblage
  = placed_at (V3 0 Assemblage.Y_PELTIER 0) <$> described Peltier.buildPeltier /\
  described_part "sorbant" Assemblage0.buildAssemblage
  = placed_at (V3 0 Assemblage.Y_SORBANT 0) <$> described Sorbant.buildSorbant /\
  well_outlined Assemblage0.buildAssemblage /\
  outline_count Assemblage0.buildAssemblage = Some 30%nat.
Proof.
  split; [vm_compute; reflexivity|].
  split; [vm_compute; reflexivity|].
  split; [vm_compute; reflexivity|].
  split; [vm_compute; reflexivity|].
  split; [vm_compute; reflexivity|].
  split; [|vm_compute; reflexivity].
  vm_compute.
  repeat (apply List.Forall_cons; [repeat split; eexists; split; reflexivity|]).
  apply List.Forall_nil.
Qed.

(** In that version the gutter from the sorbant module does not start
    where the drain tube of the module ends, nor does the gutter from
    the Peltier module: the pipes of [buildFluxEau] in the other
    version do. *)
Theorem gutters_start_off_the_drains :
  exists comp S P gutterS gutterP drainS drainP,
    built Assemblage0.buildAssemblage = Some comp /\
    (part "sorbant" comp = Some S /\ upright S) /\
    (part "peltier" comp = Some P /\ upright P) /\
    tube_paths comp !! 2%nat = Some gutterS /\
    tube_paths comp !! 3%nat = Some gutterP /\
    tube_paths S !! 0%nat = Some drainS /\
    tube_paths P !! 0%nat = Some drainP /\
    inlet gutterS = Some (V3 (-20) 51.5 (-18)) /\
    in_parent S <$> outlet drainS = Some (V3 (-20) 54.4 (-21.3)) /\
    inlet gutterP = Some (V3 0 33.5 (-18)) /\
    in_parent P <$> outlet drainP = Some (V3 (-20) 33.85 (-24)).
Proof.
  vm_compute. do 7 eexists.
  repeat (split; [reflexivity || (split; [reflexivity | split; reflexivity])|]).
  reflexivity.
Qed.


End GutterVersion.

(** ** The further properties at a concrete input *)



Lemma toggleWire_switchModule_commute_witness :
  Main.toggleWire (fst (Main.switchModule "assemblage" sample_state))
  = fst (Main.switchModule "assemblage" (Main.toggleWire sample_state)) /\
  snd (Main.switchModule "assemblage" (Main.toggleWire sample_state))
  = snd (Main.switchModule "assemblage" sample_state).
Proof.
  apply (@toggleWire_switchModule_commute ReferenceHost.host sample_state "assemblage").
  exact sample_state_reachable.
Defined.

Lemma switchModule_changes_no_material_witness :
  materials (Main.heap (fst (Main.switchModule "filtration" sample_state)))
  = materials (Main.heap sample_state).
Proof.
  apply (@switchModule_changes_no_material ReferenceHost.host sample_state "filtration").
  exact sample_state_reachable.
Defined.

Lemma handlers_write_flags_only_witness :
  List.map skel (roots (Main.heap sample_state))
  = List.map skel (roots (Main.heap (@Main.init ReferenceHost.host))) /\
  set_wireframe false <$> materials (Main.heap sample_state)
  = set_wireframe false <$> materials (Main.heap (@Main.init ReferenceHost.host)) /\
  next (Main.heap sample_state) = next (Main.heap (@Main.init ReferenceHost.host)) /\
  Main.scene sample_state = Main.scene (@Main.init ReferenceHost.host) /\
  Main.modules sample_state = Main.modules (@Main.init ReferenceHost.host).
Proof.
  apply (@handlers_write_flags_only ReferenceHost.host sample_state).
  exact sample_state_reachable.
Defined.


Lemma switchModule_inherited_effect_witness :
  Main.visible_modules (fst (Main.switchModule "toString" sample_state)) = [] /\
  Main.activeModule (fst (Main.switchModule "toString" sample_state)) = "toString"%string /\
  (forall id, In id ["legend"; "legend-sorbant"; "legend-filtration"; "legend-assemblage"]%string ->
     Main.legend_display (Main.dom (fst (Main.switchModule "toString" sample_state))) !! id
     = Some "none"%string) /\
  materials (Main.heap (fst (Main.switchModule "toString" sample_state)))
  = materials (Main.heap sample_state) /\
  (Main.wireOn (fst (Main.switchModule "toString" sample_state)),
   Main.autoRot (fst (Main.switchModule "toString" sample_state)),
   Main.camera_position (fst (Main.switchModule "toString" sample_state)),
   Main.controls_target (fst (Main.switchModule "toString" sample_state)))
  = (Main.wireOn sample_state, Main.autoRot sample_state,
     Main.camera_position sample_state, Main.controls_target sample_state).
Proof.
  apply (@switchModule_inherited_effect ReferenceHost.host sample_state "toString").
  - exact sample_state_reachable.
  - cbn. tauto.
Defined.

Lemma switchModule_shows_one_legend_witness :
  In (Main.legMap "sorbant")
    ["legend"; "legend-sorbant"; "legend-filtration"; "legend-assemblage"]%string /\
  (forall id,
     In id ["legend"; "legend-sorbant"; "legend-filtration"; "legend-assemblage"]%string ->
     Main.legend_display (Main.dom (fst (Main.switchModule "sorbant" sample_state))) !! id =
     Some (if String.eqb id (Main.legMap "sorbant") then "" else "none")%string) /\
  Main.mod_btn_active (Main.dom (fst (Main.switchModule "sorbant" sample_state)))
  = Some "sorbant"%string /\
  (forall nm', In nm' Main.Object_keys -> Main.legMap nm' = Main.legMap "sorbant" ->
               nm' = "sorbant"%string).
Proof.
  apply (switchModule_shows_one_legend sample_state "sorbant").
  cbn. tauto.
Defined.

Lemma toggleRot_flips_autoRotate_witness :
  Main.controls_autoRotate sample_state = Main.autoRot sample_state /\
  Main.snapshot (Main.toggleRot sample_state) =
    (List.map (Main.module_visible sample_state) Main.Object_keys,
     Main.activeModule sample_state, Main.wireOn sample_state,
     negb (Main.autoRot sample_state), Main.camera_position sample_state,
     Main.controls_target sample_state) /\
  (Main.controls_autoRotate (Main.toggleRot sample_state),
   Main.controls_autoRotateSpeed (Main.toggleRot sample_state))
  = (negb (Main.autoRot sample_state), 1.2%float) /\
  Main.heap (Main.toggleRot sample_state) = Main.heap sample_state /\
  Main.toggleRot (Main.toggleRot (Main.toggleRot sample_state)) = Main.toggleRot sample_state.
Proof.
  apply (@toggleRot_flips_autoRotate ReferenceHost.host sample_state).
  exact sample_state_reachable.
Defined.
